(** * pynwm: National Water Model access through HydroShare

    A shallow embedding of [pynwm/nwm.py] and the properties of its core:
    the COMID index resolver, the time-series unpacker, the channel-file
    subsetter, the streamflow cube builder and the file combiner.

    Conventions of the embedding
    - a Python exception is a value of [pyerr]; a call that may raise returns
      [result A];
    - numpy integer arrays are [list Z]; positions in an array are [nat]
      (numpy wraps negative positions, but [argsort] and [searchsorted] only
      produce non-negative ones);
    - a [datetime] is a count of microseconds since the Unix epoch, the
      resolution of Python's [datetime]; building one outside the years 1 to
      9999 raises, as in Python;
    - the file system is a finite map from path names to file contents. *)

From Stdlib Require Import ZArith QArith String Ascii List Lia.
From stdpp Require Import base list strings pretty gmap sorting.

Local Open Scope Z_scope.

(** ** Exceptions *)

Inductive pyerr : Type :=
| ValueError (msg : string)
| IndexError
| TypeError
| KeyError (key : string)
| IOError
| AttributeError
| UnboundLocalError
| OverflowError
| PyException (msg : string).

Inductive result (A : Type) : Type :=
| Ok (a : A)
| Raise (e : pyerr).
Arguments Ok {A} a.
Arguments Raise {A} e.

#[global] Instance result_ret : MRet result := fun A a => Ok a.
#[global] Instance result_bind : MBind result := fun A B f m =>
  match m with
  | Ok a => f a
  | Raise e => Raise e
  end.

(** [ [f x for x in l] ] where [f] may raise: the first exception wins. *)
Fixpoint traverse {A B} (f : A -> result B) (l : list A) : result (list B) :=
  match l with
  | [] => Ok []
  | x :: l' => y ← f x; ys ← traverse f l'; mret (y :: ys)
  end.

(** ** The numpy operations used by the module *)

Module np.

(** [a[i]] for one position. *)
Definition item {A} (a : list A) (i : nat) : result A :=
  match a !! i with
  | Some x => Ok x
  | None => Raise IndexError
  end.

(** [a[idx]] for an integer index array [idx] (fancy indexing): one cell per
    index, [IndexError] as soon as one index is out of bounds. *)
Definition take {A} (a : list A) (idx : list nat) : result (list A) :=
  traverse (item a) idx.

(** The order [argsort] sorts by: the key of a (value, position) pair. *)
Definition key_le (p q : Z * nat) : Prop := p.1 ≤ q.1.

#[global] Instance key_le_dec p q : Decision (key_le p q).
Proof. unfold key_le. apply _. Defined.

(** [a.argsort()]: the positions of [a] in ascending order of their values,
    obtained by sorting the (value, position) pairs on the value.  numpy
    leaves the order of equal values unspecified; the model keeps them in a
    fixed order. *)
Definition argsort_pairs (a : list Z) : list (Z * nat) :=
  merge_sort key_le (zip a (seq 0 (length a))).

Definition argsort (a : list Z) : list nat := (argsort_pairs a).*2.

(** The left bisection of [np.searchsorted(a, v)]: the loop
    [while lo < hi: mid = lo + ((hi - lo) >> 1);
                    if a[mid] < v: lo = mid + 1 else: hi = mid]. *)
Fixpoint bisect_left (a : list Z) (v : Z) (fuel lo hi : nat) : nat :=
  match fuel with
  | O => lo
  | S fuel' =>
      if decide (lo < hi)%nat then
        let mid := (lo + (hi - lo) / 2)%nat in
        match a !! mid with
        | Some x =>
            if decide (x < v) then bisect_left a v fuel' (S mid) hi
            else bisect_left a v fuel' lo mid
        | None => lo
        end
      else lo
  end.

(** [np.searchsorted(a, v)] for a scalar [v]; the interval [0, len(a))
    shrinks at every turn, so [len(a)] turns are enough. *)
Definition searchsorted1 (a : list Z) (v : Z) : nat :=
  bisect_left a v (length a) 0 (length a).

(** [np.searchsorted(a, vs)] for an array of keys. *)
Definition searchsorted (a : list Z) (vs : list Z) : list nat :=
  searchsorted1 a <$> vs.

End np.

(** ** Identifier index resolver *)

(** [_get_comid_indices(find_comids, nc_comids)].  The test
    [type(find_comids) != 'numpy.ndarray'] compares a type with a string and
    always holds, so [find_comids] is always rebuilt with [np.array]. *)
Definition _get_comid_indices (find_comids nc_comids : list Z)
  : result (list nat) :=
  let sorted_index := np.argsort nc_comids in
  sorted_nc_comids ← np.take nc_comids sorted_index;
  let found_index_sorted := np.searchsorted sorted_nc_comids find_comids in
  np.take sorted_index found_index_sorted.

(** ** Dates and durations *)

(** A [datetime] is a number of microseconds since the Unix epoch (UTC), a
    [timedelta] a number of microseconds. *)
Abbreviation datetime := Z.
Abbreviation timedelta := Z.

Definition microseconds_per_second : Z := 1000000.

(** [timedelta(hours=h)]. *)
Definition timedelta_hours (h : Z) : timedelta :=
  h * 3600 * microseconds_per_second.

(** The instant [s] seconds after the epoch. *)
Definition datetime_of_epoch (s : Z) : datetime :=
  s * microseconds_per_second.

(** The epoch seconds of 0001-01-01 00:00:00 and of 9999-12-31 23:59:59, the
    first and the last second of [datetime]. *)
Definition min_epoch : Z := -62135596800.
Definition max_epoch : Z := 253402300799.

(** [datetime.min] and [datetime.max]. *)
Definition datetime_min : datetime := datetime_of_epoch min_epoch.
Definition datetime_max : datetime := datetime_of_epoch max_epoch + 999999.

(** [datetime.utcfromtimestamp(s).replace(tzinfo=pytz.utc)] for an integer
    number of seconds [s]: a ValueError outside the years 1 to 9999 (the
    message is the one of a year out of range; farther out the platform
    words it differently). *)
Definition utcfromtimestamp (s : Z) : result datetime :=
  if bool_decide (min_epoch <= s <= max_epoch) then Ok (datetime_of_epoch s)
  else Raise (ValueError "year is out of range").

(** [d + delta] for a datetime [d]: an OverflowError when the sum leaves the
    years 1 to 9999.  (A [timedelta] of more than 999999999 days cannot even
    be built, with the same exception; such a sum is out of range as well.) *)
Definition datetime_add (d : datetime) (delta : timedelta) : result datetime :=
  if bool_decide (datetime_min <= d + delta <= datetime_max) then Ok (d + delta)
  else Raise OverflowError.

(** [d.total_seconds()] stored into a cell of an integer array: the float is
    truncated towards zero. *)
Definition total_seconds_int (d : timedelta) : Z :=
  Z.quot d microseconds_per_second.

(** ** Time-series unpacker *)

(** One result record of the get-netcdf-data payload, the Python list
    [[sim_head, member_1, ..., member_k, sim_label]]: [sim_result[0]] is
    [sim_head] (a list whose first cell is the model initialisation time in
    epoch seconds), [sim_result[1:-1]] is [sim_members] (one list of values
    per ensemble member), [sim_result[-1]] is [sim_label], and
    [len(sim_result)] is [length sim_members + 2]. *)
Record sim_result : Type := SimResult {
  sim_head : list Z;
  sim_members : list (list Q);
  sim_label : string
}.

(** The value of [json_data.itervalues().next()]: one record for the
    products without ensemble, a list of records for the ensemble product. *)
Inductive ts_payload : Type :=
| Single (r : sim_result)
| Ensemble (rs : list sim_result).

(** A series of the result, the dict [{'name': .., 'dates': .., 'values': ..}]. *)
Record series : Type := Series {
  name : string;
  dates : list datetime;
  values : list Q
}.

Definition empty_result_msg : string :=
  "Empty result set. Try adjusting input parameters".

(** The [if]/[elif] chain that binds [time_step_hrs] and [offset_hrs]; for
    any other product the two names stay unbound. *)
Definition product_timing (product : string) : option (Z * Z) :=
  if decide (product = "analysis_assim") then Some (1, 3)
  else if decide (product = "short_range") then Some (1, 1)
  else if decide (product = "medium_range") then Some (3, 3)
  else if decide (product = "long_range") then Some (6, 6)
  else None.

(** [len(sim_result[1])]: the second cell of the record is its first value
    list, or its label when the record has no value list at all. *)
Definition first_len (r : sim_result) : nat :=
  match sim_members r with
  | m :: _ => length m
  | [] => String.length (sim_label r)
  end.

(** ['Member {0} {1}'.format(i + 1, label)]. *)
Definition member_name (i : nat) (label : string) : string :=
  "Member " +:+ pretty (i + 1)%nat +:+ " " +:+ label.

(** The body of the loop [for sim_result in data_list] for one record: the
    series it appends to [series_list]. *)
Definition unpack_record (product : string) (r : sim_result)
  : result (list series) :=
  if decide (first_len r = 0%nat) then Raise (ValueError empty_result_msg)
  else
    init_epoch ← np.item (sim_head r) 0;
    model_init_time ← utcfromtimestamp init_epoch;
    '(time_step_hrs, offset_hrs) ←
      match product_timing product with
      | Some t => Ok t
      | None => Raise UnboundLocalError
      end;
    start_date ← datetime_add model_init_time (timedelta_hours offset_hrs);
    let value_count := first_len r in
    let series_count := length (sim_members r) in
    dates ← traverse
      (fun i : nat =>
         datetime_add start_date (timedelta_hours (Z.of_nat i * time_step_hrs)))
      (seq 0 value_count);
    let label := sim_label r in
    mret (imap (fun i value_list =>
                  {| name := if decide (1 < series_count)%nat
                             then member_name i label else product;
                     dates := dates;
                     values := value_list |})
               (sim_members r)).

(** The loop over [data_list], threading [series_list]. *)
Fixpoint unpack_loop (product : string) (data_list : list sim_result)
    (series_list : list series) : result (list series) :=
  match data_list with
  | [] => Ok series_list
  | r :: rest =>
      new ← unpack_record product r;
      unpack_loop product rest (series_list ++ new)
  end.

(** [_unpack_series(json_data, product)].  For a product other than
    long_range the payload is wrapped into a one-element list.  A payload of
    the other shape is then read one level off: a list of records taken for a
    record has a record where the value list should be and a list where the
    initialisation time should be; a record taken for a list of records is
    entered through its head, whose second cell is a number. *)
Definition _unpack_series (json_data : ts_payload) (product : string)
  : result (list series) :=
  if decide (product = "long_range") then
    match json_data with
    | Ensemble rs => unpack_loop product rs []
    | Single r =>
        if decide (length (sim_head r) < 2)%nat then Raise IndexError
        else Raise TypeError
    end
  else
    match json_data with
    | Single r => unpack_loop product [r] []
    | Ensemble rs =>
        if decide (length rs < 2)%nat then Raise IndexError
        else Raise TypeError
    end.

(** The list [data_list] the loop runs over, when the payload has the shape
    that goes with the product. *)
Definition payload_records (product : string) (json_data : ts_payload)
  : option (list sim_result) :=
  match json_data with
  | Single r => if decide (product = "long_range") then None else Some [r]
  | Ensemble rs => if decide (product = "long_range") then Some rs else None
  end.

(** The timing table of the products: (product, step in hours, offset in
    hours from the initialisation time to the first sample). *)
Definition timing_table : list (string * Z * Z) :=
  [("analysis_assim", 1, 3); ("short_range", 1, 1);
   ("medium_range", 3, 3); ("long_range", 6, 6)].

(** The model initialisation time of a record, [sim_result[0][0]]. *)
Definition init_epoch (r : sim_result) : Z := default 0 (sim_head r !! 0%nat).

(** The dates [init_time + offset + step * i] for [i] in [[0, n)]. *)
Definition date_sequence (init offset step : Z) (n : nat) : list datetime :=
  (fun i : nat => datetime_of_epoch init + timedelta_hours offset
                  + Z.of_nat i * timedelta_hours step) <$> seq 0 n.

(** The [n] dates from [init] on are dates Python can build: the
    initialisation time is not before the year 1 and the last date not after
    the year 9999. *)
Definition dates_fit (init offset step : Z) (n : nat) : Prop :=
  min_epoch <= init /\
  datetime_of_epoch init + timedelta_hours offset
  + (Z.of_nat n - 1) * timedelta_hours step <= datetime_max.

(** A record with data whose dates can be built, for a product with the given
    offset and step: it carries an initialisation time and its first value
    list is not empty. *)
Definition unpackable (offset step : Z) (r : sim_result) : Prop :=
  sim_head r <> [] /\ first_len r <> 0%nat /\
  dates_fit (init_epoch r) offset step (first_len r).

(** The value lists of a record are parallel: there is at least one, and
    they all have one length. *)
Definition parallel (r : sim_result) : Prop :=
  sim_members r <> [] /\
  forall value_list, value_list ∈ sim_members r ->
    length value_list = first_len r.

(** ** COMID lists at the public interface *)

(** An element of a COMID list handed to a public function: a Python [int]
    or a Python [str]. *)
Inductive comid : Type :=
| CInt (z : Z)
| CStr (s : string).

Fixpoint lstrip (l : list ascii) : list ascii :=
  match l with
  | c :: l' => if Ascii.is_space c then lstrip l' else l
  | [] => []
  end.

(** [s.strip()]. *)
Definition strip (l : list ascii) : list ascii :=
  reverse (lstrip (reverse (lstrip l))).

(** The value of a non-empty run of decimal digits. *)
Fixpoint digits_value (l : list ascii) (acc : Z) : option Z :=
  match l with
  | [] => Some acc
  | c :: l' =>
      match Ascii.is_nat c with
      | Some d => digits_value l' (10 * acc + Z.of_nat d)
      | None => None
      end
  end.

Definition unsigned_value (l : list ascii) : option Z :=
  match l with
  | [] => None
  | _ => digits_value l 0
  end.

(** [int(s)] for a string [s]: surrounding white space, an optional sign and
    decimal digits. *)
Definition int_of_string (s : string) : option Z :=
  match strip (list_ascii_of_string s) with
  | "+"%char :: l => unsigned_value l
  | "-"%char :: l => Z.opp <$> unsigned_value l
  | l => unsigned_value l
  end.

(** [int(comid)]. *)
Definition py_int (c : comid) : result Z :=
  match c with
  | CInt z => Ok z
  | CStr s =>
      match int_of_string s with
      | Some z => Ok z
      | None => Raise (ValueError "invalid literal for int() with base 10")
      end
  end.

(** [np.array(comids)] as an integer array.  A list that still holds a
    string is turned by numpy into an array of strings, which the integer
    identifiers of a file cannot be searched for; the model stops there with
    a [TypeError]. *)
Definition np_array (comids : list comid) : result (list Z) :=
  traverse (fun c => match c with
                     | CInt z => Ok z
                     | CStr _ => Raise TypeError
                     end) comids.

(** The common prologue of the public functions:
    [if len(comids) and type(comids[0]) is str:
         comids = [int(comid) for comid in comids]]
    followed by [comids = np.array(comids)]. *)
Definition coerce_comids (comids : list comid) : result (list Z) :=
  match comids with
  | CStr _ :: _ => ints ← traverse py_int comids; np_array (CInt <$> ints)
  | _ => np_array comids
  end.

(** ** NetCDF files and the file system *)

(** The value of an attribute: a text, or the text
    ['seconds since ' + d.strftime('%Y-%m-%d %H:%M %Z')] kept as the date
    [d] it is printed from. *)
Inductive attr_value : Type :=
| AText (s : string)
| ASecondsSince (d : datetime).

(** A variable of a dataset.  The cells are integers: identifiers and times
    are integers in the files, and the code studied here only copies, selects
    and compares the streamflow cells.  A variable over several dimensions
    holds its rows one after the other. *)
Record nc_variable : Type := NcVariable {
  var_datatype : string;
  var_dimensions : list string;
  var_attrs : list (string * attr_value);
  var_data : list Z
}.

(** A dataset: [data_model], the global attributes ([ncattrs]), the parsed
    value of the global attribute [model_output_valid_time] (absent when the
    file has no such attribute), the dimensions in order ([None] for an
    unlimited one) and the variables in order. *)
Record nc_dataset : Type := NcDataset {
  data_model : string;
  nc_attrs : list (string * attr_value);
  model_output_valid_time : option datetime;
  dimensions : list (string * option nat);
  variables : list (string * nc_variable)
}.

(** What a path of the file system holds: a netCDF dataset, the gzip
    compression of some content, or bytes that are neither. *)
Inductive content : Type :=
| NetCDF (d : nc_dataset)
| Gzip (c : content)
| Junk.

Abbreviation filesystem := (gmap string content).

(** [d[key]] for an ordered dictionary kept as an association list. *)
Fixpoint assoc {A} (key : string) (d : list (string * A)) : option A :=
  match d with
  | [] => None
  | (k, v) :: d' => if decide (k = key) then Some v else assoc key d'
  end.

(** [key in d]. *)
Definition has_key {A} (key : string) (d : list (string * A)) : bool :=
  bool_decide (is_Some (assoc key d)).

(** [l.remove(x)] for an [x] that occurs in [l]: the first occurrence goes. *)
Fixpoint remove_first (x : string) (l : list string) : list string :=
  match l with
  | [] => []
  | y :: l' => if decide (y = x) then l' else y :: remove_first x l'
  end.

(** [os.path.isfile(path)]. *)
Definition isfile (fs : filesystem) (path : string) : bool :=
  bool_decide (is_Some (fs !! path)).

(** [Dataset(path, 'r')]. *)
Definition open_dataset (fs : filesystem) (path : string) : result nc_dataset :=
  match fs !! path with
  | Some (NetCDF d) => Ok d
  | _ => Raise IOError
  end.

(** [nc.variables[name]]. *)
Definition get_variable (nc : nc_dataset) (name : string) : result nc_variable :=
  match assoc name (variables nc) with
  | Some v => Ok v
  | None => Raise (KeyError name)
  end.

(** [date_parser.parse(nc.model_output_valid_time.replace('_', ' '))
     .replace(tzinfo=pytz.utc)]. *)
Definition get_valid_time (nc : nc_dataset) : result datetime :=
  match model_output_valid_time nc with
  | Some d => Ok d
  | None => Raise AttributeError
  end.

(** ** Reading the streamflow of a set of reaches *)

(** The dict [{'datetime': .., 'flows': ..}] of [read_q_for_comids]. *)
Record q_result : Type := QResult {
  q_datetime : datetime;
  q_flows : list Z
}.

(** [read_q_for_comids(nc_filename, comids)]. *)
Definition read_q_for_comids (fs : filesystem) (nc_filename : string)
    (comids : list comid) : result q_result :=
  comids ← coerce_comids comids;
  nc ← open_dataset fs nc_filename;
  date ← get_valid_time nc;
  station_id ← get_variable nc "station_id";
  let nc_comids := var_data station_id in
  nc_q ← get_variable nc "streamflow";
  indices ← _get_comid_indices comids nc_comids;
  flows ← np.take (var_data nc_q) indices;
  mret {| q_datetime := date; q_flows := flows |}.

(** ** File subset extractor *)

(** The list [vars_to_include] and the list [attrs_to_exclude]. *)
Definition vars_to_include (in_nc : nc_dataset)
    (just_streamflow_var include_id_var : bool) : list string :=
  let vars := if just_streamflow_var then ["streamflow"; "time"]
              else (variables in_nc).*1 in
  if include_id_var && negb (bool_decide ("station_id" ∈ vars))
  then vars ++ ["station_id"]
  else if negb include_id_var && bool_decide ("station_id" ∈ vars)
  then remove_first "station_id" vars
  else vars.

Definition attrs_to_exclude (just_streamflow_var : bool) : list string :=
  if just_streamflow_var then ["coordinates"] else [].

(** The loop over [in_nc.dimensions]: every dimension is created in the
    output with its length ([None] when unlimited), the station dimension
    with the number of requested identifiers. *)
Definition copy_dimensions (dims : list (string * option nat))
    (comid_count : nat) : list (string * option nat) :=
  (fun '(name, length) =>
     if decide (name = "station") then (name, Some comid_count)
     else (name, length)) <$> dims.

(** The variable [createVariable] makes and [setncatts] decorates, before
    any cell is written. *)
Definition create_variable (var : nc_variable) (excluded : list string)
  : nc_variable :=
  {| var_datatype := var_datatype var;
     var_dimensions := var_dimensions var;
     var_attrs := filter (fun kv => kv.1 ∉ excluded) (var_attrs var);
     var_data := [] |}.

Definition set_data (var : nc_variable) (data : list Z) : nc_variable :=
  {| var_datatype := var_datatype var;
     var_dimensions := var_dimensions var;
     var_attrs := var_attrs var;
     var_data := data |}.

(** The loop [for name, var in in_nc.variables.iteritems()], threading the
    variables written so far.  When indexing a variable raises, the variable
    has been created and holds no cell, and the loop stops. *)
Fixpoint copy_variables (vars : list (string * nc_variable))
    (included excluded : list string) (index : list nat)
    (written : list (string * nc_variable))
  : list (string * nc_variable) * result unit :=
  match vars with
  | [] => (written, Ok ())
  | (name, var) :: vars' =>
      if bool_decide (name ∈ included) then
        let out_var := create_variable var excluded in
        let cells := if decide (name = "time") then Ok (var_data var)
                     else np.take (var_data var) index in
        match cells with
        | Ok data =>
            copy_variables vars' included excluded index
              (written ++ [(name, set_data out_var data)])
        | Raise e => (written ++ [(name, out_var)], Raise e)
        end
      else copy_variables vars' included excluded index written
  end.

(** [subset_channel_file(in_nc_filename, out_nc_filename, comids,
    just_streamflow_var, include_id_var)]: the file system it leaves and
    whether it raised.  The output file exists from the moment it is opened
    for writing, with whatever was written when the call ends. *)
Definition subset_channel_file (fs : filesystem)
    (in_nc_filename out_nc_filename : string) (comids : list comid)
    (just_streamflow_var include_id_var : bool)
  : filesystem * result unit :=
  let prologue :=
    comids ← coerce_comids comids;
    in_nc ← open_dataset fs in_nc_filename;
    station_id ← get_variable in_nc "station_id";
    index ← _get_comid_indices comids (var_data station_id);
    mret (comids, in_nc, index) in
  match prologue with
  | Raise e => (fs, Raise e)
  | Ok (comids, in_nc, index) =>
      let included :=
        vars_to_include in_nc just_streamflow_var include_id_var in
      let excluded := attrs_to_exclude just_streamflow_var in
      let '(written, outcome) :=
        copy_variables (variables in_nc) included excluded index [] in
      let out_nc :=
        {| data_model := data_model in_nc;
           nc_attrs := nc_attrs in_nc;
           model_output_valid_time := model_output_valid_time in_nc;
           dimensions := copy_dimensions (dimensions in_nc) (length comids);
           variables := written |} in
      (<[out_nc_filename := NetCDF out_nc]> fs, outcome)
  end.

(** ** Paths *)

(** [s[-3:]] and [s[:-3]]. *)
Definition last3 (s : string) : string :=
  let l := list_ascii_of_string s in
  string_of_list_ascii (drop (length l - 3) l).

Definition drop_last3 (s : string) : string :=
  let l := list_ascii_of_string s in
  string_of_list_ascii (take (length l - 3) l).

(** [os.path.basename(path)]: what follows the last slash. *)
Fixpoint basename_chars (l acc : list ascii) : list ascii :=
  match l with
  | [] => acc
  | c :: l' =>
      if decide (c = "/"%char) then basename_chars l' []
      else basename_chars l' (acc ++ [c])
  end.

Definition basename (path : string) : string :=
  string_of_list_ascii (basename_chars (list_ascii_of_string path) []).

(** [os.path.join(dir, file)]. *)
Definition path_join (dir file : string) : string :=
  match list_ascii_of_string file with
  | "/"%char :: _ => file
  | _ =>
      match last (list_ascii_of_string dir) with
      | None => file
      | Some c => if decide (c = "/"%char) then dir +:+ file
                  else dir +:+ "/" +:+ file
      end
  end.

(** ** Streamflow cube builder *)

(** The tuple [(out_q, out_t, seconds_since_date, max_q)]. *)
Record cube : Type := Cube {
  cube_q : list (list Z);
  cube_t : list Z;
  cube_since : option datetime;
  cube_max : option (list Z)
}.

(** The local variables the loop over the files updates. *)
Record cube_state : Type := CubeState {
  st_tmpfile : option string;
  st_indices : option (list nat);
  st_since : option datetime;
  st_out_q : list (list Z);
  st_out_t : list Z
}.

Definition no_station_msg (nc_file : string) : string :=
  "COMIDs provided, but index to COMIDs cannot be builtbecause " +:+ nc_file
  +:+ " has no station_id variable".

(** [out_q[i] = row]: the row must have the width of the array, or a single
    cell, which is then repeated. *)
Definition broadcast_row (num_rivers : nat) (row : list Z) : result (list Z) :=
  if decide (length row = num_rivers) then Ok row
  else match row with
       | [x] => Ok (replicate num_rivers x)
       | _ => Raise (ValueError "could not broadcast input array")
       end.

(** [os.path.join(tmpdir, os.path.basename(nc_file)[:-3])]. *)
Definition scratch_path (tmpdir nc_file : string) : string :=
  path_join tmpdir (drop_last3 (basename nc_file)).

(** Whether [open(path, 'wb')] can create a file: not for the empty path
    nor for a path that ends in a slash. *)
Definition is_file_path (path : string) : bool :=
  match last (list_ascii_of_string path) with
  | None => false
  | Some c => negb (bool_decide (c = "/"%char))
  end.

(** The first statement of the loop body: a file with suffix [.gz] is
    decompressed into the temporary directory.  [gzip.open] needs the file to
    exist, [open(tmpfile, 'wb')] creates or empties the scratch file, and
    reading fails when the file is not a gzip file.  The result is the file
    system, the path to read, and the new value of [tmpfile]. *)
Definition decompress (tmpdir : string) (fs : filesystem) (nc_file : string)
    (tmpfile : option string)
  : filesystem * result (string * option string) :=
  if decide (last3 nc_file = ".gz") then
    let tmp := scratch_path tmpdir nc_file in
    match fs !! nc_file with
    | None => (fs, Raise IOError)
    | Some c =>
        if is_file_path tmp then
          match c with
          | Gzip c' => (<[tmp := c']> fs, Ok (tmp, Some tmp))
          | _ => (<[tmp := Junk]> fs, Raise IOError)
          end
        else (fs, Raise IOError)
    end
  else (fs, Ok (nc_file, tmpfile)).

(** The branch of the loop body that reads the row of the file: the whole
    streamflow array without identifiers, the cells at [indices] otherwise,
    with [indices] computed when there is none yet or when the order of the
    identifiers may change from file to file. *)
Definition compute_indices (nc : nc_dataset) (nc_file : string)
    (comids : list Z) : result (list nat) :=
  if has_key "station_id" (variables nc) then
    station_id ← get_variable nc "station_id";
    _get_comid_indices comids (var_data station_id)
  else Raise (PyException (no_station_msg nc_file)).

Definition read_row (nc : nc_dataset) (nc_file : string)
    (comids : option (list Z)) (consistent_comid_order : bool)
    (indices : option (list nat)) : result (option (list nat) * list Z) :=
  match comids with
  | None =>
      q ← get_variable nc "streamflow";
      mret (indices, var_data q)
  | Some comids =>
      indices ←
        match indices with
        | Some indices =>
            if consistent_comid_order then Ok indices
            else compute_indices nc nc_file comids
        | None => compute_indices nc nc_file comids
        end;
      q ← get_variable nc "streamflow";
      row ← np.take (var_data q) indices;
      mret (Some indices, row)
  end.

(** The block [with Dataset(nc_file, 'r') as nc] of the loop body for the
    file of rank [i]. *)
Definition read_step (fs : filesystem) (nc_file : string) (i : nat)
    (comids : option (list Z)) (consistent_comid_order : bool)
    (num_rivers : nat) (st : cube_state) : result cube_state :=
  nc ← open_dataset fs nc_file;
  date ← get_valid_time nc;
  let seconds_since_date := default date (st_since st) in
  let out_t :=
    <[i := total_seconds_int (date - seconds_since_date)]> (st_out_t st) in
  '(indices, row) ←
    read_row nc nc_file comids consistent_comid_order (st_indices st);
  row ← broadcast_row num_rivers row;
  mret {| st_tmpfile := st_tmpfile st;
          st_indices := indices;
          st_since := Some seconds_since_date;
          st_out_q := <[i := row]> (st_out_q st);
          st_out_t := out_t |}.

(** The last statement of the loop body:
    [if tmpfile and os.path.isfile(tmpfile): os.remove(tmpfile)]. *)
Definition remove_tmpfile (fs : filesystem) (tmpfile : option string)
  : filesystem :=
  match tmpfile with
  | Some tmp => if decide (tmp = "") then fs else delete tmp fs
  | None => fs
  end.

(** The loop [for i, nc_file in enumerate(nc_files)], from rank [i] on.  An
    exception leaves the loop at once, with the file system as it is. *)
Fixpoint cube_loop (tmpdir : string) (fs : filesystem) (nc_files : list string)
    (i : nat) (comids : option (list Z)) (consistent_comid_order : bool)
    (num_rivers : nat) (st : cube_state)
  : filesystem * result cube_state :=
  match nc_files with
  | [] => (fs, Ok st)
  | nc_file :: rest =>
      match decompress tmpdir fs nc_file (st_tmpfile st) with
      | (fs1, Raise e) => (fs1, Raise e)
      | (fs1, Ok (nc_file', tmpfile)) =>
          let st1 := {| st_tmpfile := tmpfile;
                        st_indices := st_indices st;
                        st_since := st_since st;
                        st_out_q := st_out_q st;
                        st_out_t := st_out_t st |} in
          match read_step fs1 nc_file' i comids consistent_comid_order
                  num_rivers st1 with
          | Raise e => (fs1, Raise e)
          | Ok st2 =>
              cube_loop tmpdir (remove_tmpfile fs1 tmpfile) rest (S i) comids
                consistent_comid_order num_rivers st2
          end
      end
  end.

(** [np.amax(out_q, axis=0)]: the largest cell of every column. *)
Definition amax_columns (out_q : list (list Z)) : list Z :=
  match out_q with
  | [] => []
  | row :: rows => foldl (zip_with Z.max) row rows
  end.

(** The part of [build_streamflow_cube] before the loop that settles
    [comids] and [num_rivers]. *)
Definition cube_comids (fs : filesystem) (nc_files : list string)
    (comids : option (list comid)) : result (option (list Z) * nat) :=
  match comids with
  | Some (c :: cs) =>
      ids ← coerce_comids (c :: cs);
      mret (Some ids, length ids)
  | _ =>
      nc ← open_dataset fs (default "" (head nc_files));
      q ← get_variable nc "streamflow";
      let num_rivers := length (var_data q) in
      if has_key "station_id" (variables nc) then
        station_id ← get_variable nc "station_id";
        mret (Some (var_data station_id), num_rivers)
      else mret (None, num_rivers)
  end.

(** [build_streamflow_cube(nc_files, comids, consistent_comid_order,
    compute_max)], with the temporary directory of [tempfile.gettempdir()]:
    the file system it leaves, and [None] for an empty list of files, the
    cube otherwise. *)
Definition build_streamflow_cube (tmpdir : string) (fs : filesystem)
    (nc_files : list string) (comids : option (list comid))
    (consistent_comid_order compute_max : bool)
  : filesystem * result (option cube) :=
  match nc_files with
  | [] => (fs, Ok None)
  | _ =>
      match cube_comids fs nc_files comids with
      | Raise e => (fs, Raise e)
      | Ok (comids, num_rivers) =>
          let st := {| st_tmpfile := None;
                       st_indices := None;
                       st_since := None;
                       st_out_q := replicate (length nc_files)
                                     (replicate num_rivers 0);
                       st_out_t := replicate (length nc_files) 0 |} in
          match cube_loop tmpdir fs nc_files 0 comids consistent_comid_order
                  num_rivers st with
          | (fs', Raise e) => (fs', Raise e)
          | (fs', Ok st') =>
              (fs', Ok (Some {| cube_q := st_out_q st';
                                cube_t := st_out_t st';
                                cube_since := st_since st';
                                cube_max := if compute_max
                                            then Some (amax_columns (st_out_q st'))
                                            else None |}))
          end
      end
  end.

(** ** Cube-to-file combiner *)

Definition no_files_msg : string := "No files to combine".

(** The value an integer takes in a cell of type ['i'], a 32-bit signed
    integer: it is reduced modulo 2^32 into [[-2^31, 2^31)]. *)
Definition int32 (z : Z) : Z := (z + 2 ^ 31) mod 2 ^ 32 - 2 ^ 31.

(** A natural number rounded to [p] significant bits, to the nearest and to
    the even one of two nearest. *)
Definition round_bits (p : Z) (a : Z) : Z :=
  let e := Z.log2 a + 1 - p in
  if e <=? 0 then a
  else
    let q := Z.shiftr a e in
    let r := Z.land a (Z.ones e) in
    let half := 2 ^ (e - 1) in
    let q' := if r <? half then q
              else if half <? r then q + 1
              else if Z.even q then q else q + 1 in
    Z.shiftl q' e.

(** The value an integer takes in a binary floating-point cell of [p]
    significant bits whose finite values lie below [2 ^ emax].  A value that
    rounds to [2 ^ emax] or beyond becomes an infinity, for which
    [2 ^ emax] and its opposite stand in a cell. *)
Definition float_cell (p emax : Z) (z : Z) : Z :=
  let m := round_bits p (Z.abs z) in
  Z.sgn z * (if 2 ^ emax <=? m then 2 ^ emax else m).

(** A cell of the float64 array [out_q], and the cell of type ['f4'] a value
    of that array is written to. *)
Definition float64 : Z -> Z := float_cell 53 1024.
Definition float32 : Z -> Z := float_cell 24 128.
Definition f4 (z : Z) : Z := float32 (float64 z).

(** The dataset written by the block [with Dataset(output_file, 'w') as nc]
    of [combine_files]: the times and the identifiers go to int32 cells, the
    flows and their maxima to float32 cells. *)
Definition combined_dataset (file_count num_rivers : nat) (c : cube)
    (since : datetime) (comids : option (list Z)) (compute_max : bool)
  : nc_dataset :=
  let time_var :=
    {| var_datatype := "i"; var_dimensions := ["time"];
       var_attrs := [("long_name", AText "time");
                     ("standard_name", AText "time");
                     ("units", ASecondsSince since)];
       var_data := int32 <$> cube_t c |} in
  let comid_vars :=
    match comids with
    | Some ids =>
        [("station_id",
          {| var_datatype := "i"; var_dimensions := ["station"];
             var_attrs := [("long_name", AText "Station id")];
             var_data := int32 <$> ids |})]
    | None => []
    end in
  let q_var :=
    {| var_datatype := "f4"; var_dimensions := ["time"; "station"];
       var_attrs := [("long_name", AText "River Flow");
                     ("units", AText "meter^3 / sec")];
       var_data := f4 <$> concat (cube_q c) |} in
  let max_vars :=
    if compute_max then
      [("max_streamflow",
        {| var_datatype := "f4"; var_dimensions := ["station"];
           var_attrs := [("long_name", AText "Maximum River Flow");
                         ("units", AText "meter^3 / sec")];
           var_data := f4 <$> default [] (cube_max c) |})]
    else [] in
  {| data_model := "NETCDF4";
     nc_attrs := [];
     model_output_valid_time := None;
     dimensions := [("time", Some file_count); ("station", Some num_rivers)];
     variables := [("time", time_var)] ++ comid_vars
                  ++ [("streamflow", q_var)] ++ max_vars |}.

(** The identifiers written to the station_id variable: the [comids]
    argument as given (its strings read as integers), or, without argument,
    the station_id variable of the first file when it has one. *)
Definition combined_comids (fs : filesystem) (nc_files : list string)
    (comids : option (list comid)) : result (option (list Z)) :=
  match comids with
  | Some l => ids ← traverse py_int l; mret (Some ids)
  | None =>
      nc ← open_dataset fs (default "" (head nc_files));
      if has_key "station_id" (variables nc) then
        station_id ← get_variable nc "station_id";
        mret (Some (var_data station_id))
      else mret None
  end.

(** [combine_files(nc_files, output_file, comids, consistent_comid_order,
    compute_max)].  The cube is built with the default [compute_max=True],
    the argument only decides whether the maxima are written. *)
Definition combine_files (tmpdir : string) (fs : filesystem)
    (nc_files : list string) (output_file : string)
    (comids : option (list comid)) (consistent_comid_order compute_max : bool)
  : filesystem * result unit :=
  let nc_files := filter (fun f => isfile fs f = true) nc_files in
  match nc_files with
  | [] => (fs, Raise (PyException no_files_msg))
  | _ =>
      match build_streamflow_cube tmpdir fs nc_files comids
              consistent_comid_order true with
      | (fs1, Raise e) => (fs1, Raise e)
      | (fs1, Ok None) => (fs1, Raise TypeError)
      | (fs1, Ok (Some c)) =>
          match (since ← from_option Ok (Raise AttributeError) (cube_since c);
                 row ← np.item (cube_q c) 0;
                 ids ← combined_comids fs1 nc_files comids;
                 mret (since, length row, ids)) with
          | Raise e => (fs1, Raise e)
          | Ok (since, num_rivers, ids) =>
              (<[output_file :=
                   NetCDF (combined_dataset (length nc_files) num_rivers c
                             since ids compute_max)]> fs1,
               Ok ())
          end
      end
  end.

(** ** What a list of files holds *)

(** The dataset the builder reads for a path of the file list: the content
    of the path, decompressed when the path ends in [.gz]. *)
Definition stored_dataset (fs : filesystem) (path : string)
  : option nc_dataset :=
  match fs !! path with
  | Some (NetCDF d) => if decide (last3 path = ".gz") then None else Some d
  | Some (Gzip (NetCDF d)) =>
      if decide (last3 path = ".gz") then Some d else None
  | _ => None
  end.

(** The model-valid-output timestamp of a file of the list. *)
Definition file_valid_time (fs : filesystem) (path : string)
  : option datetime :=
  d ← stored_dataset fs path; model_output_valid_time d.

(** A file of the list is well formed for the identifiers [ids] when it
    holds (compressed under a [.gz] name) a dataset with a timestamp, a
    station_id variable that lists every requested identifier and a
    streamflow variable, both of [cells] cells. *)
Definition well_formed_file (fs : filesystem) (ids : list Z) (cells : nat)
    (path : string) : Prop :=
  exists d station_id q t,
    stored_dataset fs path = Some d /\
    model_output_valid_time d = Some t /\
    get_variable d "station_id" = Ok station_id /\
    get_variable d "streamflow" = Ok q /\
    (forall x, x ∈ ids -> x ∈ var_data station_id) /\
    length (var_data station_id) = cells /\
    length (var_data q) = cells.

(** Positions kept from an earlier file that fit arrays of [cells] cells. *)
Definition good_indices (ids : list Z) (cells : nat)
    (indices : option (list nat)) : Prop :=
  forall idx, indices = Some idx ->
    Forall (fun pos => (pos < cells)%nat) idx /\ length idx = length ids.

(** How a variable of the output of [subset_channel_file] relates to the
    variable of the input it was copied from: same name, type and
    dimensions, the attributes that are not excluded, and the cells of the
    input, all of them for the time variable and those at the positions
    [index] for any other. *)
Definition copied (excluded : list string) (index : list nat)
    (nv nv' : string * nc_variable) : Prop :=
  nv'.1 = nv.1 /\
  var_datatype nv'.2 = var_datatype nv.2 /\
  var_dimensions nv'.2 = var_dimensions nv.2 /\
  var_attrs nv'.2 = filter (fun kv => kv.1 ∉ excluded) (var_attrs nv.2) /\
  if decide (nv.1 = "time") then var_data nv'.2 = var_data nv.2
  else np.take (var_data nv.2) index = Ok (var_data nv'.2).

(** The rows the loop of [build_streamflow_cube] writes for a list of files,
    starting with the positions [prev] kept from the files before: each file
    is read through [read_row] with the positions its predecessor left, and
    its row is fitted to the width of the array. *)
Inductive rows_of (fs : filesystem) (comids : option (list Z))
    (consistent_comid_order : bool) (num_rivers : nat)
  : option (list nat) -> list string -> list (list Z) -> Prop :=
| rows_of_nil prev : rows_of fs comids consistent_comid_order num_rivers prev [] []
| rows_of_cons prev f files d name idx raw row rows :
    stored_dataset fs f = Some d ->
    read_row d name comids consistent_comid_order prev = Ok (idx, raw) ->
    broadcast_row num_rivers raw = Ok row ->
    rows_of fs comids consistent_comid_order num_rivers idx files rows ->
    rows_of fs comids consistent_comid_order num_rivers prev
      (f :: files) (row :: rows).

(** ** Dates on the HydroShare explorer *)

(** [_get_date_from_analysis_filename] and [get_latest_forecast_date] talk
    to a Web service and lean on two libraries.  What these answer is left
    open: [urlopen uri] is the body [urllib.urlopen(uri).read()] returns, or
    the exception it raises; [findall pattern text] is
    [re.findall(pattern, text)]; [parse text] is [date_parser.parse(text)],
    which raises on a text it cannot read; [joined_products] is
    [', '.join(valid_products)], the product names in the order the dict
    yields them. *)
Section explorer.

Variable urlopen : string -> result string.
Variable findall : string -> string -> list string.
Variable parse : string -> result datetime.
Variable joined_products : string.

(** [_get_date_from_analysis_filename(filename)]: [filename.find('.')] is
    the position of the first dot, or -1 when there is none, and the slice is
    cut at the end of the name. *)
Definition _get_date_from_analysis_filename (filename : string)
  : result datetime :=
  let start_index :=
    match String.index 0 "." filename with
    | Some i => (i + 1)%nat
    | None => 0%nat
    end in
  parse (substring start_index 12 filename).

(** The dict [valid_products]: the suffix pattern and the last time step of
    each forecast product. *)
Definition valid_products : list (string * (string * string)) :=
  [("short_range", ("", "015"));
   ("medium_range", ("", "240"));
   ("long_range", ("_[1-4]", "720"))].

(** [uri_template.format(selection)]. *)
Definition folder_uri (selection : string) : string :=
  "https://apps.hydroshare.org/apps/nwm-data-explorer/"
  +:+ "files_explorer/get-folder-contents/?selection_path=%2F"
  +:+ "projects%2Fwater%2Fnwm%2Fdata%2F" +:+ selection
  +:+ "%3Ffolder&query_type=filesystem".

(** The pattern of the folder names in the listing of a product. *)
Definition dates_pattern : string := "\>([0-9]+)\<".

(** [pattern_template.format(product=..., suffix=..., max_time_step=...)]. *)
Definition forecast_pattern (product suffix_pattern max_time_step : string)
  : string :=
  "\>(nwm.t[0-9]+z." +:+ product +:+ ".channel_rt" +:+ suffix_pattern
  +:+ ".f" +:+ max_time_step +:+ ".conus.nc_georeferenced.nc)\<".

(** The loop [for folder_date in reversed(possible_dates)], over the folders
    still to visit; falling off its end returns [None]. *)
Fixpoint latest_loop (product pattern : string) (folders : list string)
  : result (option datetime) :=
  match folders with
  | [] => Ok None
  | folder_date :: rest =>
      response ← urlopen (folder_uri (product +:+ "%2F" +:+ folder_date));
      let matches := findall pattern response in
      if bool_decide (product = "long_range")
         && bool_decide (length matches = 16%nat)
      then date ← parse folder_date; mret (Some date)
      else if bool_decide (product <> "long_range")
              && bool_decide (length matches <> 0%nat)
      then date ← parse (folder_date +:+ "t"
                         +:+ substring 5 2 (default "" (last matches)));
           mret (Some date)
      else latest_loop product pattern rest
  end.

(** [get_latest_forecast_date(product)]. *)
Definition get_latest_forecast_date (product : string)
  : result (option datetime) :=
  match assoc product valid_products with
  | None =>
      Raise (ValueError ("Product for getting latest forecast date must be "
                         +:+ "one of the following: " +:+ joined_products))
  | Some (suffix_pattern, max_time_step) =>
      response ← urlopen (folder_uri product);
      let possible_dates := findall dates_pattern response in
      let pattern := forecast_pattern product suffix_pattern max_time_step in
      latest_loop product pattern (reverse possible_dates)
  end.

(** The file names the pattern of a product finds in the listing of one of
    its folders. *)
Definition folder_matches (product pattern folder_date : string)
  : result (list string) :=
  response ← urlopen (folder_uri (product +:+ "%2F" +:+ folder_date));
  mret (findall pattern response).

End explorer.

(** A forecast folder counts as complete when the listing shows the file of
    the last time step: sixteen of them, no more and no fewer, for the long
    range product, at least one for the others. *)
Definition forecast_complete (product : string) (matches : list string)
  : bool :=
  if decide (product = "long_range") then bool_decide (length matches = 16%nat)
  else bool_decide (matches <> []).

(** The text handed to the date parser for a complete folder: the folder
    name, followed for the short and medium range products by [t] and the
    characters 5 and 6 of the last file name found. *)
Definition forecast_stamp (product folder_date : string)
    (matches : list string) : string :=
  if decide (product = "long_range") then folder_date
  else folder_date +:+ "t" +:+ substring 5 2 (default "" (last matches)).

(** ** Sample files *)

(** A variable with the attributes of a channel file. *)
Definition sample_variable (dims : list string) (data : list Z) : nc_variable :=
  {| var_datatype := "f8"; var_dimensions := dims;
     var_attrs := [("units", AText "m3 s-1");
                   ("coordinates", AText "latitude longitude")];
     var_data := data |}.

(** A channel file of four reaches, valid at [t], whose flows depend on [k]. *)
Definition sample_dataset (t k : Z) : nc_dataset :=
  {| data_model := "NETCDF4";
     nc_attrs := [("title", AText "OUTPUT FROM WRF-Hydro")];
     model_output_valid_time := Some t;
     dimensions := [("station", Some 4%nat); ("time", None)];
     variables :=
       [("time", sample_variable ["time"] [t]);
        ("station_id", sample_variable ["station"] [20; 30; 10; 40]);
        ("streamflow",
         sample_variable ["station"] [200 + k; 300 - k; 100 + 2 * k; 400]);
        ("velocity", sample_variable ["station"] [2; 3; 1; 4])] |}.

(** A channel file without the station_id variable. *)
Definition sample_dataset_no_id (t : Z) : nc_dataset :=
  {| data_model := "NETCDF4";
     nc_attrs := [];
     model_output_valid_time := Some t;
     dimensions := [("station", Some 2%nat)];
     variables := [("streamflow", sample_variable ["station"] [7; 9])] |}.

(** A channel file whose streamflow variable is shorter than its
    station_id variable. *)
Definition sample_dataset_short : nc_dataset :=
  {| data_model := "NETCDF4";
     nc_attrs := [];
     model_output_valid_time := None;
     dimensions := [("station", Some 3%nat)];
     variables :=
       [("station_id", sample_variable ["station"] [5; 6; 7]);
        ("streamflow", sample_variable ["station"] [50; 60])] |}.

(** 2016-06-21 00:00 UTC. *)
Definition sample_epoch : datetime := datetime_of_epoch 1466467200.

(** Three files one hour apart, two of them compressed, and a compressed
    file without identifiers. *)
Definition sample_fs : filesystem :=
  {[ "d/f001.nc.gz" := Gzip (NetCDF (sample_dataset sample_epoch 1));
     "d/f002.nc" :=
       NetCDF (sample_dataset (sample_epoch + timedelta_hours 1) 2);
     "d/f003.nc.gz" :=
       Gzip (NetCDF (sample_dataset (sample_epoch + timedelta_hours 2) 100));
     "d/bare.nc.gz" := Gzip (NetCDF (sample_dataset_no_id sample_epoch)) ]}.

(** ** A sample explorer *)

(** Two short range folders, the newer one still without its last time
    step; one medium range folder, incomplete; a long range listing that
    cannot be fetched. *)
Definition sample_complete_folder : string :=
  ">nwm.t00z.short_range.channel_rt.f015.conus.nc_georeferenced.nc< "
  +:+ ">nwm.t06z.short_range.channel_rt.f015.conus.nc_georeferenced.nc<".

Definition sample_urlopen (uri : string) : result string :=
  if decide (uri = folder_uri "short_range") then Ok ">20160620< >20160621<"
  else if decide (uri = folder_uri "short_range%2F20160620") then
    Ok sample_complete_folder
  else if decide (uri = folder_uri "short_range%2F20160621") then
    Ok ">nwm.t00z.short_range.channel_rt.f001.conus.nc_georeferenced.nc<"
  else if decide (uri = folder_uri "medium_range") then Ok ">20160621<"
  else if decide (uri = folder_uri "medium_range%2F20160621") then Ok ""
  else Raise IOError.

(** What the two patterns find in the sample bodies. *)
Definition sample_findall (pattern text : string) : list string :=
  if decide (pattern = dates_pattern) then
    if decide (text = ">20160620< >20160621<") then ["20160620"; "20160621"]
    else if decide (text = ">20160621<") then ["20160621"]
    else []
  else if decide (pattern = forecast_pattern "short_range" "" "015") then
    if decide (text = sample_complete_folder) then
      ["nwm.t00z.short_range.channel_rt.f015.conus.nc_georeferenced.nc";
       "nwm.t06z.short_range.channel_rt.f015.conus.nc_georeferenced.nc"]
    else []
  else [].

(** The one text the sample parser reads: 2016-06-20 06:00. *)
Definition sample_parse (text : string) : result datetime :=
  if decide (text = "20160620t06") then Ok (datetime_of_epoch 1466402400)
  else Raise (ValueError "Unknown string format").

(* ================================================================== *)
(** * Properties *)
(* ================================================================== *)

(** Membership in a list of numerals, read as a disjunction of equations. *)
Ltac list_mem :=
  rewrite ?list_elem_of_In in *; simpl in *; lia.

(** ** The error monad *)

Section traverse_facts.
Context {A B : Type} (f : A -> result B).

Lemma traverse_Ok_Forall2 (l : list A) (ys : list B) :
  traverse f l = Ok ys <-> Forall2 (fun x y => f x = Ok y) l ys.
Proof.
  revert ys. induction l as [|x l IH]; intros ys; simpl.
  - split.
    + intros [= <-]. constructor.
    + intros Hf. inversion Hf. reflexivity.
  - split.
    + destruct (f x) as [y|e] eqn:Hx; simpl; [|discriminate].
      destruct (traverse f l) as [zs|e] eqn:Hl; simpl; [|discriminate].
      intros [= <-]. constructor; [assumption|]. apply IH. reflexivity.
    + intros Hf. inversion Hf as [|? y ? zs Hx Hl]; subst.
      rewrite Hx. simpl. apply IH in Hl. rewrite Hl. reflexivity.
Qed.

Lemma traverse_Ok_length (l : list A) (ys : list B) :
  traverse f l = Ok ys -> length ys = length l.
Proof.
  intros H. apply traverse_Ok_Forall2 in H.
  symmetry. eapply Forall2_length, H.
Qed.

Lemma traverse_Ok_lookup (l : list A) (ys : list B) (k : nat) (x : A) :
  traverse f l = Ok ys -> l !! k = Some x ->
  exists y, ys !! k = Some y /\ f x = Ok y.
Proof.
  intros H Hk. apply traverse_Ok_Forall2 in H.
  destruct (Forall2_lookup_l _ _ _ _ _ H Hk) as (y & Hy & Hxy). eauto.
Qed.

(** When every element either succeeds or raises the same exception [e],
    and one of them raises it, the comprehension raises [e]. *)
Lemma traverse_Raise_uniform (e : pyerr) (l : list A) :
  Forall (fun x => (exists y, f x = Ok y) \/ f x = Raise e) l ->
  Exists (fun x => f x = Raise e) l ->
  traverse f l = Raise e.
Proof.
  induction 1 as [|x l Hx Hl IH]; intros Hex.
  - inversion Hex.
  - simpl. destruct Hx as [[y Hy]|Hx].
    + rewrite Hy. simpl. inversion Hex as [? ? Hbad|? ? Hrest]; subst.
      * congruence.
      * rewrite (IH Hrest). reflexivity.
    + rewrite Hx. reflexivity.
Qed.

End traverse_facts.

(** ** Sorting and bisection *)

#[local] Instance key_le_trans : Transitive np.key_le.
Proof. intros p q r. unfold np.key_le. lia. Qed.

#[local] Instance key_le_total : Total np.key_le.
Proof. intros p q. unfold np.key_le. lia. Qed.

Lemma StronglySorted_lookup_le (s : list Z) (i j : nat) (x y : Z) :
  StronglySorted Z.le s -> (i <= j)%nat ->
  s !! i = Some x -> s !! j = Some y -> x ≤ y.
Proof.
  intros Hs. revert i j. induction Hs as [|a s Hs IH Ha]; intros i j Hij Hi Hj.
  - rewrite lookup_nil in Hi. discriminate.
  - destruct i as [|i], j as [|j]; simpl in *.
    + injection Hi as <-. injection Hj as <-. lia.
    + injection Hi as <-. rewrite Forall_forall in Ha.
      apply Ha. eapply list_elem_of_lookup_2, Hj.
    + lia.
    + eapply (IH i j); [lia|assumption..].
Qed.

(** The pairs sorted by [argsort] are exactly the cells of the array. *)
Lemma argsort_pairs_cell (a : list Z) (v : Z) (i : nat) :
  (v, i) ∈ np.argsort_pairs a <-> a !! i = Some v.
Proof.
  unfold np.argsort_pairs. rewrite merge_sort_Permutation.
  rewrite list_elem_of_lookup. split.
  - intros (k & Hk). apply lookup_zip_with_Some in Hk.
    destruct Hk as (x & y & [= -> ->] & Hx & Hy).
    apply lookup_seq in Hy. destruct Hy as [-> _]. exact Hx.
  - intros Hi. exists i. apply lookup_zip_with_Some.
    exists v, i. split; [reflexivity|]. split; [assumption|].
    apply lookup_seq. split; [reflexivity|]. eapply lookup_lt_Some, Hi.
Qed.

Lemma argsort_pairs_length (a : list Z) :
  length (np.argsort_pairs a) = length a.
Proof.
  unfold np.argsort_pairs. rewrite merge_sort_Permutation.
  rewrite length_zip_with, length_seq. lia.
Qed.

Lemma argsort_pairs_sorted (a : list Z) :
  StronglySorted Z.le (np.argsort_pairs a).*1.
Proof.
  apply (StronglySorted_fmap fst np.key_le Z.le).
  - intros p q Hpq. exact Hpq.
  - apply StronglySorted_merge_sort; apply _.
Qed.

(** [nc_comids[sorted_index]] is the sorted array of values. *)
Lemma take_argsort (a : list Z) :
  np.take a (np.argsort a) = Ok (np.argsort_pairs a).*1.
Proof.
  unfold np.take, np.argsort. apply traverse_Ok_Forall2.
  apply Forall2_fmap, Forall2_same_length_lookup_2; [reflexivity|].
  intros k p q Hp Hq. assert (p = q) as -> by congruence.
  destruct q as [v i]. simpl. unfold np.item.
  assert (a !! i = Some v) as ->; [|reflexivity].
  apply argsort_pairs_cell. eapply list_elem_of_lookup_2, Hp.
Qed.

(** The loop invariant of the bisection: left of [lo] everything is below the
    key, from [hi] on nothing is. *)
Lemma bisect_left_spec (s : list Z) (v : Z) :
  StronglySorted Z.le s ->
  forall fuel lo hi : nat,
    (hi - lo <= fuel)%nat -> (lo <= hi)%nat -> (hi <= length s)%nat ->
    (forall i x, (i < lo)%nat -> s !! i = Some x -> x < v) ->
    (forall i x, (hi <= i)%nat -> s !! i = Some x -> v ≤ x) ->
    let r := np.bisect_left s v fuel lo hi in
    (lo <= r <= hi)%nat /\
    (forall i x, (i < r)%nat -> s !! i = Some x -> x < v) /\
    (forall i x, (r <= i)%nat -> s !! i = Some x -> v ≤ x).
Proof.
  intros Hs. induction fuel as [|fuel IH]; intros lo hi Hfuel Hle Hhi Hlo Hup.
  - simpl. assert (lo = hi) as -> by lia. auto with lia.
  - cbn [np.bisect_left]. destruct (decide (lo < hi)%nat) as [Hlt|Hge].
    2: { assert (lo = hi) as -> by lia. auto with lia. }
    cbv zeta. set (mid := (lo + (hi - lo) / 2)%nat).
    assert (lo <= mid < hi)%nat as Hmid.
    { unfold mid. split; [lia|].
      assert ((hi - lo) / 2 < hi - lo)%nat; [|lia].
      apply Nat.div_lt; lia. }
    destruct (s !! mid) as [x|] eqn:Hx.
    2: { apply lookup_ge_None in Hx. lia. }
    destruct (decide (x < v)) as [Hxv|Hxv].
    + destruct (IH (S mid) hi) as (Hr & Hb & Ha); try lia; try assumption.
      * intros i y Hi Hy.
        assert (y ≤ x); [|lia].
        eapply (StronglySorted_lookup_le s i mid); [assumption|lia|eassumption..].
      * split; [lia|]. split; assumption.
    + destruct (IH lo mid) as (Hr & Hb & Ha); try lia; try assumption.
      * intros i y Hi Hy.
        assert (x ≤ y); [|lia].
        eapply (StronglySorted_lookup_le s mid i); [assumption|lia|eassumption..].
      * split; [lia|]. split; assumption.
Qed.

Lemma searchsorted1_spec (s : list Z) (v : Z) :
  StronglySorted Z.le s ->
  let r := np.searchsorted1 s v in
  (r <= length s)%nat /\
  (forall i x, (i < r)%nat -> s !! i = Some x -> x < v) /\
  (forall i x, (r <= i)%nat -> s !! i = Some x -> v ≤ x).
Proof.
  intros Hs. unfold np.searchsorted1.
  destruct (bisect_left_spec s v Hs (length s) 0%nat (length s))
    as (Hr & Hb & Ha); try lia.
  - intros i x Hi Hx. apply lookup_lt_Some in Hx. lia.
  - split; [lia|]. split; assumption.
Qed.

(** ** Identifier index resolver *)

Lemma get_comid_indices_unfold (find_comids nc_comids : list Z) :
  _get_comid_indices find_comids nc_comids =
  np.take (np.argsort nc_comids)
    (np.searchsorted (np.argsort_pairs nc_comids).*1 find_comids).
Proof. unfold _get_comid_indices. rewrite take_argsort. reflexivity. Qed.

(** A stored value sits somewhere in the sorted array. *)
Lemma sorted_values_lookup (a : list Z) (x : Z) :
  x ∈ a -> exists j, (np.argsort_pairs a).*1 !! j = Some x.
Proof.
  intros Hx. apply list_elem_of_lookup in Hx as (i & Hi).
  apply argsort_pairs_cell in Hi.
  apply list_elem_of_lookup in Hi as (j & Hj).
  exists j. rewrite list_lookup_fmap, Hj. reflexivity.
Qed.

(** A key that is not above every stored value is sent to a position inside
    the array, the one of the least stored value that is not below the key. *)
Lemma resolve_one_bounded (a : list Z) (q x0 : Z) :
  x0 ∈ a -> q ≤ x0 ->
  exists pos x,
    np.item (np.argsort a) (np.searchsorted1 (np.argsort_pairs a).*1 q) = Ok pos /\
    a !! pos = Some x /\ q ≤ x /\ (forall y, y ∈ a -> q ≤ y -> x ≤ y).
Proof.
  intros Hx0 Hq.
  pose proof (argsort_pairs_sorted a) as Hs.
  destruct (searchsorted1_spec _ q Hs) as (Hr & Hb & Ha).
  set (r := np.searchsorted1 (np.argsort_pairs a).*1 q) in *.
  destruct (sorted_values_lookup a x0 Hx0) as (j & Hj).
  assert (r <= j)%nat as Hrj.
  { destruct (decide (r <= j)%nat) as [|Hn]; [assumption|].
    specialize (Hb j x0 ltac:(lia) Hj). lia. }
  assert (r < length (np.argsort_pairs a))%nat as Hlt.
  { apply lookup_lt_Some in Hj. rewrite length_fmap in Hj. lia. }
  destruct (lookup_lt_is_Some_2 _ _ Hlt) as ([x pos] & Hp).
  exists pos, x. split; [|split; [|split]].
  - unfold np.item, np.argsort. rewrite list_lookup_fmap, Hp. reflexivity.
  - apply argsort_pairs_cell. eapply list_elem_of_lookup_2, Hp.
  - apply (Ha r); [lia|]. rewrite list_lookup_fmap, Hp. reflexivity.
  - intros y Hy Hqy. destruct (sorted_values_lookup a y Hy) as (j' & Hj').
    assert (r <= j')%nat.
    { destruct (decide (r <= j')%nat) as [|Hn]; [assumption|].
      specialize (Hb j' y ltac:(lia) Hj'). lia. }
    eapply (StronglySorted_lookup_le _ r j'); [exact Hs|lia| |exact Hj'].
    rewrite list_lookup_fmap, Hp. reflexivity.
Qed.

(** A key above every stored value is sent one past the end of the array,
    and indexing there raises. *)
Lemma resolve_one_above (a : list Z) (q : Z) :
  (forall x, x ∈ a -> x < q) ->
  np.item (np.argsort a) (np.searchsorted1 (np.argsort_pairs a).*1 q)
  = Raise IndexError.
Proof.
  intros Hall.
  pose proof (argsort_pairs_sorted a) as Hs.
  destruct (searchsorted1_spec _ q Hs) as (Hr & Hb & Ha).
  set (r := np.searchsorted1 (np.argsort_pairs a).*1 q) in *.
  unfold np.item, np.argsort. rewrite list_lookup_fmap.
  destruct (np.argsort_pairs a !! r) as [[x pos]|] eqn:Hp; [|reflexivity].
  exfalso.
  assert (q ≤ x) as Hqx.
  { apply (Ha r); [lia|]. rewrite list_lookup_fmap, Hp. reflexivity. }
  assert (x ∈ a) as Hx.
  { eapply list_elem_of_lookup_2, argsort_pairs_cell, list_elem_of_lookup_2, Hp. }
  specialize (Hall x Hx). lia.
Qed.

(** Every key is resolved or raises [IndexError]; nothing else can happen. *)
Lemma resolve_one_cases (a : list Z) (q : Z) :
  let f := fun r => np.item (np.argsort a) r in
  (exists pos, f (np.searchsorted1 (np.argsort_pairs a).*1 q) = Ok pos) \/
  f (np.searchsorted1 (np.argsort_pairs a).*1 q) = Raise IndexError.
Proof.
  intros f. unfold f, np.item.
  destruct (np.argsort a !! _); [left; eauto|right; reflexivity].
Qed.

(** Every queried identifier that the array holds is sent to a position that
    holds it. *)
Lemma get_comid_indices_found (find_comids nc_comids : list Z) :
  (forall q, q ∈ find_comids -> q ∈ nc_comids) ->
  exists idx,
    _get_comid_indices find_comids nc_comids = Ok idx /\
    length idx = length find_comids /\
    forall k q, find_comids !! k = Some q ->
      exists pos, idx !! k = Some pos /\ nc_comids !! pos = Some q.
Proof.
  intros Hin. rewrite get_comid_indices_unfold.
  unfold np.take, np.searchsorted.
  assert (Forall (fun q => exists pos,
            np.item (np.argsort nc_comids)
              (np.searchsorted1 (np.argsort_pairs nc_comids).*1 q) = Ok pos /\
            nc_comids !! pos = Some q) find_comids) as Hall.
  { apply Forall_forall. intros q Hq.
    destruct (resolve_one_bounded nc_comids q q (Hin q Hq) ltac:(lia))
      as (pos & x & Hpos & Hx & Hqx & Hmin).
    exists pos. split; [assumption|].
    assert (x = q) as ->; [|assumption].
    specialize (Hmin q (Hin q Hq) ltac:(lia)). lia. }
  clear Hin. induction Hall as [|q qs (pos & Hpos & Hq) _ (idx & Hidx & Hlen & Hres)].
  - exists []. split; [reflexivity|]. split; [reflexivity|].
    intros k q Hk. rewrite lookup_nil in Hk. discriminate.
  - exists (pos :: idx). csimpl. rewrite Hpos. csimpl.
    rewrite Hidx. csimpl. split; [reflexivity|]. split; [lia|].
    intros [|k] q' Hk; simpl in *.
    + injection Hk as <-. eauto.
    + apply Hres, Hk.
Qed.

(** C1. When the stored identifier array has no duplicates and holds every
    queried identifier, [_get_comid_indices] returns one position per query
    entry, and the stored array holds the queried identifier at that
    position: [stored_ids[idx[k]] == query_ids[k]] for every [k].  The query
    is any list of stored identifiers, in any order; the position is the only
    one that holds the identifier. *)
Theorem get_comid_indices_resolves (find_comids nc_comids : list Z) :
  NoDup nc_comids ->
  (forall q, q ∈ find_comids -> q ∈ nc_comids) ->
  exists idx,
    _get_comid_indices find_comids nc_comids = Ok idx /\
    length idx = length find_comids /\
    forall k q, find_comids !! k = Some q ->
      exists pos, idx !! k = Some pos /\ nc_comids !! pos = Some q /\
        forall pos', nc_comids !! pos' = Some q -> pos' = pos.
Proof.
  intros Hnodup Hin.
  destruct (get_comid_indices_found find_comids nc_comids Hin)
    as (idx & Hidx & Hlen & Hres).
  exists idx. split; [assumption|]. split; [assumption|].
  intros k q Hk. destruct (Hres k q Hk) as (pos & Hpos & Hq).
  exists pos. split; [assumption|]. split; [assumption|].
  intros pos' Hq'. eapply NoDup_lookup; eassumption.
Qed.

Lemma get_comid_indices_resolves_witness :
  NoDup [20; 30; 10; 40] /\
  (forall q, q ∈ [30; 10; 20] -> q ∈ [20; 30; 10; 40]) /\
  exists idx,
    _get_comid_indices [30; 10; 20] [20; 30; 10; 40] = Ok idx /\
    length idx = length [30; 10; 20] /\
    forall k q, [30; 10; 20] !! k = Some q ->
      exists pos, idx !! k = Some pos /\ [20; 30; 10; 40] !! pos = Some q /\
        forall pos', [20; 30; 10; 40] !! pos' = Some q -> pos' = pos.
Proof.
  assert (NoDup [20; 30; 10; 40]) as Hnd.
  { repeat (apply NoDup_cons; split; [list_mem|]). apply NoDup_nil_2. }
  assert (forall q, q ∈ [30; 10; 20] -> q ∈ [20; 30; 10; 40]) as Hin.
  { intros q Hq. list_mem. }
  split; [exact Hnd|]. split; [exact Hin|].
  apply (get_comid_indices_resolves [30; 10; 20] [20; 30; 10; 40] Hnd Hin).
Defined.

(** The resolver on an identifier above every stored one: the bisection
    answers the length of the array and indexing there raises. *)
Lemma get_comid_indices_absent_raises :
  (50 ∉ [20; 30; 10; 40]) /\
  _get_comid_indices [50] [20; 30; 10; 40] = Raise IndexError.
Proof. split; [list_mem|reflexivity]. Qed.

(** C2 (amended). A queried identifier that is absent from the stored array
    is not reported as such.  When no queried identifier exceeds every stored
    one, the call returns, and an absent identifier receives a position
    inside the array, the one of the least stored identifier above it (so the
    array does not hold the queried identifier there).  When some queried
    identifier exceeds every stored one, the call raises [IndexError]. *)
Theorem get_comid_indices_absent (find_comids nc_comids : list Z) :
  ((forall q, q ∈ find_comids -> exists x, x ∈ nc_comids /\ q ≤ x) ->
   exists idx,
     _get_comid_indices find_comids nc_comids = Ok idx /\
     length idx = length find_comids /\
     forall k q, find_comids !! k = Some q -> q ∉ nc_comids ->
       exists pos x, idx !! k = Some pos /\ nc_comids !! pos = Some x /\
         x ≠ q /\ q < x /\ (forall y, y ∈ nc_comids -> q < y -> x ≤ y)) /\
  ((exists q, q ∈ find_comids /\ forall x, x ∈ nc_comids -> x < q) ->
   _get_comid_indices find_comids nc_comids = Raise IndexError).
Proof.
  rewrite get_comid_indices_unfold. unfold np.take, np.searchsorted. split.
  - intros Hbound.
    assert (Forall (fun q => exists pos x,
              np.item (np.argsort nc_comids)
                (np.searchsorted1 (np.argsort_pairs nc_comids).*1 q) = Ok pos /\
              nc_comids !! pos = Some x /\ q ≤ x /\
              (forall y, y ∈ nc_comids -> q ≤ y -> x ≤ y)) find_comids) as Hall.
    { apply Forall_forall. intros q Hq.
      destruct (Hbound q Hq) as (x0 & Hx0 & Hqx0).
      apply (resolve_one_bounded nc_comids q x0 Hx0 Hqx0). }
    clear Hbound.
    induction Hall as [|q qs (pos & x & Hpos & Hx & Hqx & Hmin) _
                         (idx & Hidx & Hlen & Hres)].
    + exists []. split; [reflexivity|]. split; [reflexivity|].
      intros k q Hk. rewrite lookup_nil in Hk. discriminate.
    + exists (pos :: idx). csimpl. rewrite Hpos. csimpl.
      rewrite Hidx. csimpl. split; [reflexivity|]. split; [lia|].
      intros [|k] q' Hk Habs; simpl in *.
      * injection Hk as <-. exists pos, x.
        assert (x ≠ q) as Hne.
        { intros ->. apply Habs. eapply list_elem_of_lookup_2, Hx. }
        repeat split; try assumption; [lia|].
        intros y Hy Hqy. apply Hmin; [assumption|lia].
      * apply Hres; assumption.
  - intros (q & Hq & Habove).
    apply traverse_Raise_uniform.
    + apply Forall_fmap, Forall_forall. intros q' _. simpl.
      apply resolve_one_cases.
    + apply Exists_fmap, Exists_exists. exists q. split; [assumption|].
      simpl. apply resolve_one_above, Habove.
Qed.

Lemma get_comid_indices_absent_witness :
  (exists idx,
     _get_comid_indices [15; 30; 5] [20; 30; 10; 40] = Ok idx /\
     length idx = 3%nat /\
     forall k q, [15; 30; 5] !! k = Some q -> q ∉ [20; 30; 10; 40] ->
       exists pos x, idx !! k = Some pos /\ [20; 30; 10; 40] !! pos = Some x /\
         x ≠ q /\ q < x /\ (forall y, y ∈ [20; 30; 10; 40] -> q < y -> x ≤ y)) /\
  _get_comid_indices [15; 50] [20; 30; 10; 40] = Raise IndexError.
Proof.
  split.
  - apply (proj1 (get_comid_indices_absent [15; 30; 5] [20; 30; 10; 40])).
    intros q Hq. exists 40. split; list_mem.
  - apply (proj2 (get_comid_indices_absent [15; 50] [20; 30; 10; 40])).
    exists 50. split; [list_mem|]. intros x Hx. list_mem.
Defined.


(** ** Time-series unpacker *)

Lemma Forall2_imap {A B} (P : A -> B -> Prop) (f : nat -> A -> B) (l : list A) :
  (forall i x, l !! i = Some x -> P x (f i x)) -> Forall2 P l (imap f l).
Proof.
  intros H. apply Forall2_same_length_lookup_2.
  - rewrite length_imap. reflexivity.
  - intros i x y Hx Hy. rewrite list_lookup_imap, Hx in Hy.
    injection Hy as <-. apply H, Hx.
Qed.

Lemma timing_table_product_timing (product : string) (step offset : Z) :
  (product, step, offset) ∈ timing_table <->
  product_timing product = Some (step, offset).
Proof.
  unfold timing_table. rewrite !elem_of_cons, elem_of_nil. split.
  - intros [Hx|[Hx|[Hx|[Hx|[]]]]]; injection Hx as -> -> ->; reflexivity.
  - unfold product_timing.
    repeat case_decide; subst; intros Hx; try discriminate;
      injection Hx as <- <-; tauto.
Qed.

(** The loop succeeds when every record does, and appends the series of the
    records in order. *)
Lemma unpack_loop_Ok (product : string) (rs : list sim_result)
    (groups : list (list series)) (acc : list series) :
  Forall2 (fun r g => unpack_record product r = Ok g) rs groups ->
  unpack_loop product rs acc = Ok (acc ++ concat groups).
Proof.
  intros H. revert acc. induction H as [|r g rs groups Hr _ IH]; intros acc.
  - simpl. rewrite app_nil_r. reflexivity.
  - simpl. rewrite Hr. csimpl. rewrite IH, app_assoc. reflexivity.
Qed.

Lemma unpack_loop_Ok_inv (product : string) (rs : list sim_result)
    (acc out : list series) :
  unpack_loop product rs acc = Ok out ->
  exists groups,
    Forall2 (fun r g => unpack_record product r = Ok g) rs groups /\
    out = acc ++ concat groups.
Proof.
  revert acc. induction rs as [|r rs IH]; intros acc; simpl.
  - intros [= <-]. exists []. split; [constructor|]. simpl.
    rewrite app_nil_r. reflexivity.
  - destruct (unpack_record product r) as [g|e] eqn:Hr; csimpl; [|discriminate].
    intros H. destruct (IH _ H) as (groups & Hall & ->).
    exists (g :: groups). split; [constructor; assumption|].
    simpl. rewrite app_assoc. reflexivity.
Qed.

(** The loop raises the exception of the first record that raises. *)
Lemma unpack_loop_Raise (product : string) (e : pyerr) (rs : list sim_result)
    (acc : list series) :
  Forall (fun r => (exists g, unpack_record product r = Ok g) \/
                   unpack_record product r = Raise e) rs ->
  Exists (fun r => unpack_record product r = Raise e) rs ->
  unpack_loop product rs acc = Raise e.
Proof.
  intros Hall. revert acc. induction Hall as [|r rs Hr _ IH]; intros acc Hex.
  - inversion Hex.
  - simpl. destruct Hr as [[g Hg]|Hr].
    + rewrite Hg. csimpl. apply IH.
      inversion Hex as [? ? Hbad|]; subst; [congruence|assumption].
    + rewrite Hr. reflexivity.
Qed.

(** A record whose second cell is empty raises before anything is read. *)
Lemma unpack_record_empty (product : string) (r : sim_result) :
  first_len r = 0%nat ->
  unpack_record product r = Raise (ValueError empty_result_msg).
Proof. intros H. unfold unpack_record. rewrite decide_True by assumption. reflexivity. Qed.

(** Dates that can be built: the conversion of the epoch and the additions
    return. *)
Lemma utcfromtimestamp_Ok (s : Z) :
  min_epoch <= s <= max_epoch -> utcfromtimestamp s = Ok (datetime_of_epoch s).
Proof.
  intros Hs. unfold utcfromtimestamp.
  rewrite bool_decide_eq_true_2 by exact Hs. reflexivity.
Qed.

Lemma utcfromtimestamp_out_of_range (s : Z) :
  ~ (min_epoch <= s <= max_epoch) ->
  utcfromtimestamp s = Raise (ValueError "year is out of range").
Proof.
  intros Hs. unfold utcfromtimestamp.
  rewrite bool_decide_eq_false_2 by exact Hs. reflexivity.
Qed.

Lemma datetime_add_Ok (d : datetime) (delta : timedelta) :
  datetime_min <= d + delta <= datetime_max ->
  datetime_add d delta = Ok (d + delta).
Proof.
  intros Hd. unfold datetime_add.
  rewrite bool_decide_eq_true_2 by exact Hd. reflexivity.
Qed.

Lemma traverse_fmap_Ok {A B} (f : A -> result B) (g : A -> B) (l : list A) :
  (forall x, x ∈ l -> f x = Ok (g x)) -> traverse f l = Ok (g <$> l).
Proof.
  intros H. apply traverse_Ok_Forall2, Forall2_fmap_r, Forall_Forall2_diag.
  apply Forall_forall. exact H.
Qed.

Lemma product_timing_positive (product : string) (step offset : Z) :
  product_timing product = Some (step, offset) -> 0 < step /\ 0 < offset.
Proof.
  unfold product_timing.
  repeat case_decide; intros [= <- <-]; lia.
Qed.

(** The dates the loop builds for a record whose dates fit. *)
Lemma record_dates_Ok (init offset step : Z) (n : nat) :
  0 < step -> 0 < offset -> n <> 0%nat -> dates_fit init offset step n ->
  utcfromtimestamp init = Ok (datetime_of_epoch init) /\
  datetime_add (datetime_of_epoch init) (timedelta_hours offset)
  = Ok (datetime_of_epoch init + timedelta_hours offset) /\
  traverse
    (fun i : nat =>
       datetime_add (datetime_of_epoch init + timedelta_hours offset)
         (timedelta_hours (Z.of_nat i * step)))
    (seq 0 n)
  = Ok (date_sequence init offset step n).
Proof.
  intros Hstep Hoffset Hn [Hmin Hmax].
  unfold datetime_max, datetime_of_epoch, timedelta_hours, max_epoch,
    min_epoch, microseconds_per_second in *.
  assert (0 <= (Z.of_nat n - 1) * (step * 3600 * 1000000)) as Hlast by nia.
  split; [|split].
  - apply utcfromtimestamp_Ok. unfold min_epoch, max_epoch. lia.
  - apply datetime_add_Ok.
    unfold datetime_min, datetime_max, datetime_of_epoch, timedelta_hours,
      max_epoch, min_epoch, microseconds_per_second. lia.
  - unfold date_sequence. apply traverse_fmap_Ok. intros i Hi.
    apply list_elem_of_In, in_seq in Hi.
    unfold datetime_of_epoch, timedelta_hours, microseconds_per_second.
    rewrite datetime_add_Ok.
    + f_equal. lia.
    + unfold datetime_min, datetime_max, datetime_of_epoch, timedelta_hours,
        max_epoch, min_epoch, microseconds_per_second.
      assert (Z.of_nat i * step <= (Z.of_nat n - 1) * step) by nia.
      assert (0 <= Z.of_nat i * step) by nia. lia.
Qed.

(** The series of a record with data, for a product of the table. *)
Lemma unpack_record_Ok (product : string) (step offset : Z) (r : sim_result) :
  product_timing product = Some (step, offset) ->
  unpackable offset step r ->
  unpack_record product r =
  Ok (imap (fun i value_list =>
              {| name := if decide (1 < length (sim_members r))%nat
                         then member_name i (sim_label r) else product;
                 dates := date_sequence (init_epoch r) offset step (first_len r);
                 values := value_list |})
           (sim_members r)).
Proof.
  intros Ht (Hh & Hn & Hfit).
  destruct (product_timing_positive _ _ _ Ht) as [Hstep Hoffset].
  unfold unpack_record, np.item.
  rewrite decide_False by assumption.
  destruct (sim_head r) as [|t0 ts] eqn:Hhead; [congruence|].
  assert (init_epoch r = t0) as Hinit0.
  { unfold init_epoch. rewrite Hhead. reflexivity. }
  rewrite Hinit0 in *.
  destruct (record_dates_Ok _ _ _ _ Hstep Hoffset Hn Hfit)
    as (Hinit & Hstart & Hdates).
  cbn [lookup list_lookup].
  cbv beta iota delta [mbind result_bind mret result_ret].
  rewrite Hinit, Ht, Hstart, Hdates. reflexivity.
Qed.

(** A record with data whose initialisation time lies outside the years 1 to
    9999 raises the ValueError of the conversion, whatever the product. *)
Lemma unpack_record_out_of_range (product : string) (r : sim_result)
    (t : Z) (ts : list Z) :
  first_len r <> 0%nat -> sim_head r = t :: ts ->
  ~ (min_epoch <= t <= max_epoch) ->
  unpack_record product r = Raise (ValueError "year is out of range").
Proof.
  intros Hn Hh Ht. unfold unpack_record, np.item.
  rewrite decide_False by assumption. rewrite Hh.
  cbn [lookup list_lookup].
  cbv beta iota delta [mbind result_bind mret result_ret].
  rewrite (utcfromtimestamp_out_of_range _ Ht). reflexivity.
Qed.

Lemma unpack_record_cases (product : string) (step offset : Z)
    (r : sim_result) :
  product_timing product = Some (step, offset) ->
  (first_len r <> 0%nat -> unpackable offset step r) ->
  (exists g, unpack_record product r = Ok g) \/
  unpack_record product r = Raise (ValueError empty_result_msg).
Proof.
  intros Ht Hr.
  destruct (decide (first_len r = 0%nat)) as [H0|H0].
  - right. apply unpack_record_empty, H0.
  - left. eexists. apply (unpack_record_Ok product step offset); auto.
Qed.

(** With the payload shaped as the product expects, the unpacker is the loop
    over its records. *)
Lemma unpack_series_records (product : string) (json_data : ts_payload)
    (rs : list sim_result) :
  payload_records product json_data = Some rs ->
  _unpack_series json_data product = unpack_loop product rs [].
Proof.
  unfold payload_records, _unpack_series.
  destruct json_data as [r|rs']; case_decide; intros [= <-]; reflexivity.
Qed.

(** The result of the unpacker on records with data: the series of each
    record, record after record. *)
Lemma unpack_series_Ok (product : string) (step offset : Z)
    (json_data : ts_payload) (rs : list sim_result) :
  product_timing product = Some (step, offset) ->
  payload_records product json_data = Some rs ->
  Forall (unpackable offset step) rs ->
  exists groups,
    _unpack_series json_data product = Ok (concat groups) /\
    Forall2 (fun r g =>
      g = imap (fun i value_list =>
              {| name := if decide (1 < length (sim_members r))%nat
                         then member_name i (sim_label r) else product;
                 dates := date_sequence (init_epoch r) offset step (first_len r);
                 values := value_list |})
            (sim_members r)) rs groups.
Proof.
  intros Ht Hrs Hall. rewrite (unpack_series_records _ _ _ Hrs). clear Hrs.
  eexists ((fun r => imap _ (sim_members r)) <$> rs). split.
  - apply (unpack_loop_Ok product rs _ []).
    apply Forall2_fmap_r, Forall_Forall2_diag.
    eapply Forall_impl; [exact Hall|]. intros r Hr. simpl.
    apply (unpack_record_Ok product step offset); assumption.
  - apply Forall2_fmap_r, Forall_Forall2_diag, Forall_forall.
    intros r _. reflexivity.
Qed.

(** In a record of parallel value lists, a value list is empty exactly when
    the first one is. *)
Lemma parallel_empty (r : sim_result) :
  parallel r -> ([] ∈ sim_members r <-> first_len r = 0%nat).
Proof.
  intros [Hne Hlen]. split.
  - intros Hin. rewrite <- (Hlen [] Hin). reflexivity.
  - intros H0. unfold first_len in H0.
    destruct (sim_members r) as [|m ms]; [congruence|].
    apply length_zero_iff_nil in H0 as ->. apply list_elem_of_here.
Qed.

(** C3. For each of the four products, with the step and offset of the
    timing table, and for records with data (an initialisation time and
    non-empty, parallel value lists) whose dates lie in the years 1 to 9999,
    the unpacker returns one series per value list, in order, and the dates
    of the series of a value list are [init_time + offset + step * i] for
    [i] in [[0, len(values))]. *)
Theorem unpack_series_dates (product : string) (step offset : Z)
    (json_data : ts_payload) (rs : list sim_result) :
  (product, step, offset) ∈ timing_table ->
  payload_records product json_data = Some rs ->
  Forall (fun r => unpackable offset step r /\ parallel r) rs ->
  exists groups,
    _unpack_series json_data product = Ok (concat groups) /\
    Forall2 (fun r g =>
      Forall2 (fun value_list s =>
        values s = value_list /\
        dates s = date_sequence (init_epoch r) offset step (length value_list))
        (sim_members r) g) rs groups.
Proof.
  intros Ht Hrs Hall. apply timing_table_product_timing in Ht.
  destruct (unpack_series_Ok product step offset json_data rs Ht Hrs)
    as (groups & Hok & Hgroups).
  { eapply Forall_impl; [exact Hall|]. intros r [Hr _]. exact Hr. }
  exists groups. split; [assumption|].
  apply Forall2_same_length_lookup_2; [eapply Forall2_length, Hgroups|].
  intros k r g Hr Hg.
  pose proof (Forall2_lookup_lr _ _ _ _ _ _ Hgroups Hr Hg) as ->.
  rewrite Forall_forall in Hall.
  destruct (Hall r (list_elem_of_lookup_2 _ _ _ Hr)) as [_ [_ Hlen]].
  apply Forall2_imap. intros i vl Hvl. split; [reflexivity|]. simpl.
  rewrite (Hlen vl (list_elem_of_lookup_2 _ _ _ Hvl)). reflexivity.
Qed.

Lemma unpack_series_dates_witness :
  let r := SimResult [1466467200] [[1#1; 2#1; 3#1]; [4#1; 5#1; 6#1]] "t00z" in
  ("long_range", 6, 6) ∈ timing_table /\
  payload_records "long_range" (Ensemble [r]) = Some [r] /\
  Forall (fun r => unpackable 6 6 r /\ parallel r) [r] /\
  exists groups,
    _unpack_series (Ensemble [r]) "long_range" = Ok (concat groups) /\
    Forall2 (fun r g =>
      Forall2 (fun value_list s =>
        values s = value_list /\
        dates s = date_sequence (init_epoch r) 6 6 (length value_list))
        (sim_members r) g) [r] groups.
Proof.
  intros r.
  assert (("long_range", 6, 6) ∈ timing_table) as Ht.
  { apply timing_table_product_timing. reflexivity. }
  assert (payload_records "long_range" (Ensemble [r]) = Some [r]) as Hrs.
  { reflexivity. }
  assert (Forall (fun r => unpackable 6 6 r /\ parallel r) [r]) as Hall.
  { constructor; [|constructor]. split.
    - split; [discriminate|]. split; [discriminate|]. split; vm_compute;
        discriminate.
    - split; [discriminate|]. intros vl Hvl.
      unfold r in Hvl. simpl in Hvl. rewrite !elem_of_cons, elem_of_nil in Hvl.
      destruct Hvl as [->|[->|[]]]; reflexivity. }
  split; [exact Ht|]. split; [exact Hrs|]. split; [exact Hall|].
  apply (unpack_series_dates "long_range" 6 6 (Ensemble [r]) [r] Ht Hrs Hall).
Defined.

(** Three samples of a product without ensemble, offset 3 h and step 1 h:
    the dates are T+3h, T+4h and T+5h, and the series bears the product's
    name. *)
Lemma unpack_series_three_samples (T : Z) (rest : list Z) (a b c : Q)
    (label : string) :
  min_epoch <= T -> T + 5 * 3600 <= max_epoch ->
  _unpack_series (Single (SimResult (T :: rest) [[a; b; c]] label))
    "analysis_assim"
  = Ok [ {| name := "analysis_assim";
            dates := [datetime_of_epoch T + timedelta_hours 3;
                      datetime_of_epoch T + timedelta_hours 4;
                      datetime_of_epoch T + timedelta_hours 5];
            values := [a; b; c] |} ].
Proof.
  intros Hmin Hmax.
  unfold _unpack_series. rewrite decide_False by discriminate.
  cbn [unpack_loop].
  rewrite (unpack_record_Ok "analysis_assim" 1 3).
  - cbv beta iota delta [mbind result_bind mret result_ret].
    cbn [imap sim_members sim_label first_len length app init_epoch sim_head
         lookup list_lookup default from_option date_sequence seq fmap
         list_fmap]. simpl.
    do 3 f_equal. unfold init_epoch. simpl. unfold timedelta_hours.
    f_equal; [lia|]. f_equal; [lia|]. f_equal; lia.
  - reflexivity.
  - split; [discriminate|]. split; [discriminate|].
    unfold dates_fit, init_epoch, datetime_max, datetime_of_epoch,
      timedelta_hours, microseconds_per_second, max_epoch, min_epoch in *.
    cbn [first_len sim_members sim_head length lookup list_lookup default
         from_option]. unfold id. lia.
Qed.

(** What the loop does with a record whose value lists are not parallel: the
    dates of every series are those of the first value list. *)
Lemma unpack_series_ragged_dates :
  exists s1 s2,
    _unpack_series
      (Ensemble [SimResult [0] [[1#1; 2#1]; [3#1]] "t00z"]) "long_range"
    = Ok [s1; s2] /\
    values s2 = [3#1] /\
    dates s2 = date_sequence 0 6 6 2.
Proof.
  eexists _, _. split; [vm_compute; reflexivity|]. simpl.
  split; reflexivity.
Qed.

(** C4. For a product of the table and records of parallel value lists
    (those with data carrying an initialisation time and dates in the years
    1 to 9999), the unpacker raises the ValueError of the empty result set
    whenever, and only when, a value list of a record is empty. *)
Theorem unpack_series_empty (product : string) (step offset : Z)
    (json_data : ts_payload) (rs : list sim_result) :
  (product, step, offset) ∈ timing_table ->
  payload_records product json_data = Some rs ->
  Forall (fun r => parallel r /\
                   (first_len r <> 0%nat -> unpackable offset step r)) rs ->
  (Exists (fun r => [] ∈ sim_members r) rs <->
   _unpack_series json_data product = Raise (ValueError empty_result_msg)).
Proof.
  intros Ht Hrs Hall. apply timing_table_product_timing in Ht. split.
  - intros Hex. rewrite (unpack_series_records _ _ _ Hrs).
    apply unpack_loop_Raise.
    + eapply Forall_impl; [exact Hall|]. intros r [_ Hr].
      apply (unpack_record_cases product step offset); assumption.
    + apply Exists_exists in Hex as (r & Hr & Hempty).
      apply Exists_exists. exists r. split; [exact Hr|].
      rewrite Forall_forall in Hall. destruct (Hall r Hr) as [Hpar _].
      apply unpack_record_empty, (parallel_empty r Hpar), Hempty.
  - intros Hraise.
    destruct (decide (Exists (fun r => first_len r = 0%nat) rs))
      as [Hex|Hnex].
    + apply Exists_exists in Hex as (r & Hr & Hempty).
      apply Exists_exists. exists r. split; [exact Hr|].
      rewrite Forall_forall in Hall. destruct (Hall r Hr) as [Hpar _].
      apply (parallel_empty r Hpar), Hempty.
    + exfalso. apply not_Exists_Forall in Hnex; [|intros r; apply _].
      destruct (unpack_series_Ok product step offset json_data rs Ht Hrs)
        as (groups & Hok & _); [|congruence].
      apply Forall_forall. intros r Hr.
      rewrite Forall_forall in Hall. destruct (Hall r Hr) as [_ Hdata].
      rewrite Forall_forall in Hnex. apply Hdata, (Hnex r Hr).
Qed.

Lemma unpack_series_empty_witness :
  let rs := [SimResult [0] [[1#1]; [2#1]] "t00z";
             SimResult [21600] [[]; []] "t06z"] in
  ("long_range", 6, 6) ∈ timing_table /\
  payload_records "long_range" (Ensemble rs) = Some rs /\
  Forall (fun r => parallel r /\
                   (first_len r <> 0%nat -> unpackable 6 6 r)) rs /\
  Exists (fun r => [] ∈ sim_members r) rs /\
  _unpack_series (Ensemble rs) "long_range"
  = Raise (ValueError empty_result_msg).
Proof.
  intros rs.
  assert (("long_range", 6, 6) ∈ timing_table) as Ht.
  { apply timing_table_product_timing. reflexivity. }
  assert (payload_records "long_range" (Ensemble rs) = Some rs) as Hrs
    by reflexivity.
  assert (Forall (fun r => parallel r /\
                           (first_len r <> 0%nat -> unpackable 6 6 r)) rs)
    as Hall.
  { constructor; [|constructor; [|constructor]].
    - split.
      + split; [discriminate|]. intros vl Hvl. simpl in Hvl.
        rewrite !elem_of_cons, elem_of_nil in Hvl.
        destruct Hvl as [->|[->|[]]]; reflexivity.
      + intros _. split; [discriminate|]. split; [discriminate|].
        split; vm_compute; discriminate.
    - split.
      + split; [discriminate|]. intros vl Hvl. simpl in Hvl.
        rewrite !elem_of_cons, elem_of_nil in Hvl.
        destruct Hvl as [->|[->|[]]]; reflexivity.
      + intros Hdata. exfalso. apply Hdata. reflexivity. }
  assert (Exists (fun r => [] ∈ sim_members r) rs) as Hex.
  { apply Exists_cons_tl, Exists_cons_hd. apply list_elem_of_here. }
  split; [exact Ht|]. split; [exact Hrs|]. split; [exact Hall|].
  split; [exact Hex|].
  apply (proj1 (unpack_series_empty "long_range" 6 6 (Ensemble rs) rs Ht Hrs
                  Hall)).
  exact Hex.
Defined.

(** C5. For a product of the table and records with data whose dates lie in
    the years 1 to 9999, the series of a record that holds more than one
    value list are named ['Member {index} {label}'] with the index counted
    from 1, and the single series of a record that holds exactly one value
    list is named after the product. *)
Theorem unpack_series_names (product : string) (step offset : Z)
    (json_data : ts_payload) (rs : list sim_result) :
  (product, step, offset) ∈ timing_table ->
  payload_records product json_data = Some rs ->
  Forall (unpackable offset step) rs ->
  exists groups,
    _unpack_series json_data product = Ok (concat groups) /\
    Forall2 (fun r g =>
      length g = length (sim_members r) /\
      (length (sim_members r) = 1%nat -> name <$> g = [product]) /\
      ((1 < length (sim_members r))%nat ->
       forall i s, g !! i = Some s ->
         name s = "Member " +:+ pretty (i + 1)%nat +:+ " " +:+ sim_label r))
      rs groups.
Proof.
  intros Ht Hrs Hall. apply timing_table_product_timing in Ht.
  destruct (unpack_series_Ok product step offset json_data rs Ht Hrs Hall)
    as (groups & Hok & Hgroups).
  exists groups. split; [assumption|].
  eapply Forall2_impl; [exact Hgroups|]. intros r g ->.
  split; [apply length_imap|]. split.
  - intros Hone. destruct (sim_members r) as [|m [|m' ms]]; try discriminate.
    reflexivity.
  - intros Hmany i s Hs. rewrite list_lookup_imap in Hs.
    destruct (sim_members r !! i) as [vl|]; [|discriminate].
    injection Hs as <-. simpl. rewrite decide_True by assumption.
    reflexivity.
Qed.

Lemma unpack_series_names_witness :
  let r := SimResult [1466467200] [[1#1; 2#1]; [3#1; 4#1]] "t00z" in
  ("long_range", 6, 6) ∈ timing_table /\
  payload_records "long_range" (Ensemble [r]) = Some [r] /\
  Forall (unpackable 6 6) [r] /\
  exists groups,
    _unpack_series (Ensemble [r]) "long_range" = Ok (concat groups) /\
    Forall2 (fun r g =>
      length g = length (sim_members r) /\
      (length (sim_members r) = 1%nat -> name <$> g = ["long_range"]) /\
      ((1 < length (sim_members r))%nat ->
       forall i s, g !! i = Some s ->
         name s = "Member " +:+ pretty (i + 1)%nat +:+ " " +:+ sim_label r))
      [r] groups.
Proof.
  intros r.
  assert (("long_range", 6, 6) ∈ timing_table) as Ht.
  { apply timing_table_product_timing. reflexivity. }
  assert (payload_records "long_range" (Ensemble [r]) = Some [r]) as Hrs.
  { reflexivity. }
  assert (Forall (unpackable 6 6) [r]) as Hall.
  { constructor; [|constructor].
    split; [discriminate|]. split; [discriminate|]. split; vm_compute;
      discriminate. }
  split; [exact Ht|]. split; [exact Hrs|]. split; [exact Hall|].
  apply (unpack_series_names "long_range" 6 6 (Ensemble [r]) [r] Ht Hrs Hall).
Defined.

(** Two members labelled t00z: the series are "Member 1 t00z" and
    "Member 2 t00z", with the same dates. *)
Lemma unpack_series_two_members :
  exists s1 s2,
    _unpack_series
      (Ensemble [SimResult [1466467200] [[1#1; 2#1]; [3#1; 4#1]] "t00z"])
      "long_range" = Ok [s1; s2] /\
    name s1 = "Member 1 t00z" /\ name s2 = "Member 2 t00z" /\
    dates s1 = dates s2.
Proof. eexists _, _. split; [vm_compute; reflexivity|]. repeat split. Qed.


(** ** String COMIDs *)

Lemma np_array_ints (ints : list Z) : np_array (CInt <$> ints) = Ok ints.
Proof.
  unfold np_array. induction ints as [|z ints IH]; [reflexivity|].
  csimpl. rewrite IH. reflexivity.
Qed.

(** A list that starts with a string is converted cell by cell with [int]. *)
Lemma coerce_comids_strings (s : string) (rest : list comid) (ints : list Z) :
  Forall2 (fun c z => py_int c = Ok z) (CStr s :: rest) ints ->
  coerce_comids (CStr s :: rest) = Ok ints.
Proof.
  intros H. apply traverse_Ok_Forall2 in H.
  unfold coerce_comids. rewrite H. csimpl. apply np_array_ints.
Qed.

(** A list of Python integers is taken as it is. *)
Lemma coerce_comids_ints (ints : list Z) :
  coerce_comids (CInt <$> ints) = Ok ints.
Proof.
  destruct ints as [|z ints]; [reflexivity|].
  unfold coerce_comids. cbn [fmap list_fmap]. apply (np_array_ints (z :: ints)).
Qed.

(** ** File subset extractor *)

Lemma coerce_comids_length (comids : list comid) (ids : list Z) :
  coerce_comids comids = Ok ids -> length ids = length comids.
Proof.
  unfold coerce_comids, np_array. intros H.
  destruct comids as [|[z|s] rest].
  - apply traverse_Ok_length in H. exact H.
  - apply traverse_Ok_length in H. exact H.
  - destruct (traverse py_int (CStr s :: rest)) as [ints|e] eqn:Hi;
      [|discriminate].
    revert H. csimpl. fold (np_array (CInt <$> ints)).
    rewrite np_array_ints. intros [= <-].
    apply traverse_Ok_length in Hi. exact Hi.
Qed.

(** What the loop over the variables appends: variables of the input that
    are in [included], without the attributes in [excluded]; when the loop
    ends without exception, all of them, in the order of the input. *)
Lemma copy_variables_spec (included excluded : list string) (index : list nat)
    (vars written written' : list (string * nc_variable))
    (outcome : result unit) :
  copy_variables vars included excluded index written = (written', outcome) ->
  exists new,
    written' = written ++ new /\
    (forall name var, (name, var) ∈ new ->
       name ∈ included /\ name ∈ vars.*1 /\
       forall k, k ∈ (var_attrs var).*1 -> k ∉ excluded) /\
    (outcome = Ok () ->
     new.*1 = filter (fun name => name ∈ included) vars.*1).
Proof.
  revert written. induction vars as [|[name var] vars IH]; intros written.
  - simpl. intros [= <- <-]. exists []. rewrite app_nil_r.
    split; [reflexivity|]. split; [|reflexivity].
    intros ? ? Hin. apply elem_of_nil in Hin. destruct Hin.
  - cbn [copy_variables]. case_bool_decide as Hinc.
    + assert (forall data k, k ∈ (var_attrs
                (set_data (create_variable var excluded) data)).*1 ->
                k ∉ excluded) as Hattrs.
      { intros data k Hk. simpl in Hk.
        apply list_elem_of_fmap in Hk as ([k' v] & -> & Hkv).
        apply list_elem_of_filter in Hkv as [Hk' _]. exact Hk'. }
      destruct (if decide (name = "time") then Ok (var_data var)
                else np.take (var_data var) index) as [data|e].
      * intros H. destruct (IH _ H) as (new & -> & Hnew & Hall).
        exists ((name, set_data (create_variable var excluded) data) :: new).
        rewrite <- app_assoc. split; [reflexivity|]. split.
        -- intros n v Hin. apply elem_of_cons in Hin as [[= -> ->]|Hin].
           ++ split; [assumption|]. split; [apply list_elem_of_here|].
              apply Hattrs.
           ++ destruct (Hnew n v Hin) as (? & ? & ?).
              split; [assumption|]. split; [|assumption].
              csimpl. apply list_elem_of_further. assumption.
        -- intros Hok. csimpl. rewrite filter_cons_True by assumption.
           f_equal. apply Hall, Hok.
      * intros [= <- <-]. exists [(name, create_variable var excluded)].
        split; [reflexivity|]. split; [|discriminate].
        intros n v Hin. apply list_elem_of_singleton in Hin as [= -> ->].
        split; [assumption|]. split; [apply list_elem_of_here|].
        apply (Hattrs []).
    + intros H. destruct (IH _ H) as (new & -> & Hnew & Hall).
      exists new. split; [reflexivity|]. split.
      * intros n v Hin. destruct (Hnew n v Hin) as (? & ? & ?).
        split; [assumption|]. split; [|assumption].
        csimpl. apply list_elem_of_further. assumption.
      * intros Hok. csimpl. rewrite filter_cons_False by assumption.
        apply Hall, Hok.
Qed.

Lemma vars_to_include_just_streamflow (in_nc : nc_dataset)
    (include_id_var : bool) (name : string) :
  name ∈ vars_to_include in_nc true include_id_var <->
  name = "streamflow" \/ name = "time" \/
  (name = "station_id" /\ include_id_var = true).
Proof.
  destruct include_id_var; unfold vars_to_include; simpl;
    rewrite !elem_of_cons, elem_of_nil; intuition congruence.
Qed.

Lemma assoc_Some_elem_of {A} (key : string) (d : list (string * A)) (v : A) :
  assoc key d = Some v -> key ∈ d.*1.
Proof.
  induction d as [|[k w] d IH]; simpl; [discriminate|].
  case_decide as Hk.
  - intros _. subst. apply list_elem_of_here.
  - intros H. apply list_elem_of_further, IH, H.
Qed.

Lemma copy_dimensions_names (dims : list (string * option nat)) (n : nat) :
  (copy_dimensions dims n).*1 = dims.*1.
Proof.
  unfold copy_dimensions. induction dims as [|[name len] dims IH];
    [reflexivity|].
  csimpl. rewrite IH. case_decide; reflexivity.
Qed.

Lemma copy_dimensions_station (dims : list (string * option nat)) (n : nat)
    (len : option nat) :
  ("station", len) ∈ copy_dimensions dims n -> len = Some n.
Proof.
  unfold copy_dimensions. intros H.
  apply list_elem_of_fmap in H as ([name len'] & Heq & _).
  case_decide as Hd; injection Heq as Hn Hl; [exact Hl|congruence].
Qed.

(** C6. When [subset_channel_file] is called with [just_streamflow_var] set
    and returns, the output file holds the variables of the input that are
    named streamflow or time, and station_id exactly when [include_id_var]
    is set, and no other; no retained variable has the coordinates
    attribute; the output has the dimensions of the input, the station
    dimension with the number of requested identifiers as its size. *)
Theorem subset_just_streamflow (fs : filesystem)
    (in_nc_filename out_nc_filename : string) (comids : list comid)
    (include_id_var : bool) (fs' : filesystem) :
  subset_channel_file fs in_nc_filename out_nc_filename comids true
    include_id_var = (fs', Ok ()) ->
  exists in_nc out_nc,
    open_dataset fs in_nc_filename = Ok in_nc /\
    fs' = <[out_nc_filename := NetCDF out_nc]> fs /\
    (forall name, name ∈ (variables out_nc).*1 <->
       name ∈ (variables in_nc).*1 /\
       (name = "streamflow" \/ name = "time" \/
        (name = "station_id" /\ include_id_var = true))) /\
    ("station_id" ∈ (variables out_nc).*1 <-> include_id_var = true) /\
    (forall name var, (name, var) ∈ variables out_nc ->
       "coordinates" ∉ (var_attrs var).*1) /\
    (dimensions out_nc).*1 = (dimensions in_nc).*1 /\
    (forall len, ("station", len) ∈ dimensions out_nc ->
       len = Some (length comids)).
Proof.
  unfold subset_channel_file.
  destruct (coerce_comids comids) as [ids|e] eqn:Hids; csimpl;
    [|intros [= _ ?]; discriminate].
  destruct (open_dataset fs in_nc_filename) as [in_nc|e] eqn:Hopen; csimpl;
    [|intros [= _ ?]; discriminate].
  destruct (get_variable in_nc "station_id") as [sid|e] eqn:Hsid; csimpl;
    [|intros [= _ ?]; discriminate].
  destruct (_get_comid_indices ids (var_data sid)) as [index|e]; csimpl;
    [|intros [= _ ?]; discriminate].
  destruct (copy_variables _ _ _ _ _) as [written outcome] eqn:Hcopy.
  intros [= <- ->].
  destruct (copy_variables_spec _ _ _ _ _ _ _ Hcopy)
    as (new & Hw & Hnew & Hall).
  simpl in Hw. subst written. specialize (Hall eq_refl).
  assert (forall name, name ∈ new.*1 <->
            name ∈ (variables in_nc).*1 /\
            (name = "streamflow" \/ name = "time" \/
             (name = "station_id" /\ include_id_var = true))) as Hnames.
  { intros name. rewrite Hall, list_elem_of_filter.
    rewrite vars_to_include_just_streamflow. tauto. }
  eexists in_nc, _. split; [reflexivity|]. split; [reflexivity|]. simpl.
  split; [exact Hnames|]. split; [|split; [|split]].
  - rewrite Hnames. split.
    + intros (_ & [H|[H|[_ H]]]); [discriminate..|exact H].
    + intros ->. split; [|tauto].
      unfold get_variable in Hsid.
      destruct (assoc "station_id" (variables in_nc)) as [v|] eqn:Ha;
        [|discriminate].
      eapply assoc_Some_elem_of, Ha.
  - intros name var Hin Hcoord.
    destruct (Hnew name var Hin) as (_ & _ & Hattrs).
    apply (Hattrs _ Hcoord). apply list_elem_of_here.
  - apply copy_dimensions_names.
  - intros len Hlen. apply copy_dimensions_station in Hlen.
    rewrite Hlen. f_equal. apply coerce_comids_length, Hids.
Qed.

Lemma subset_just_streamflow_witness :
  let fs' :=
    (subset_channel_file sample_fs "d/f002.nc" "sub.nc" [CStr "10"; CInt 40]
       true true).1 in
  subset_channel_file sample_fs "d/f002.nc" "sub.nc" [CStr "10"; CInt 40]
    true true = (fs', Ok ()) /\
  exists in_nc out_nc,
    open_dataset sample_fs "d/f002.nc" = Ok in_nc /\
    fs' = <["sub.nc" := NetCDF out_nc]> sample_fs /\
    (forall name, name ∈ (variables out_nc).*1 <->
       name ∈ (variables in_nc).*1 /\
       (name = "streamflow" \/ name = "time" \/
        (name = "station_id" /\ true = true))) /\
    ("station_id" ∈ (variables out_nc).*1 <-> true = true) /\
    (forall name var, (name, var) ∈ variables out_nc ->
       "coordinates" ∉ (var_attrs var).*1) /\
    (dimensions out_nc).*1 = (dimensions in_nc).*1 /\
    (forall len, ("station", len) ∈ dimensions out_nc ->
       len = Some (length [CStr "10"; CInt 40])).
Proof.
  intros fs'.
  assert (subset_channel_file sample_fs "d/f002.nc" "sub.nc"
            [CStr "10"; CInt 40] true true = (fs', Ok ())) as H.
  { vm_compute. reflexivity. }
  split; [exact H|].
  apply (subset_just_streamflow sample_fs "d/f002.nc" "sub.nc"
           [CStr "10"; CInt 40] true fs' H).
Defined.

(** Indexing inside the bounds returns one cell per index. *)
Lemma take_bounded {A} (a : list A) (idx : list nat) :
  Forall (fun i => (i < length a)%nat) idx ->
  exists data, np.take a idx = Ok data /\ length data = length idx.
Proof.
  unfold np.take. induction 1 as [|i idx Hi _ (data & Hdata & Hlen)].
  - exists []. split; reflexivity.
  - destruct (lookup_lt_is_Some_2 _ _ Hi) as [x Hx].
    assert (np.item a i = Ok x) as Hitem.
    { unfold np.item. rewrite Hx. reflexivity. }
    exists (x :: data). cbn [traverse]. rewrite Hitem. csimpl.
    rewrite Hdata. csimpl. split; [reflexivity|].
    rewrite Hlen. reflexivity.
Qed.

(** The positions of identifiers that are all stored lie inside the array. *)
Lemma get_comid_indices_bounded (find_comids nc_comids : list Z) :
  (forall q, q ∈ find_comids -> q ∈ nc_comids) ->
  exists idx,
    _get_comid_indices find_comids nc_comids = Ok idx /\
    length idx = length find_comids /\
    Forall (fun pos => (pos < length nc_comids)%nat) idx.
Proof.
  intros Hin.
  destruct (get_comid_indices_found find_comids nc_comids Hin)
    as (idx & Hidx & Hlen & Hres).
  exists idx. split; [assumption|]. split; [assumption|].
  apply Forall_lookup. intros k pos Hpos.
  assert (k < length find_comids)%nat as Hk.
  { rewrite <- Hlen. eapply lookup_lt_Some, Hpos. }
  destruct (lookup_lt_is_Some_2 _ _ Hk) as [q Hq].
  destruct (Hres k q Hq) as (pos' & Hpos' & Hstored).
  assert (pos' = pos) as -> by congruence.
  eapply lookup_lt_Some, Hstored.
Qed.

(** The loop over the variables ends without exception when every included
    variable other than time is long enough for the index. *)
Lemma copy_variables_returns (included excluded : list string)
    (index : list nat) (vars written : list (string * nc_variable)) :
  (forall name var, (name, var) ∈ vars -> name ∈ included -> name <> "time" ->
     Forall (fun i => (i < length (var_data var))%nat) index) ->
  exists written',
    copy_variables vars included excluded index written = (written', Ok ()).
Proof.
  revert written. induction vars as [|[name var] vars IH]; intros written Hlong.
  - eexists. reflexivity.
  - cbn [copy_variables].
    assert (forall name' var', (name', var') ∈ vars -> name' ∈ included ->
              name' <> "time" ->
              Forall (fun i => (i < length (var_data var'))%nat) index) as Hrest.
    { intros n v Hin. apply Hlong, list_elem_of_further, Hin. }
    case_bool_decide as Hinc; [|apply IH, Hrest].
    case_decide as Htime; [apply IH, Hrest|].
    destruct (take_bounded (var_data var) index) as (data & -> & _).
    { apply (Hlong name var); [apply list_elem_of_here|assumption..]. }
    apply IH, Hrest.
Qed.

(** [subset_channel_file] with [just_streamflow_var] returns for a file that
    stores every requested identifier and whose streamflow and station_id
    variables have a cell for every stored identifier. *)
Lemma subset_just_streamflow_returns (fs : filesystem)
    (in_nc_filename out_nc_filename : string) (comids : list comid)
    (include_id_var : bool) (ids : list Z) (in_nc : nc_dataset)
    (station_id : nc_variable) :
  coerce_comids comids = Ok ids ->
  open_dataset fs in_nc_filename = Ok in_nc ->
  get_variable in_nc "station_id" = Ok station_id ->
  (forall q, q ∈ ids -> q ∈ var_data station_id) ->
  (forall name var, (name, var) ∈ variables in_nc ->
     name = "streamflow" \/ name = "station_id" ->
     (length (var_data station_id) <= length (var_data var))%nat) ->
  exists fs',
    subset_channel_file fs in_nc_filename out_nc_filename comids true
      include_id_var = (fs', Ok ()).
Proof.
  intros Hids Hopen Hsid Hin Hlong. unfold subset_channel_file.
  destruct (get_comid_indices_bounded ids (var_data station_id) Hin)
    as (index & Hindex & _ & Hbound).
  rewrite Hids. cbv beta iota delta [mbind result_bind mret result_ret].
  rewrite Hopen, Hsid, Hindex.
  destruct (copy_variables_returns
              (vars_to_include in_nc true include_id_var)
              (attrs_to_exclude true) index (variables in_nc) [])
    as (written & ->).
  { intros name var Hvar Hinc Htime.
    apply vars_to_include_just_streamflow in Hinc.
    eapply Forall_impl; [exact Hbound|]. intros i Hi. simpl in Hi.
    assert (length (var_data station_id) <= length (var_data var))%nat; [|lia].
    apply (Hlong name var Hvar). tauto. }
  eexists. reflexivity.
Qed.

(** ** Streamflow cube builder *)

(** What a successful pass through the reading block leaves in the state. *)
Lemma read_step_Ok (fs : filesystem) (nc_file : string) (i : nat)
    (comids : option (list Z)) (consistent_comid_order : bool)
    (num_rivers : nat) (st st' : cube_state) :
  read_step fs nc_file i comids consistent_comid_order num_rivers st = Ok st' ->
  exists nc date,
    open_dataset fs nc_file = Ok nc /\
    model_output_valid_time nc = Some date /\
    st_out_t st' =
      <[i := total_seconds_int (date - default date (st_since st))]>
        (st_out_t st) /\
    st_since st' = Some (default date (st_since st)) /\
    st_tmpfile st' = st_tmpfile st.
Proof.
  unfold read_step.
  destruct (open_dataset fs nc_file) as [nc|e]; csimpl; [|discriminate].
  unfold get_valid_time.
  destruct (model_output_valid_time nc) as [date|] eqn:Hdate; csimpl;
    [|discriminate].
  destruct (read_row _ _ _ _ _) as [[indices row]|e]; csimpl; [|discriminate].
  destruct (broadcast_row num_rivers row) as [row'|e]; csimpl; [|discriminate].
  intros [= <-]. exists nc, date. repeat split. exact Hdate.
Qed.

(** The dataset a successful decompression step hands to the reading block
    is the one stored under the path of the file list. *)
Lemma decompress_stored (tmpdir : string) (fs0 fs fs1 : filesystem)
    (nc_file nc_file' : string) (tmpfile tmpfile' : option string)
    (nc : nc_dataset) :
  fs ⊆ fs0 ->
  decompress tmpdir fs nc_file tmpfile = (fs1, Ok (nc_file', tmpfile')) ->
  open_dataset fs1 nc_file' = Ok nc ->
  stored_dataset fs0 nc_file = Some nc.
Proof.
  intros Hsub. unfold decompress, stored_dataset, open_dataset.
  case_decide as Hgz.
  - destruct (fs !! nc_file) as [c|] eqn:Hc; [|intros [= _ ?]; discriminate].
    rewrite (lookup_weaken _ _ _ _ Hc Hsub).
    destruct (is_file_path _); [|intros [= _ ?]; discriminate].
    destruct c as [d|c|]; try (intros [= _ ?]; discriminate).
    intros [= <- <- <-]. rewrite lookup_insert_eq.
    destruct c as [d| |]; try discriminate.
    intros [= <-]. reflexivity.
  - intros [= <- <- <-].
    destruct (fs !! nc_file) as [c|] eqn:Hc; [|discriminate].
    rewrite (lookup_weaken _ _ _ _ Hc Hsub).
    destruct c as [d| |]; try discriminate.
    intros [= <-]. reflexivity.
Qed.

(** Removing the scratch file after a successful step leaves a part of the
    file system the loop started from. *)
Lemma decompress_remove_subseteq (tmpdir : string) (fs0 fs fs1 : filesystem)
    (nc_file nc_file' : string) (tmpfile tmpfile' : option string) :
  fs ⊆ fs0 ->
  decompress tmpdir fs nc_file tmpfile = (fs1, Ok (nc_file', tmpfile')) ->
  remove_tmpfile fs1 tmpfile' ⊆ fs0.
Proof.
  intros Hsub. unfold decompress.
  assert (forall t, remove_tmpfile fs t ⊆ fs0) as Hrm.
  { intros [t|]; simpl; [|assumption].
    case_decide; [assumption|].
    etrans; [apply delete_subseteq|assumption]. }
  case_decide as Hgz.
  - destruct (fs !! nc_file) as [c|]; [|intros [= _ ?]; discriminate].
    destruct (is_file_path _) eqn:Hpath; [|intros [= _ ?]; discriminate].
    destruct c as [d|c|]; try (intros [= _ ?]; discriminate).
    intros [= <- <- <-]. simpl. case_decide as Hempty.
    + rewrite Hempty in Hpath. discriminate.
    + rewrite delete_insert_eq.
      etrans; [apply delete_subseteq|assumption].
  - intros [= <- <- <-]. apply Hrm.
Qed.

(** The invariant of the loop over the files: the cells of [out_t] from rank
    [i] on receive the whole seconds from [seconds_since_date] to the
    timestamp of each file, in order; the file system stays a part of the one
    the loop started from. *)
Lemma cube_loop_times (tmpdir : string) (fs0 : filesystem)
    (comids : option (list Z)) (consistent_comid_order : bool)
    (num_rivers : nat) (nc_files : list string) :
  forall (fs : filesystem) (i : nat) (st : cube_state)
         (fs' : filesystem) (st' : cube_state),
  fs ⊆ fs0 ->
  cube_loop tmpdir fs nc_files i comids consistent_comid_order num_rivers st
  = (fs', Ok st') ->
  exists times,
    Forall2 (fun f t => file_valid_time fs0 f = Some t) nc_files times /\
    length (st_out_t st') = length (st_out_t st) /\
    (forall k, (k < i)%nat -> st_out_t st' !! k = st_out_t st !! k) /\
    (forall k t, times !! k = Some t ->
       (i + k < length (st_out_t st))%nat ->
       st_out_t st' !! (i + k)%nat =
       Some (total_seconds_int
               (t - default (default 0 (head times)) (st_since st)))) /\
    st_since st' =
      match nc_files with
      | [] => st_since st
      | _ => Some (default (default 0 (head times)) (st_since st))
      end /\
    fs' ⊆ fs0.
Proof.
  induction nc_files as [|f rest IH]; intros fs i st fs' st' Hsub.
  - simpl. intros [= <- <-]. exists []. split; [constructor|].
    split; [reflexivity|]. split; [reflexivity|].
    split; [intros k t Hk; rewrite lookup_nil in Hk; discriminate|].
    split; [reflexivity|assumption].
  - cbn [cube_loop].
    destruct (decompress tmpdir fs f (st_tmpfile st))
      as [fs1 [[nc_file' tmpfile']|e]] eqn:Hdec; [|intros [= _ ?]; discriminate].
    destruct (read_step fs1 nc_file' i comids consistent_comid_order
                num_rivers _) as [st2|e] eqn:Hread;
      [|intros [= _ ?]; discriminate].
    intros Hloop.
    destruct (read_step_Ok _ _ _ _ _ _ _ _ Hread)
      as (nc & date & Hopen & Hdate & Hout & Hsince & _).
    simpl in Hout, Hsince.
    pose proof (decompress_stored _ _ _ _ _ _ _ _ nc Hsub Hdec Hopen) as Hstored.
    pose proof (decompress_remove_subseteq _ _ _ _ _ _ _ _ Hsub Hdec) as Hsub2.
    destruct (IH _ _ _ _ _ Hsub2 Hloop)
      as (times & Htimes & Hlen & Hbelow & Hfrom & Hsince' & Hsub').
    rewrite Hsince in Hfrom, Hsince'. simpl in Hfrom, Hsince'.
    rewrite Hout, length_insert in Hlen.
    exists (date :: times). simpl.
    split; [|split; [|split; [|split; [|split]]]].
    + constructor; [|assumption].
      unfold file_valid_time. rewrite Hstored. exact Hdate.
    + exact Hlen.
    + intros k Hk. rewrite (Hbelow k) by lia. rewrite Hout.
      apply list_lookup_insert_ne. lia.
    + intros [|k] t Hk Hbound; simpl in Hk.
      * injection Hk as <-. rewrite Nat.add_0_r.
        rewrite (Hbelow i) by lia. rewrite Hout.
        apply list_lookup_insert_eq. lia.
      * replace (i + S k)%nat with (S i + k)%nat by lia.
        apply Hfrom; [assumption|]. rewrite Hout, length_insert. lia.
    + rewrite Hsince'. destruct rest; reflexivity.
    + exact Hsub'.
Qed.

(** C7. When [build_streamflow_cube] returns a cube for a list of files,
    every file of the list has a model-valid-output timestamp, and the time
    array holds, file by file, the whole seconds elapsed between the
    timestamp of the file and that of the first file; its first entry is 0.
    The COMID list, the order flag and the maximum flag do not enter the time
    array. *)
Theorem build_streamflow_cube_times (tmpdir : string) (fs : filesystem)
    (nc_files : list string) (comids : option (list comid))
    (consistent_comid_order compute_max : bool)
    (fs' : filesystem) (c : cube) :
  build_streamflow_cube tmpdir fs nc_files comids consistent_comid_order
    compute_max = (fs', Ok (Some c)) ->
  exists t0 times,
    Forall2 (fun f t => file_valid_time fs f = Some t) nc_files (t0 :: times) /\
    cube_t c = (fun t => total_seconds_int (t - t0)) <$> (t0 :: times) /\
    cube_t c !! 0%nat = Some 0 /\
    cube_since c = Some t0.
Proof.
  unfold build_streamflow_cube.
  destruct nc_files as [|f rest]; [intros [= _ ?]; discriminate|].
  destruct (cube_comids fs (f :: rest) comids) as [[ids num_rivers]|e];
    [|intros [= _ ?]; discriminate].
  destruct (cube_loop _ _ _ _ _ _ _ _) as [fs1 [st'|e]] eqn:Hloop;
    [|intros [= _ ?]; discriminate].
  intros [= <- <-]. simpl.
  destruct (cube_loop_times _ fs _ _ _ _ _ _ _ _ _ (reflexivity fs) Hloop)
    as (times & Htimes & Hlen & _ & Hfrom & Hsince & _).
  simpl in Hlen, Hfrom, Hsince.
  destruct times as [|t0 times]; [inversion Htimes|].
  simpl in Hfrom, Hsince.
  pose proof (Forall2_length _ _ _ Htimes) as Hlens. simpl in Hlens.
  rewrite length_replicate in Hlen.
  assert (st_out_t st' = (fun t => total_seconds_int (t - t0)) <$> (t0 :: times))
    as Hout.
  { apply list_eq. intros k. rewrite list_lookup_fmap.
    destruct ((t0 :: times) !! k) as [t|] eqn:Hk.
    - apply lookup_lt_Some in Hk as Hklt. simpl in Hklt.
      simpl. apply (Hfrom k t Hk).
      rewrite length_replicate. simpl. lia.
    - apply lookup_ge_None in Hk. simpl in Hk.
      apply lookup_ge_None. lia. }
  exists t0, times. split; [assumption|]. split; [assumption|].
  split; [|assumption].
  rewrite Hout. simpl. rewrite Z.sub_diag. reflexivity.
Qed.

Lemma build_streamflow_cube_times_witness :
  let files := ["d/f001.nc.gz"; "d/f002.nc"; "d/f003.nc.gz"] in
  let r := build_streamflow_cube "/tmp" sample_fs files
             (Some [CInt 40; CInt 10]) false true in
  exists c,
    r = (r.1, Ok (Some c)) /\
    cube_t c = [0; 3600; 7200] /\
    exists t0 times,
      Forall2 (fun f t => file_valid_time sample_fs f = Some t) files
        (t0 :: times) /\
      cube_t c = (fun t => total_seconds_int (t - t0)) <$> (t0 :: times) /\
      cube_t c !! 0%nat = Some 0 /\
      cube_since c = Some t0.
Proof.
  intros files r.
  assert (exists c, r = (r.1, Ok (Some c)) /\ cube_t c = [0; 3600; 7200])
    as (c & Hr & Ht).
  { eexists. split; vm_compute; reflexivity. }
  exists c. split; [exact Hr|]. split; [exact Ht|].
  apply (build_streamflow_cube_times "/tmp" sample_fs files
           (Some [CInt 40; CInt 10]) false true r.1 c Hr).
Defined.

(** A pass of the loop body that succeeds leaves no scratch file of its own
    and creates no other file. *)
Lemma decompress_remove_lookup (tmpdir : string) (fs fs1 : filesystem)
    (nc_file nc_file' : string) (tmpfile tmpfile' : option string) :
  decompress tmpdir fs nc_file tmpfile = (fs1, Ok (nc_file', tmpfile')) ->
  (forall p, fs !! p = None -> remove_tmpfile fs1 tmpfile' !! p = None) /\
  (last3 nc_file = ".gz" ->
   remove_tmpfile fs1 tmpfile' !! scratch_path tmpdir nc_file = None).
Proof.
  unfold decompress.
  assert (forall t p, fs !! p = None -> remove_tmpfile fs t !! p = None) as Hrm.
  { intros [t|] p Hp; simpl; [|assumption].
    case_decide; [assumption|].
    rewrite lookup_delete_None. right. assumption. }
  case_decide as Hgz.
  - destruct (fs !! nc_file) as [c|]; [|intros [= _ ?]; discriminate].
    destruct (is_file_path _) eqn:Hpath; [|intros [= _ ?]; discriminate].
    destruct c as [d|c|]; try (intros [= _ ?]; discriminate).
    intros [= <- <- <-]. simpl. case_decide as Hempty.
    { rewrite Hempty in Hpath. discriminate. }
    rewrite delete_insert_eq. split.
    + intros p Hp. rewrite lookup_delete_None. right. assumption.
    + intros _. apply lookup_delete_eq.
  - intros [= <- <- <-]. split; [apply Hrm|]. intros Habs. contradiction.
Qed.

(** On the path without exception every scratch file is gone when the loop
    ends. *)
Lemma cube_loop_scratch_removed (tmpdir : string)
    (comids : option (list Z)) (consistent_comid_order : bool)
    (num_rivers : nat) (nc_files : list string) :
  forall (fs : filesystem) (i : nat) (st : cube_state)
         (fs' : filesystem) (st' : cube_state),
  cube_loop tmpdir fs nc_files i comids consistent_comid_order num_rivers st
  = (fs', Ok st') ->
  (forall p, fs !! p = None -> fs' !! p = None) /\
  (forall f, f ∈ nc_files -> last3 f = ".gz" ->
     fs' !! scratch_path tmpdir f = None).
Proof.
  induction nc_files as [|f rest IH]; intros fs i st fs' st'.
  - simpl. intros [= <- <-]. split; [auto|].
    intros f Hf. apply elem_of_nil in Hf. destruct Hf.
  - cbn [cube_loop].
    destruct (decompress tmpdir fs f (st_tmpfile st))
      as [fs1 [[nc_file' tmpfile']|e]] eqn:Hdec; [|intros [= _ ?]; discriminate].
    destruct (read_step fs1 nc_file' i comids consistent_comid_order
                num_rivers _) as [st2|e]; [|intros [= _ ?]; discriminate].
    intros Hloop.
    destruct (decompress_remove_lookup _ _ _ _ _ _ _ Hdec) as [Hnone Hown].
    destruct (IH _ _ _ _ _ Hloop) as [Hkeep Hrest].
    split.
    + intros p Hp. apply Hkeep, Hnone, Hp.
    + intros f' Hf' Hgz. apply elem_of_cons in Hf' as [->|Hf'].
      * apply Hkeep, Hown, Hgz.
      * apply Hrest; assumption.
Qed.

(** When [build_streamflow_cube] returns, the scratch copy of every
    compressed file of the list has been removed. *)
Lemma build_streamflow_cube_scratch_removed (tmpdir : string)
    (fs : filesystem) (nc_files : list string) (comids : option (list comid))
    (consistent_comid_order compute_max : bool)
    (fs' : filesystem) (c : option cube) :
  build_streamflow_cube tmpdir fs nc_files comids consistent_comid_order
    compute_max = (fs', Ok c) ->
  forall f, f ∈ nc_files -> last3 f = ".gz" ->
    fs' !! scratch_path tmpdir f = None.
Proof.
  unfold build_streamflow_cube.
  destruct nc_files as [|f rest].
  { intros _ f Hf. apply elem_of_nil in Hf. destruct Hf. }
  destruct (cube_comids fs (f :: rest) comids) as [[ids num_rivers]|e];
    [|intros [= _ ?]; discriminate].
  destruct (cube_loop _ _ _ _ _ _ _ _) as [fs1 [st'|e]] eqn:Hloop;
    [|intros [= _ ?]; discriminate].
  intros [= <- _].
  apply (cube_loop_scratch_removed _ _ _ _ _ _ _ _ _ _ Hloop).
Qed.

(** When the reading block raises for a compressed file, the loop ends with
    the exception and the scratch copy is still in the file system: nothing
    removes it on that path. *)
Lemma cube_loop_error_keeps_scratch (tmpdir : string) (fs fs1 : filesystem)
    (nc_file tmp : string) (rest : list string) (i : nat)
    (comids : option (list Z)) (consistent_comid_order : bool)
    (num_rivers : nat) (st : cube_state) (e : pyerr) :
  decompress tmpdir fs nc_file (st_tmpfile st) = (fs1, Ok (tmp, Some tmp)) ->
  last3 nc_file = ".gz" ->
  read_step fs1 tmp i comids consistent_comid_order num_rivers
    {| st_tmpfile := Some tmp; st_indices := st_indices st;
       st_since := st_since st; st_out_q := st_out_q st;
       st_out_t := st_out_t st |} = Raise e ->
  cube_loop tmpdir fs (nc_file :: rest) i comids consistent_comid_order
    num_rivers st = (fs1, Raise e) /\
  is_Some (fs1 !! scratch_path tmpdir nc_file).
Proof.
  intros Hdec Hgz Hread. split.
  - cbn [cube_loop]. rewrite Hdec, Hread. reflexivity.
  - revert Hdec. unfold decompress. rewrite decide_True by assumption.
    destruct (fs !! nc_file) as [c|]; [|intros [= _ ?]; discriminate].
    destruct (is_file_path _); [|intros [= _ ?]; discriminate].
    destruct c as [d|c|]; try (intros [= _ ?]; discriminate).
    intros [= <- _]. rewrite lookup_insert_eq. eexists. reflexivity.
Qed.

(** C8 (the code at a failing input). A compressed file without the
    station_id variable, read for a list of COMIDs: the builder raises the
    missing-identifier exception, and the scratch copy it decompressed, which
    did not exist before the call, is in the file system after it. *)
Theorem build_streamflow_cube_leaves_scratch :
  let r := build_streamflow_cube "/tmp" sample_fs ["d/bare.nc.gz"]
             (Some [CInt 7]) true true in
  scratch_path "/tmp" "d/bare.nc.gz" = "/tmp/bare.nc" /\
  sample_fs !! "/tmp/bare.nc" = None /\
  r.2 = Raise (PyException (no_station_msg "/tmp/bare.nc")) /\
  r.1 !! "/tmp/bare.nc" = Some (NetCDF (sample_dataset_no_id sample_epoch)).
Proof. vm_compute. repeat split. Qed.

(** *** The builder returns on well-formed files *)

Section cube_returns.
Context (tmpdir : string) (fs0 : filesystem) (ids : list Z) (cells : nat).
Context (consistent_comid_order : bool).

Local Abbreviation well_formed_file := (well_formed_file fs0 ids cells).
Local Abbreviation good_indices := (good_indices ids cells).

Lemma get_variable_has_key (d : nc_dataset) (name : string) (v : nc_variable) :
  get_variable d name = Ok v -> has_key name (variables d) = true.
Proof.
  unfold get_variable, has_key. intros H.
  destruct (assoc name (variables d)) as [w|]; [|discriminate].
  apply bool_decide_eq_true. eexists. reflexivity.
Qed.

Lemma read_step_returns (fs : filesystem) (nc_file : string) (i : nat)
    (st : cube_state) (d : nc_dataset) (station_id q : nc_variable)
    (t : datetime) :
  open_dataset fs nc_file = Ok d ->
  model_output_valid_time d = Some t ->
  get_variable d "station_id" = Ok station_id ->
  get_variable d "streamflow" = Ok q ->
  (forall x, x ∈ ids -> x ∈ var_data station_id) ->
  length (var_data station_id) = cells ->
  length (var_data q) = cells ->
  good_indices (st_indices st) ->
  exists st2,
    read_step fs nc_file i (Some ids) consistent_comid_order (length ids) st
    = Ok st2 /\
    good_indices (st_indices st2) /\
    st_tmpfile st2 = st_tmpfile st.
Proof.
  intros Hopen Ht Hsid Hq Hin Hls Hlq Hgood.
  assert (exists idx, compute_indices d nc_file ids = Ok idx /\
            Forall (fun pos => (pos < cells)%nat) idx /\
            length idx = length ids) as Hcompute.
  { unfold compute_indices. rewrite (get_variable_has_key _ _ _ Hsid), Hsid.
    destruct (get_comid_indices_bounded ids (var_data station_id) Hin)
      as (idx & Hidx & Hlen & Hbound).
    exists idx. csimpl. rewrite Hls in Hbound. auto. }
  assert (exists idx,
            match st_indices st with
            | Some indices =>
                if consistent_comid_order then Ok indices
                else compute_indices d nc_file ids
            | None => compute_indices d nc_file ids
            end = Ok idx /\
            Forall (fun pos => (pos < cells)%nat) idx /\
            length idx = length ids) as (idx & Hidx & Hbound & Hlen).
  { destruct (st_indices st) as [idx0|] eqn:Hst; [|exact Hcompute].
    destruct consistent_comid_order; [|exact Hcompute].
    destruct (Hgood idx0 eq_refl). eauto. }
  destruct (take_bounded (var_data q) idx) as (row & Hrow & Hrowlen).
  { rewrite Hlq. exact Hbound. }
  unfold read_step, get_valid_time, read_row.
  rewrite Hopen. csimpl. rewrite Ht. csimpl. rewrite Hidx. csimpl.
  rewrite Hq. csimpl. rewrite Hrow. csimpl.
  unfold broadcast_row. rewrite decide_True by congruence. csimpl.
  eexists. split; [reflexivity|]. simpl. split; [|reflexivity].
  intros idx' [= <-]. auto.
Qed.

Lemma stored_dataset_lookup (path : string) (d : nc_dataset) :
  stored_dataset fs0 path = Some d ->
  (last3 path = ".gz" /\ fs0 !! path = Some (Gzip (NetCDF d))) \/
  (last3 path <> ".gz" /\ fs0 !! path = Some (NetCDF d)).
Proof.
  unfold stored_dataset.
  destruct (fs0 !! path) as [[d'|[d'| |]|]|]; try discriminate;
    case_decide; try discriminate; intros [= <-]; auto.
Qed.

Lemma cube_loop_returns (nc_files : list string) :
  forall (fs : filesystem) (i : nat) (st : cube_state),
  Forall well_formed_file nc_files ->
  (forall f, f ∈ nc_files -> last3 f = ".gz" ->
     is_file_path (scratch_path tmpdir f) = true) ->
  (forall f g, f ∈ nc_files -> g ∈ nc_files -> scratch_path tmpdir g <> f) ->
  (forall f, f ∈ nc_files -> fs !! f = fs0 !! f) ->
  (forall p, st_tmpfile st = Some p -> p ∉ nc_files) ->
  good_indices (st_indices st) ->
  exists fs' st',
    cube_loop tmpdir fs nc_files i (Some ids) consistent_comid_order
      (length ids) st = (fs', Ok st').
Proof.
  induction nc_files as [|f rest IH];
    intros fs i st Hwf Hpath Hapart Hsame Htmp Hgood.
  { eexists _, _. reflexivity. }
  apply Forall_cons in Hwf
    as [(d & sid & q & t & Hd & Ht & Hsid & Hq & Hin & Hls & Hlq) Hwf'].
  cbn [cube_loop].
  assert (exists fs1 nc_file' tmpfile',
            decompress tmpdir fs f (st_tmpfile st)
            = (fs1, Ok (nc_file', tmpfile')) /\
            open_dataset fs1 nc_file' = Ok d /\
            (forall g, g ∈ rest ->
               remove_tmpfile fs1 tmpfile' !! g = fs0 !! g) /\
            (forall p, tmpfile' = Some p -> p ∉ rest))
    as (fs1 & nc_file' & tmpfile' & Hdec & Hopen & Hsame' & Htmp').
  { unfold decompress.
    rewrite (Hsame f (list_elem_of_here _ _)).
    destruct (stored_dataset_lookup f d Hd) as [[Hgz Hf]|[Hgz Hf]].
    - rewrite decide_True by assumption. rewrite Hf.
      rewrite (Hpath f (list_elem_of_here _ _) Hgz).
      eexists _, _, _. split; [reflexivity|].
      assert (scratch_path tmpdir f ∉ rest) as Hfresh.
      { intros Hmem. eapply (Hapart _ f); [|apply list_elem_of_here|reflexivity].
        apply list_elem_of_further, Hmem. }
      split; [|split].
      + unfold open_dataset. rewrite lookup_insert_eq. reflexivity.
      + intros g Hg. simpl. case_decide as Hempty.
        * pose proof (Hpath f (list_elem_of_here _ _) Hgz) as Hp.
          rewrite Hempty in Hp. discriminate.
        * rewrite delete_insert_eq, lookup_delete_ne.
          { apply Hsame, list_elem_of_further, Hg. }
          intros Heq. apply Hfresh. rewrite Heq. exact Hg.
      + intros p [= <-]. exact Hfresh.
    - rewrite decide_False by assumption.
      eexists _, _, _. split; [reflexivity|].
      split; [|split].
      + unfold open_dataset.
        rewrite (Hsame f (list_elem_of_here _ _)), Hf. reflexivity.
      + intros g Hg. destruct (st_tmpfile st) as [p|] eqn:Hp; simpl.
        * case_decide; [apply Hsame, list_elem_of_further, Hg|].
          rewrite lookup_delete_ne.
          { apply Hsame, list_elem_of_further, Hg. }
          intros ->. apply (Htmp g eq_refl), list_elem_of_further, Hg.
        * apply Hsame, list_elem_of_further, Hg.
      + intros p Hp Hmem. apply (Htmp p Hp), list_elem_of_further, Hmem. }
  rewrite Hdec.
  destruct (read_step_returns fs1 nc_file' i
              {| st_tmpfile := tmpfile'; st_indices := st_indices st;
                 st_since := st_since st; st_out_q := st_out_q st;
                 st_out_t := st_out_t st |} d sid q t
              Hopen Ht Hsid Hq Hin Hls Hlq Hgood)
    as (st2 & Hread & Hgood2 & Htmp2).
  rewrite Hread. simpl in Htmp2.
  apply IH; try assumption.
  - intros g Hg. apply Hpath, list_elem_of_further, Hg.
  - intros g h Hg Hh. apply Hapart; apply list_elem_of_further; assumption.
  - intros p Hp. apply Htmp'. congruence.
Qed.

(** A non-empty list of well-formed files, whose scratch names can be
    created and are not names of the list, and a non-empty list of COMIDs
    that read as the integers [ids]: the builder returns a cube. *)
Lemma build_streamflow_cube_returns (nc_files : list string)
    (comids : list comid) (compute_max : bool) :
  nc_files <> [] -> comids <> [] ->
  coerce_comids comids = Ok ids ->
  Forall well_formed_file nc_files ->
  (forall f, f ∈ nc_files -> last3 f = ".gz" ->
     is_file_path (scratch_path tmpdir f) = true) ->
  (forall f g, f ∈ nc_files -> g ∈ nc_files -> scratch_path tmpdir g <> f) ->
  exists fs' c,
    build_streamflow_cube tmpdir fs0 nc_files (Some comids)
      consistent_comid_order compute_max = (fs', Ok (Some c)).
Proof.
  intros Hfiles Hcomids Hids Hwf Hpath Hapart.
  unfold build_streamflow_cube.
  destruct nc_files as [|f rest]; [congruence|].
  unfold cube_comids. destruct comids as [|c cs]; [congruence|].
  rewrite Hids. cbv beta iota delta [mbind result_bind mret result_ret].
  destruct (cube_loop_returns (f :: rest) fs0 0%nat
              {| st_tmpfile := None; st_indices := None; st_since := None;
                 st_out_q := replicate (length (f :: rest))
                               (replicate (length ids) 0);
                 st_out_t := replicate (length (f :: rest)) 0 |}
              Hwf Hpath Hapart)
    as (fs' & st' & Hloop).
  - reflexivity.
  - intros p Hp. discriminate.
  - intros idx Hidx. discriminate.
  - rewrite Hloop. eexists _, _. reflexivity.
Qed.

End cube_returns.

(** ** Cube-to-file combiner *)

(** C9. [combine_files] works on the files of the list that exist: it
    returns what it returns for the filtered list.  When no file of the list
    exists it raises the exception "No files to combine" and leaves the file
    system as it was, so no output file is opened or written. *)
Theorem combine_files_no_files (tmpdir : string) (fs : filesystem)
    (nc_files : list string) (output_file : string)
    (comids : option (list comid)) (consistent_comid_order compute_max : bool) :
  let existing := filter (fun f => isfile fs f = true) nc_files in
  combine_files tmpdir fs nc_files output_file comids consistent_comid_order
    compute_max =
  combine_files tmpdir fs existing output_file comids consistent_comid_order
    compute_max /\
  (existing = [] ->
   combine_files tmpdir fs nc_files output_file comids consistent_comid_order
     compute_max = (fs, Raise (PyException no_files_msg))).
Proof.
  intros existing. split.
  - unfold combine_files. fold existing.
    assert (filter (fun f => isfile fs f = true) existing = existing) as ->;
      [|reflexivity].
    unfold existing. apply list_filter_filter_l. tauto.
  - intros Hnone. unfold combine_files. fold existing. rewrite Hnone.
    reflexivity.
Qed.

Lemma combine_files_no_files_witness :
  filter (fun f => isfile sample_fs f = true) ["d/f004.nc"; "e/f001.nc.gz"] = [] /\
  combine_files "/tmp" sample_fs ["d/f004.nc"; "e/f001.nc.gz"] "out.nc"
    (Some [CInt 10]) true true
  = (sample_fs, Raise (PyException no_files_msg)).
Proof.
  assert (filter (fun f => isfile sample_fs f = true)
            ["d/f004.nc"; "e/f001.nc.gz"] = []) as H by reflexivity.
  split; [exact H|].
  apply (proj2 (combine_files_no_files "/tmp" sample_fs
                  ["d/f004.nc"; "e/f001.nc.gz"] "out.nc" (Some [CInt 10])
                  true true)).
  exact H.
Defined.

(** The three sample files and a missing one, combined for two reaches: the
    missing file is skipped, the output holds the elapsed seconds, the
    identifiers as given, and the scratch copies are gone. *)
Lemma combine_files_sample :
  let r := combine_files "/tmp" sample_fs
             ["d/f001.nc.gz"; "d/f004.nc"; "d/f002.nc"; "d/f003.nc.gz"]
             "out.nc" (Some [CStr "10"; CInt 40]) true false in
  r.2 = Ok () /\
  r.1 !! "/tmp/f001.nc" = None /\ r.1 !! "/tmp/f003.nc" = None /\
  exists out,
    r.1 !! "out.nc" = Some (NetCDF out) /\
    dimensions out = [("time", Some 3%nat); ("station", Some 2%nat)] /\
    var_data <$> assoc "time" (variables out) = Some [0; 3600; 7200] /\
    var_data <$> assoc "station_id" (variables out) = Some [10; 40] /\
    var_data <$> assoc "streamflow" (variables out)
    = Some [102; 400; 104; 400; 300; 400] /\
    assoc "max_streamflow" (variables out) = None.
Proof. vm_compute. repeat split. eexists. repeat split. Qed.

(* ================================================================== *)
(** * Further properties *)
(* ================================================================== *)

(** ** Identifier index resolver, continued *)

(** The cell a fancy index returns at rank [k] is the cell of the array at
    the position the index holds at rank [k]. *)
Lemma take_lookup {A} (a : list A) (idx : list nat) (data : list A)
    (k pos : nat) :
  np.take a idx = Ok data -> idx !! k = Some pos -> data !! k = a !! pos.
Proof.
  unfold np.take. intros Htake Hk.
  destruct (traverse_Ok_lookup _ _ _ _ _ Htake Hk) as (x & Hx & Hitem).
  unfold np.item in Hitem. destruct (a !! pos); [|discriminate].
  injection Hitem as <-. exact Hx.
Qed.

Lemma take_length {A} (a : list A) (idx : list nat) (data : list A) :
  np.take a idx = Ok data -> length data = length idx.
Proof. unfold np.take. apply traverse_Ok_length. Qed.

(** When no queried identifier is above every stored one, each of them is
    sent to the position of the least stored identifier that is not below
    it. *)
Lemma get_comid_indices_nearest (find_comids nc_comids : list Z) :
  (forall q, q ∈ find_comids -> exists x, x ∈ nc_comids /\ q ≤ x) ->
  exists idx,
    _get_comid_indices find_comids nc_comids = Ok idx /\
    length idx = length find_comids /\
    forall k q, find_comids !! k = Some q ->
      exists pos x, idx !! k = Some pos /\ nc_comids !! pos = Some x /\
        q ≤ x /\ (forall y, y ∈ nc_comids -> q ≤ y -> x ≤ y).
Proof.
  intros Hbound. rewrite get_comid_indices_unfold.
  unfold np.take, np.searchsorted.
  assert (Forall (fun q => exists pos x,
            np.item (np.argsort nc_comids)
              (np.searchsorted1 (np.argsort_pairs nc_comids).*1 q) = Ok pos /\
            nc_comids !! pos = Some x /\ q ≤ x /\
            (forall y, y ∈ nc_comids -> q ≤ y -> x ≤ y)) find_comids) as Hall.
  { apply Forall_forall. intros q Hq.
    destruct (Hbound q Hq) as (x0 & Hx0 & Hqx0).
    apply (resolve_one_bounded nc_comids q x0 Hx0 Hqx0). }
  clear Hbound.
  induction Hall as [|q qs (pos & x & Hpos & Hx & Hqx & Hmin) _
                       (idx & Hidx & Hlen & Hres)].
  - exists []. split; [reflexivity|]. split; [reflexivity|].
    intros k q Hk. rewrite lookup_nil in Hk. discriminate.
  - exists (pos :: idx). csimpl. rewrite Hpos. csimpl.
    rewrite Hidx. csimpl. split; [reflexivity|]. split; [lia|].
    intros [|k] q' Hk; simpl in *.
    + injection Hk as <-. exists pos, x. auto.
    + apply Hres; assumption.
Qed.

(** A queried identifier above every stored one makes the resolver raise. *)
Lemma get_comid_indices_above (find_comids nc_comids : list Z) (q : Z) :
  q ∈ find_comids -> (forall x, x ∈ nc_comids -> x < q) ->
  _get_comid_indices find_comids nc_comids = Raise IndexError.
Proof.
  intros Hq Habove. rewrite get_comid_indices_unfold.
  unfold np.take, np.searchsorted. apply traverse_Raise_uniform.
  - apply Forall_fmap, Forall_forall. intros q' _. simpl.
    apply resolve_one_cases.
  - apply Exists_fmap, Exists_exists. exists q. split; [assumption|].
    simpl. apply resolve_one_above, Habove.
Qed.

(** Resolving the identifiers of an array without duplicates against the
    array itself gives every position in order: the identity permutation. *)
Theorem get_comid_indices_self (nc_comids : list Z) :
  NoDup nc_comids ->
  _get_comid_indices nc_comids nc_comids = Ok (seq 0 (length nc_comids)).
Proof.
  intros Hnodup.
  destruct (get_comid_indices_found nc_comids nc_comids) as
    (idx & Hidx & Hlen & Hres); [auto|].
  rewrite Hidx. f_equal. apply list_eq. intros k.
  destruct (nc_comids !! k) as [q|] eqn:Hk.
  - destruct (Hres k q Hk) as (pos & Hpos & Hq).
    assert (pos = k) as -> by (eapply NoDup_lookup; eassumption).
    rewrite Hpos. symmetry. apply lookup_seq.
    split; [reflexivity|]. eapply lookup_lt_Some, Hk.
  - apply lookup_ge_None in Hk.
    rewrite (proj2 (lookup_ge_None idx k)) by lia.
    symmetry. apply lookup_ge_None. rewrite length_seq. lia.
Qed.

Lemma get_comid_indices_self_witness :
  NoDup [20; 30; 10; 40] /\
  _get_comid_indices [20; 30; 10; 40] [20; 30; 10; 40]
  = Ok (seq 0 (length [20; 30; 10; 40])).
Proof.
  assert (NoDup [20; 30; 10; 40]) as Hnd.
  { repeat (apply NoDup_cons; split; [list_mem|]). apply NoDup_nil_2. }
  split; [exact Hnd|]. apply (get_comid_indices_self _ Hnd).
Defined.

(** ** Reading the streamflow of a set of reaches *)

(** What [read_q_for_comids] computes once the file is open and has the two
    variables. *)
Lemma read_q_for_comids_unfold (fs : filesystem) (nc_filename : string)
    (comids : list comid) (ids : list Z) (nc : nc_dataset) (t : datetime)
    (station_id q : nc_variable) :
  coerce_comids comids = Ok ids ->
  open_dataset fs nc_filename = Ok nc ->
  model_output_valid_time nc = Some t ->
  get_variable nc "station_id" = Ok station_id ->
  get_variable nc "streamflow" = Ok q ->
  read_q_for_comids fs nc_filename comids =
  (indices ← _get_comid_indices ids (var_data station_id);
   flows ← np.take (var_data q) indices;
   mret {| q_datetime := t; q_flows := flows |}).
Proof.
  intros Hids Hopen Ht Hsid Hq. unfold read_q_for_comids, get_valid_time.
  rewrite Hids. csimpl. rewrite Hopen. csimpl. rewrite Ht. csimpl.
  rewrite Hsid. csimpl. rewrite Hq. reflexivity.
Qed.

(** For a file that stores every requested COMID, [read_q_for_comids] returns
    the date of the file and one flow per COMID, in the order of the request:
    the flow at rank [k] is the cell of the streamflow variable at a position
    where the station_id variable holds the COMID of rank [k]. *)
Theorem read_q_for_comids_flows (fs : filesystem) (nc_filename : string)
    (comids : list comid) (ids : list Z) (nc : nc_dataset) (t : datetime)
    (station_id q : nc_variable) :
  coerce_comids comids = Ok ids ->
  open_dataset fs nc_filename = Ok nc ->
  model_output_valid_time nc = Some t ->
  get_variable nc "station_id" = Ok station_id ->
  get_variable nc "streamflow" = Ok q ->
  (forall x, x ∈ ids -> x ∈ var_data station_id) ->
  (length (var_data station_id) <= length (var_data q))%nat ->
  exists flows,
    read_q_for_comids fs nc_filename comids
    = Ok {| q_datetime := t; q_flows := flows |} /\
    length flows = length comids /\
    forall k id, ids !! k = Some id ->
      exists pos flow,
        var_data station_id !! pos = Some id /\
        var_data q !! pos = Some flow /\
        flows !! k = Some flow.
Proof.
  intros Hids Hopen Ht Hsid Hq Hin Hlong.
  rewrite (read_q_for_comids_unfold _ _ _ _ _ _ _ _ Hids Hopen Ht Hsid Hq).
  destruct (get_comid_indices_found ids (var_data station_id) Hin)
    as (idx & Hidx & Hlen & Hres).
  destruct (take_bounded (var_data q) idx) as (flows & Hflows & Hflen).
  { apply Forall_lookup. intros k pos Hpos.
    assert (k < length ids)%nat as Hk.
    { rewrite <- Hlen. eapply lookup_lt_Some, Hpos. }
    destruct (lookup_lt_is_Some_2 _ _ Hk) as [id Hid].
    destruct (Hres k id Hid) as (pos' & Hpos' & Hstored).
    assert (pos' = pos) as -> by congruence.
    apply lookup_lt_Some in Hstored. lia. }
  exists flows. rewrite Hidx. csimpl. rewrite Hflows. csimpl.
  split; [reflexivity|]. split.
  - rewrite Hflen, Hlen. apply coerce_comids_length, Hids.
  - intros k id Hid. destruct (Hres k id Hid) as (pos & Hpos & Hstored).
    assert (pos < length (var_data q))%nat as Hlt.
    { apply lookup_lt_Some in Hstored. lia. }
    destruct (lookup_lt_is_Some_2 _ _ Hlt) as [flow Hflow].
    exists pos, flow. split; [assumption|]. split; [assumption|].
    rewrite (take_lookup _ _ _ _ _ Hflows Hpos). exact Hflow.
Qed.

Lemma read_q_for_comids_flows_witness :
  exists flows,
    read_q_for_comids sample_fs "d/f002.nc" [CStr "40"; CInt 10]
    = Ok {| q_datetime := sample_epoch + timedelta_hours 1;
            q_flows := flows |} /\
    length flows = length [CStr "40"; CInt 10] /\
    forall k id, [40; 10] !! k = Some id ->
      exists pos flow,
        [20; 30; 10; 40] !! pos = Some id /\
        [202; 298; 104; 400] !! pos = Some flow /\
        flows !! k = Some flow.
Proof.
  apply (read_q_for_comids_flows sample_fs "d/f002.nc" [CStr "40"; CInt 10]
           [40; 10] (sample_dataset (sample_epoch + timedelta_hours 1) 2)
           (sample_epoch + timedelta_hours 1)
           (sample_variable ["station"] [20; 30; 10; 40])
           (sample_variable ["station"]
              [200 + 2; 300 - 2; 100 + 2 * 2; 400])).
  - reflexivity.
  - reflexivity.
  - reflexivity.
  - reflexivity.
  - reflexivity.
  - intros x Hx. simpl. list_mem.
  - simpl. lia.
Defined.

(** A requested COMID that the file does not store, but that is below some
    stored COMID, is answered without any error by the flow of the least
    stored COMID above it. *)
Theorem read_q_for_comids_absent (fs : filesystem) (nc_filename : string)
    (comids : list comid) (ids : list Z) (nc : nc_dataset) (t : datetime)
    (station_id q : nc_variable) :
  coerce_comids comids = Ok ids ->
  open_dataset fs nc_filename = Ok nc ->
  model_output_valid_time nc = Some t ->
  get_variable nc "station_id" = Ok station_id ->
  get_variable nc "streamflow" = Ok q ->
  (forall x, x ∈ ids -> exists y, y ∈ var_data station_id /\ x ≤ y) ->
  (length (var_data station_id) <= length (var_data q))%nat ->
  exists flows,
    read_q_for_comids fs nc_filename comids
    = Ok {| q_datetime := t; q_flows := flows |} /\
    forall k id, ids !! k = Some id -> id ∉ var_data station_id ->
      exists pos other flow,
        var_data station_id !! pos = Some other /\ id < other /\
        (forall y, y ∈ var_data station_id -> id < y -> other ≤ y) /\
        var_data q !! pos = Some flow /\
        flows !! k = Some flow.
Proof.
  intros Hids Hopen Ht Hsid Hq Hin Hlong.
  rewrite (read_q_for_comids_unfold _ _ _ _ _ _ _ _ Hids Hopen Ht Hsid Hq).
  destruct (get_comid_indices_nearest ids (var_data station_id) Hin)
    as (idx & Hidx & Hlen & Hres).
  destruct (take_bounded (var_data q) idx) as (flows & Hflows & Hflen).
  { apply Forall_lookup. intros k pos Hpos.
    assert (k < length ids)%nat as Hk.
    { rewrite <- Hlen. eapply lookup_lt_Some, Hpos. }
    destruct (lookup_lt_is_Some_2 _ _ Hk) as [id Hid].
    destruct (Hres k id Hid) as (pos' & x & Hpos' & Hstored & _).
    assert (pos' = pos) as -> by congruence.
    apply lookup_lt_Some in Hstored. lia. }
  exists flows. rewrite Hidx. csimpl. rewrite Hflows. csimpl.
  split; [reflexivity|].
  intros k id Hid Habsent.
  destruct (Hres k id Hid) as (pos & other & Hpos & Hstored & Hle & Hmin).
  assert (pos < length (var_data q))%nat as Hlt.
  { apply lookup_lt_Some in Hstored. lia. }
  destruct (lookup_lt_is_Some_2 _ _ Hlt) as [flow Hflow].
  assert (other <> id) as Hne.
  { intros ->. apply Habsent. eapply list_elem_of_lookup_2, Hstored. }
  exists pos, other, flow. split; [assumption|]. split; [lia|].
  split; [|split; [assumption|]].
  - intros y Hy Hlt'. apply Hmin; [assumption|lia].
  - rewrite (take_lookup _ _ _ _ _ Hflows Hpos). exact Hflow.
Qed.

Lemma read_q_for_comids_absent_witness :
  exists flows,
    read_q_for_comids sample_fs "d/f002.nc" [CInt 25]
    = Ok {| q_datetime := sample_epoch + timedelta_hours 1;
            q_flows := flows |} /\
    forall k id, [25] !! k = Some id -> id ∉ [20; 30; 10; 40] ->
      exists pos other flow,
        [20; 30; 10; 40] !! pos = Some other /\ id < other /\
        (forall y, y ∈ [20; 30; 10; 40] -> id < y -> other ≤ y) /\
        [202; 298; 104; 400] !! pos = Some flow /\
        flows !! k = Some flow.
Proof.
  apply (read_q_for_comids_absent sample_fs "d/f002.nc" [CInt 25]
           [25] (sample_dataset (sample_epoch + timedelta_hours 1) 2)
           (sample_epoch + timedelta_hours 1)
           (sample_variable ["station"] [20; 30; 10; 40])
           (sample_variable ["station"]
              [200 + 2; 300 - 2; 100 + 2 * 2; 400])).
  - reflexivity.
  - reflexivity.
  - reflexivity.
  - reflexivity.
  - reflexivity.
  - intros x Hx. exists 40. simpl. split; list_mem.
  - simpl. lia.
Defined.

(** ** File subset extractor, continued *)

(** An index beyond the end of an array makes the fancy indexing raise. *)
Lemma take_out_of_bounds {A} (a : list A) (idx : list nat) :
  ~ Forall (fun i => (i < length a)%nat) idx ->
  np.take a idx = Raise IndexError.
Proof.
  intros Hbad. unfold np.take. apply traverse_Raise_uniform.
  - apply Forall_forall. intros i _. unfold np.item.
    destruct (a !! i); [left; eauto|right; reflexivity].
  - apply not_Forall_Exists in Hbad; [|intros i; apply _].
    eapply Exists_impl; [exact Hbad|]. intros i Hi. simpl in Hi.
    unfold np.item. rewrite (proj2 (lookup_ge_None a i)) by lia. reflexivity.
Qed.

(** The loop over the variables that ends without exception wrote, in order,
    a copy of every included variable of the input. *)
Lemma copy_variables_copied (included excluded : list string)
    (index : list nat) (vars written written' : list (string * nc_variable)) :
  copy_variables vars included excluded index written = (written', Ok ()) ->
  exists new,
    written' = written ++ new /\
    Forall2 (copied excluded index)
      (filter (fun nv => nv.1 ∈ included) vars) new.
Proof.
  revert written. induction vars as [|[name var] vars IH]; intros written.
  - simpl. intros [= <-]. exists []. rewrite app_nil_r.
    split; [reflexivity|constructor].
  - cbn [copy_variables]. case_bool_decide as Hinc.
    + rewrite filter_cons_True by exact Hinc.
      destruct (if decide (name = "time") then Ok (var_data var)
                else np.take (var_data var) index) as [data|e] eqn:Hcells;
        [|intros [= _ ?]; discriminate].
      intros H. destruct (IH _ H) as (new & -> & Hnew).
      exists ((name, set_data (create_variable var excluded) data) :: new).
      rewrite <- app_assoc. split; [reflexivity|].
      constructor; [|assumption].
      unfold copied. simpl. repeat split.
      case_decide; [injection Hcells as <-; reflexivity|exact Hcells].
    + rewrite filter_cons_False by exact Hinc. apply IH.
Qed.

(** The loop raises [IndexError] at the first included variable, other than
    time, that is too short for the index; that variable has been created
    and is the last one written, without any cell. *)
Lemma copy_variables_short (included excluded : list string)
    (index : list nat) (vars written : list (string * nc_variable)) :
  Exists (fun nv => nv.1 ∈ included /\ nv.1 <> "time" /\
            ~ Forall (fun i => (i < length (var_data nv.2))%nat) index) vars ->
  exists written' name var,
    copy_variables vars included excluded index written
    = (written' ++ [(name, create_variable var excluded)], Raise IndexError) /\
    (name, var) ∈ vars /\ name ∈ included.
Proof.
  revert written. induction vars as [|[name var] vars IH]; intros written Hex.
  - inversion Hex.
  - cbn [copy_variables].
    assert (forall w, Exists (fun nv => nv.1 ∈ included /\ nv.1 <> "time" /\
              ~ Forall (fun i => (i < length (var_data nv.2))%nat) index) vars ->
            exists written' name' var',
              copy_variables vars included excluded index w
              = (written' ++ [(name', create_variable var' excluded)],
                 Raise IndexError) /\
              (name', var') ∈ (name, var) :: vars /\ name' ∈ included) as Hrest.
    { intros w Hex'. destruct (IH w Hex') as (w' & n & v & Hcopy & Hin & Hinc).
      exists w', n, v. split; [assumption|].
      split; [apply list_elem_of_further, Hin|assumption]. }
    case_bool_decide as Hinc.
    + case_decide as Htime.
      * apply Hrest. inversion Hex as [? ? (_ & Hnt & _)|]; subst;
          [simpl in Hnt; contradiction|assumption].
      * destruct (decide (Forall (fun i => (i < length (var_data var))%nat)
                            index)) as [Hok|Hbad].
        -- destruct (take_bounded (var_data var) index Hok) as (data & -> & _).
           apply Hrest. inversion Hex as [? ? (_ & _ & Hb)|]; subst;
             [simpl in Hb; contradiction|assumption].
        -- rewrite (take_out_of_bounds _ _ Hbad).
           exists written, name, var. split; [reflexivity|].
           split; [apply list_elem_of_here|assumption].
    + apply Hrest. inversion Hex as [? ? (Hi & _)|]; subst;
        [simpl in Hi; contradiction|assumption].
Qed.

(** The call once its prologue has succeeded: the output file is created and
    holds what the loop over the variables wrote. *)
Lemma subset_channel_file_unfold (fs : filesystem)
    (in_nc_filename out_nc_filename : string) (comids : list comid)
    (just_streamflow_var include_id_var : bool) (ids : list Z)
    (in_nc : nc_dataset) (station_id : nc_variable) (index : list nat) :
  coerce_comids comids = Ok ids ->
  open_dataset fs in_nc_filename = Ok in_nc ->
  get_variable in_nc "station_id" = Ok station_id ->
  _get_comid_indices ids (var_data station_id) = Ok index ->
  subset_channel_file fs in_nc_filename out_nc_filename comids
    just_streamflow_var include_id_var =
  let copy :=
    copy_variables (variables in_nc)
      (vars_to_include in_nc just_streamflow_var include_id_var)
      (attrs_to_exclude just_streamflow_var) index [] in
  (<[out_nc_filename :=
       NetCDF {| data_model := data_model in_nc;
                 nc_attrs := nc_attrs in_nc;
                 model_output_valid_time := model_output_valid_time in_nc;
                 dimensions :=
                   copy_dimensions (dimensions in_nc) (length ids);
                 variables := copy.1 |}]> fs, copy.2).
Proof.
  intros Hids Hopen Hsid Hindex. unfold subset_channel_file.
  rewrite Hids. cbv beta iota delta [mbind result_bind mret result_ret].
  rewrite Hopen, Hsid, Hindex.
  destruct (copy_variables _ _ _ _ _) as [written outcome]. reflexivity.
Qed.

(** A call that returns went through its prologue and copied every included
    variable. *)
Lemma subset_channel_file_Ok_inv (fs fs' : filesystem)
    (in_nc_filename out_nc_filename : string) (comids : list comid)
    (just_streamflow_var include_id_var : bool) :
  subset_channel_file fs in_nc_filename out_nc_filename comids
    just_streamflow_var include_id_var = (fs', Ok ()) ->
  exists ids in_nc station_id index new,
    coerce_comids comids = Ok ids /\
    open_dataset fs in_nc_filename = Ok in_nc /\
    get_variable in_nc "station_id" = Ok station_id /\
    _get_comid_indices ids (var_data station_id) = Ok index /\
    Forall2 (copied (attrs_to_exclude just_streamflow_var) index)
      (filter (fun nv => nv.1 ∈ vars_to_include in_nc just_streamflow_var
                                  include_id_var) (variables in_nc)) new /\
    fs' = <[out_nc_filename :=
              NetCDF {| data_model := data_model in_nc;
                        nc_attrs := nc_attrs in_nc;
                        model_output_valid_time :=
                          model_output_valid_time in_nc;
                        dimensions :=
                          copy_dimensions (dimensions in_nc) (length ids);
                        variables := new |}]> fs.
Proof.
  destruct (coerce_comids comids) as [ids|e] eqn:Hids.
  2: { unfold subset_channel_file. rewrite Hids. intros H. inversion H. }
  destruct (open_dataset fs in_nc_filename) as [in_nc|e] eqn:Hopen.
  2: { unfold subset_channel_file. rewrite Hids. csimpl. rewrite Hopen.
       intros H. inversion H. }
  destruct (get_variable in_nc "station_id") as [sid|e] eqn:Hsid.
  2: { unfold subset_channel_file. rewrite Hids. csimpl. rewrite Hopen.
       csimpl. rewrite Hsid. intros H. inversion H. }
  destruct (_get_comid_indices ids (var_data sid)) as [index|e] eqn:Hindex.
  2: { unfold subset_channel_file. rewrite Hids. csimpl. rewrite Hopen.
       csimpl. rewrite Hsid. csimpl. rewrite Hindex.
       intros H. inversion H. }
  rewrite (subset_channel_file_unfold _ _ _ _ _ _ _ _ _ _ Hids Hopen Hsid Hindex).
  cbv zeta.
  destruct (copy_variables _ _ _ _ _) as [written outcome] eqn:Hcopy.
  simpl. intros [= <- ->].
  destruct (copy_variables_copied _ _ _ _ _ _ Hcopy) as (new & -> & Hnew).
  exists ids, in_nc, sid, index, new. simpl. repeat split; assumption.
Qed.

(** Every path other than the output path holds after
    [subset_channel_file] what it held before, whether the call returns or
    raises.  (The input file is such a path only when it is not given as the
    output path too.) *)
Theorem subset_channel_file_frame (fs : filesystem)
    (in_nc_filename out_nc_filename : string) (comids : list comid)
    (just_streamflow_var include_id_var : bool) (path : string) :
  path <> out_nc_filename ->
  (subset_channel_file fs in_nc_filename out_nc_filename comids
     just_streamflow_var include_id_var).1 !! path = fs !! path.
Proof.
  intros Hpath. unfold subset_channel_file.
  match goal with
  | |- context [match ?m with Ok _ => _ | Raise _ => _ end] =>
      destruct m as [[[ids in_nc] index]|e]
  end; [|reflexivity].
  destruct (copy_variables _ _ _ _ _) as [written outcome]. simpl.
  apply lookup_insert_ne. congruence.
Qed.

Lemma subset_channel_file_frame_witness :
  "d/f002.nc" <> "sub.nc" /\
  (subset_channel_file sample_fs "d/f002.nc" "sub.nc" [CInt 10] false true).1
    !! "d/f002.nc" = sample_fs !! "d/f002.nc".
Proof.
  assert ("d/f002.nc" <> "sub.nc") as H by discriminate.
  split; [exact H|].
  apply (subset_channel_file_frame sample_fs "d/f002.nc" "sub.nc" [CInt 10]
           false true "d/f002.nc" H).
Defined.

(** When the input has no station_id variable, or when a requested COMID is
    above every stored one, [subset_channel_file] raises ([KeyError],
    [IndexError]) before the output file is opened: the file system is
    unchanged. *)
Theorem subset_channel_file_lookup_failure (fs : filesystem)
    (in_nc_filename out_nc_filename : string) (comids : list comid)
    (just_streamflow_var include_id_var : bool) (ids : list Z)
    (in_nc : nc_dataset) :
  coerce_comids comids = Ok ids ->
  open_dataset fs in_nc_filename = Ok in_nc ->
  (assoc "station_id" (variables in_nc) = None ->
   subset_channel_file fs in_nc_filename out_nc_filename comids
     just_streamflow_var include_id_var
   = (fs, Raise (KeyError "station_id"))) /\
  (forall station_id id,
     assoc "station_id" (variables in_nc) = Some station_id ->
     id ∈ ids -> (forall x, x ∈ var_data station_id -> x < id) ->
     subset_channel_file fs in_nc_filename out_nc_filename comids
       just_streamflow_var include_id_var
     = (fs, Raise IndexError)).
Proof.
  intros Hids Hopen. split.
  - intros Hnone. unfold subset_channel_file, get_variable.
    rewrite Hids. csimpl. rewrite Hopen. csimpl. rewrite Hnone. reflexivity.
  - intros sid id Hsid Hid Habove. unfold subset_channel_file, get_variable.
    rewrite Hids. csimpl. rewrite Hopen. csimpl. rewrite Hsid. csimpl.
    rewrite (get_comid_indices_above ids (var_data sid) id Hid Habove).
    reflexivity.
Qed.

Lemma subset_channel_file_lookup_failure_witness :
  let fs := <["e/bare.nc" := NetCDF (sample_dataset_no_id sample_epoch)]>
              sample_fs in
  subset_channel_file fs "e/bare.nc" "sub.nc" [CInt 10] true true
  = (fs, Raise (KeyError "station_id")) /\
  subset_channel_file fs "d/f002.nc" "sub.nc" [CInt 10; CInt 50] true true
  = (fs, Raise IndexError).
Proof.
  intros fs. split.
  - apply (proj1 (subset_channel_file_lookup_failure fs "e/bare.nc" "sub.nc"
                    [CInt 10] true true [10]
                    (sample_dataset_no_id sample_epoch)
                    eq_refl eq_refl)).
    reflexivity.
  - apply (proj2 (subset_channel_file_lookup_failure fs "d/f002.nc" "sub.nc"
                    [CInt 10; CInt 50] true true [10; 50]
                    (sample_dataset (sample_epoch + timedelta_hours 1) 2)
                    eq_refl eq_refl)
             (sample_variable ["station"] [20; 30; 10; 40]) 50).
    + reflexivity.
    + list_mem.
    + intros x Hx. simpl in Hx. list_mem.
Defined.

(** When an included variable other than time has no cell at one of the
    resolved positions, [subset_channel_file] raises [IndexError] after the
    output file has been created: the file stays, and its last variable is
    the one being copied, created but without any cell. *)
Theorem subset_channel_file_partial (fs : filesystem)
    (in_nc_filename out_nc_filename : string) (comids : list comid)
    (just_streamflow_var include_id_var : bool) (ids : list Z)
    (in_nc : nc_dataset) (station_id : nc_variable) (index : list nat)
    (name : string) (var : nc_variable) :
  coerce_comids comids = Ok ids ->
  open_dataset fs in_nc_filename = Ok in_nc ->
  get_variable in_nc "station_id" = Ok station_id ->
  _get_comid_indices ids (var_data station_id) = Ok index ->
  (name, var) ∈ variables in_nc ->
  name ∈ vars_to_include in_nc just_streamflow_var include_id_var ->
  name <> "time" ->
  ~ Forall (fun i => (i < length (var_data var))%nat) index ->
  exists out_nc last_name last_var,
    subset_channel_file fs in_nc_filename out_nc_filename comids
      just_streamflow_var include_id_var
    = (<[out_nc_filename := NetCDF out_nc]> fs, Raise IndexError) /\
    last (variables out_nc) = Some (last_name, last_var) /\
    var_data last_var = [] /\
    last_name ∈ (variables in_nc).*1.
Proof.
  intros Hids Hopen Hsid Hindex Hvar Hinc Htime Hshort.
  rewrite (subset_channel_file_unfold _ _ _ _ _ _ _ _ _ _ Hids Hopen Hsid Hindex).
  cbv zeta.
  destruct (copy_variables_short
              (vars_to_include in_nc just_streamflow_var include_id_var)
              (attrs_to_exclude just_streamflow_var) index
              (variables in_nc) [])
    as (written & n & v & Hcopy & Hin & _).
  { apply Exists_exists. exists (name, var). auto. }
  rewrite Hcopy. simpl.
  eexists _, n, (create_variable v _). split; [reflexivity|]. simpl.
  split; [apply last_snoc|]. split; [reflexivity|].
  apply list_elem_of_fmap. exists (n, v). auto.
Qed.

Lemma subset_channel_file_partial_witness :
  let fs := <["e/short.nc" := NetCDF sample_dataset_short]> sample_fs in
  exists out_nc last_name last_var,
    subset_channel_file fs "e/short.nc" "sub.nc" [CInt 7] true true
    = (<["sub.nc" := NetCDF out_nc]> fs, Raise IndexError) /\
    last (variables out_nc) = Some (last_name, last_var) /\
    var_data last_var = [] /\
    last_name ∈ (variables sample_dataset_short).*1.
Proof.
  intros fs.
  apply (subset_channel_file_partial fs "e/short.nc" "sub.nc" [CInt 7]
           true true [7] sample_dataset_short
           (sample_variable ["station"] [5; 6; 7]) [2%nat]
           "streamflow" (sample_variable ["station"] [50; 60])).
  - reflexivity.
  - reflexivity.
  - reflexivity.
  - reflexivity.
  - simpl. rewrite !elem_of_cons. right. left. reflexivity.
  - apply vars_to_include_just_streamflow. left. reflexivity.
  - discriminate.
  - intros Hall. apply Forall_cons in Hall as [Hlt _]. simpl in Hlt. lia.
Defined.

(** Looking a name up among the copies is looking it up among the variables
    of the input, when the name is included. *)
Lemma assoc_copied (included excluded : list string) (index : list nat)
    (name : string) (vars new : list (string * nc_variable)) :
  Forall2 (copied excluded index)
    (filter (fun nv => nv.1 ∈ included) vars) new ->
  name ∈ included ->
  (forall v, assoc name vars = Some v ->
     exists v', assoc name new = Some v' /\
                copied excluded index (name, v) (name, v')) /\
  (forall v', assoc name new = Some v' ->
     exists v, assoc name vars = Some v /\
               copied excluded index (name, v) (name, v')).
Proof.
  intros Hall Hname. revert new Hall.
  induction vars as [|[n v0] vars IH]; intros new Hall.
  - rewrite filter_nil in Hall. inversion Hall; subst.
    split; intros ? H; discriminate H.
  - destruct (decide (n ∈ included)) as [Hn|Hn].
    + rewrite filter_cons_True in Hall by exact Hn.
      inversion Hall as [|? [n' v0'] ? new' Hc Hrest]; subst.
      pose proof Hc as (Hnn & _). simpl in Hnn. subst n'.
      destruct (IH new' Hrest) as [IH1 IH2]. simpl.
      case_decide as Heq.
      * subst n. split.
        -- intros v [= <-]. eauto.
        -- intros v' [= <-]. eauto.
      * split; assumption.
    + rewrite filter_cons_False in Hall by exact Hn.
      destruct (IH new Hall) as [IH1 IH2]. simpl.
      case_decide as Heq; [subst; contradiction|]. split; assumption.
Qed.

(** Selecting the stored identifiers at the positions the resolver found,
    for identifiers that are all stored, gives back the request. *)
Lemma take_resolved_ids (ids stored : list Z) (index : list nat)
    (data : list Z) :
  (forall x, x ∈ ids -> x ∈ stored) ->
  _get_comid_indices ids stored = Ok index ->
  np.take stored index = Ok data ->
  data = ids.
Proof.
  intros Hin Hindex Htake.
  destruct (get_comid_indices_found ids stored Hin)
    as (idx & Hidx & Hlen & Hres).
  assert (idx = index) as -> by congruence.
  pose proof (take_length _ _ _ Htake) as Hdlen.
  apply list_eq. intros k.
  destruct (ids !! k) as [id|] eqn:Hk.
  - destruct (Hres k id Hk) as (pos & Hpos & Hstored).
    rewrite (take_lookup _ _ _ _ _ Htake Hpos). exact Hstored.
  - apply lookup_ge_None in Hk. apply lookup_ge_None. lia.
Qed.

Lemma vars_to_include_station_id (in_nc : nc_dataset)
    (just_streamflow_var : bool) :
  "station_id" ∈ vars_to_include in_nc just_streamflow_var true.
Proof.
  unfold vars_to_include. cbn [negb andb].
  case_bool_decide as Hin; simpl.
  - exact Hin.
  - apply elem_of_app. right. apply list_elem_of_here.
Qed.

Lemma vars_to_include_streamflow (in_nc : nc_dataset)
    (just_streamflow_var include_id_var : bool) :
  "streamflow" ∈ (variables in_nc).*1 ->
  "streamflow" ∈ vars_to_include in_nc just_streamflow_var include_id_var.
Proof.
  intros Hin. unfold vars_to_include.
  assert ("streamflow" ∈ (if just_streamflow_var
                          then ["streamflow"; "time"]
                          else (variables in_nc).*1)) as Hvars.
  { destruct just_streamflow_var; [apply list_elem_of_here|exact Hin]. }
  revert Hvars. generalize (if just_streamflow_var
                            then ["streamflow"; "time"]
                            else (variables in_nc).*1). intros vars Hvars.
  destruct (include_id_var && negb (bool_decide ("station_id" ∈ vars))).
  { apply elem_of_app. left. exact Hvars. }
  destruct (negb include_id_var && bool_decide ("station_id" ∈ vars));
    [|exact Hvars].
  clear -Hvars. induction vars as [|y vars IH]; simpl; [exact Hvars|].
  apply elem_of_cons in Hvars as [<-|Hvars].
  - case_decide; [discriminate|apply list_elem_of_here].
  - case_decide; [exact Hvars|apply list_elem_of_further, IH, Hvars].
Qed.

(** A call of [subset_channel_file] that returns, for COMIDs that the input
    all stores, wrote the included variables of the input in their order:
    the time variable with all its cells, every other variable with one
    cell per requested COMID, the cell of the input at a position where
    station_id holds that COMID, the same position for every variable. *)
Theorem subset_channel_file_selects (fs fs' : filesystem)
    (in_nc_filename out_nc_filename : string) (comids : list comid)
    (just_streamflow_var include_id_var : bool) (ids : list Z)
    (in_nc : nc_dataset) (station_id : nc_variable) :
  coerce_comids comids = Ok ids ->
  open_dataset fs in_nc_filename = Ok in_nc ->
  get_variable in_nc "station_id" = Ok station_id ->
  (forall x, x ∈ ids -> x ∈ var_data station_id) ->
  subset_channel_file fs in_nc_filename out_nc_filename comids
    just_streamflow_var include_id_var = (fs', Ok ()) ->
  exists out_nc positions,
    fs' !! out_nc_filename = Some (NetCDF out_nc) /\
    length positions = length ids /\
    (forall k id, ids !! k = Some id ->
       exists pos, positions !! k = Some pos /\
                   var_data station_id !! pos = Some id) /\
    Forall2 (fun nv nv' =>
      nv'.1 = nv.1 /\
      if decide (nv.1 = "time") then var_data nv'.2 = var_data nv.2
      else length (var_data nv'.2) = length ids /\
           forall k pos, positions !! k = Some pos ->
             var_data nv'.2 !! k = var_data nv.2 !! pos)
      (filter (fun nv => nv.1 ∈ vars_to_include in_nc just_streamflow_var
                                  include_id_var) (variables in_nc))
      (variables out_nc).
Proof.
  intros Hids Hopen Hsid Hin Hcall.
  destruct (subset_channel_file_Ok_inv _ _ _ _ _ _ _ Hcall)
    as (ids' & in_nc' & sid' & index & new & Hids' & Hopen' & Hsid' & Hindex
        & Hnew & ->).
  assert (ids' = ids) as -> by congruence.
  assert (in_nc' = in_nc) as -> by congruence.
  assert (sid' = station_id) as -> by congruence.
  destruct (get_comid_indices_found ids (var_data station_id) Hin)
    as (idx & Hidx & Hlen & Hres).
  assert (idx = index) as -> by congruence.
  eexists _, index. split; [apply lookup_insert_eq|].
  split; [exact Hlen|]. split; [exact Hres|]. simpl.
  eapply Forall2_impl; [exact Hnew|].
  intros [n v] [n' v'] (Hn & _ & _ & _ & Hdata). simpl in *.
  split; [exact Hn|]. case_decide as Htime; [exact Hdata|].
  split.
  - rewrite (take_length _ _ _ Hdata). exact Hlen.
  - intros k pos Hpos. apply (take_lookup _ _ _ _ _ Hdata Hpos).
Qed.

Lemma subset_channel_file_selects_witness :
  let r := subset_channel_file sample_fs "d/f002.nc" "sub.nc"
             [CStr "40"; CInt 10] false true in
  let in_nc := sample_dataset (sample_epoch + timedelta_hours 1) 2 in
  r = (r.1, Ok ()) /\
  exists out_nc positions,
    r.1 !! "sub.nc" = Some (NetCDF out_nc) /\
    length positions = length [40; 10] /\
    (forall k id, [40; 10] !! k = Some id ->
       exists pos, positions !! k = Some pos /\
                   [20; 30; 10; 40] !! pos = Some id) /\
    Forall2 (fun nv nv' =>
      nv'.1 = nv.1 /\
      if decide (nv.1 = "time") then var_data nv'.2 = var_data nv.2
      else length (var_data nv'.2) = length [40; 10] /\
           forall k pos, positions !! k = Some pos ->
             var_data nv'.2 !! k = var_data nv.2 !! pos)
      (filter (fun nv => nv.1 ∈ vars_to_include in_nc false true)
         (variables in_nc))
      (variables out_nc).
Proof.
  intros r in_nc.
  assert (r = (r.1, Ok ())) as Hr by (vm_compute; reflexivity).
  split; [exact Hr|].
  apply (subset_channel_file_selects sample_fs r.1 "d/f002.nc" "sub.nc"
           [CStr "40"; CInt 10] false true [40; 10] in_nc
           (sample_variable ["station"] [20; 30; 10; 40])).
  - reflexivity.
  - reflexivity.
  - reflexivity.
  - intros x Hx. simpl. list_mem.
  - exact Hr.
Defined.

(** With [include_id_var], the station_id variable of the output of a call
    that returns, for COMIDs that the input all stores, lists exactly the
    requested COMIDs, in the order of the request. *)
Theorem subset_channel_file_station_id (fs fs' : filesystem)
    (in_nc_filename out_nc_filename : string) (comids : list comid)
    (just_streamflow_var : bool) (ids : list Z)
    (in_nc : nc_dataset) (station_id : nc_variable) :
  coerce_comids comids = Ok ids ->
  open_dataset fs in_nc_filename = Ok in_nc ->
  get_variable in_nc "station_id" = Ok station_id ->
  (forall x, x ∈ ids -> x ∈ var_data station_id) ->
  subset_channel_file fs in_nc_filename out_nc_filename comids
    just_streamflow_var true = (fs', Ok ()) ->
  exists out_nc out_station_id,
    open_dataset fs' out_nc_filename = Ok out_nc /\
    get_variable out_nc "station_id" = Ok out_station_id /\
    var_data out_station_id = ids.
Proof.
  intros Hids Hopen Hsid Hin Hcall.
  destruct (subset_channel_file_Ok_inv _ _ _ _ _ _ _ Hcall)
    as (ids' & in_nc' & sid' & index & new & Hids' & Hopen' & Hsid' & Hindex
        & Hnew & ->).
  assert (ids' = ids) as -> by congruence.
  assert (in_nc' = in_nc) as -> by congruence.
  assert (sid' = station_id) as -> by congruence.
  destruct (assoc_copied _ _ _ "station_id" _ _ Hnew
              (vars_to_include_station_id in_nc just_streamflow_var))
    as [Hfwd _].
  unfold get_variable in Hsid.
  destruct (assoc "station_id" (variables in_nc)) as [v|] eqn:Ha;
    [|discriminate].
  injection Hsid as ->.
  destruct (Hfwd station_id eq_refl) as (v' & Hv' & _ & _ & _ & _ & Hdata).
  simpl in Hdata.
  eexists _, v'. split.
  { unfold open_dataset. rewrite lookup_insert_eq. reflexivity. }
  split.
  { unfold get_variable. simpl. rewrite Hv'. reflexivity. }
  eapply take_resolved_ids; eassumption.
Qed.

Lemma subset_channel_file_station_id_witness :
  let r := subset_channel_file sample_fs "d/f002.nc" "sub.nc"
             [CStr "40"; CInt 10] true true in
  r = (r.1, Ok ()) /\
  exists out_nc out_station_id,
    open_dataset r.1 "sub.nc" = Ok out_nc /\
    get_variable out_nc "station_id" = Ok out_station_id /\
    var_data out_station_id = [40; 10].
Proof.
  intros r.
  assert (r = (r.1, Ok ())) as Hr by (vm_compute; reflexivity).
  split; [exact Hr|].
  apply (subset_channel_file_station_id sample_fs r.1 "d/f002.nc" "sub.nc"
           [CStr "40"; CInt 10] true [40; 10]
           (sample_dataset (sample_epoch + timedelta_hours 1) 2)
           (sample_variable ["station"] [20; 30; 10; 40])).
  - reflexivity.
  - reflexivity.
  - reflexivity.
  - intros x Hx. simpl. list_mem.
  - exact Hr.
Defined.

(** Reading the flows of the requested COMIDs from the subset file gives what
    reading them from the input file gives, when the input stores every
    requested COMID once and the subset was written with its station_id
    variable. *)
Theorem subset_channel_file_then_read (fs fs' : filesystem)
    (in_nc_filename out_nc_filename : string) (comids : list comid)
    (just_streamflow_var : bool) (ids : list Z)
    (in_nc : nc_dataset) (t : datetime) (station_id q : nc_variable) :
  coerce_comids comids = Ok ids ->
  open_dataset fs in_nc_filename = Ok in_nc ->
  model_output_valid_time in_nc = Some t ->
  get_variable in_nc "station_id" = Ok station_id ->
  get_variable in_nc "streamflow" = Ok q ->
  NoDup (var_data station_id) ->
  (forall x, x ∈ ids -> x ∈ var_data station_id) ->
  subset_channel_file fs in_nc_filename out_nc_filename comids
    just_streamflow_var true = (fs', Ok ()) ->
  read_q_for_comids fs' out_nc_filename comids
  = read_q_for_comids fs in_nc_filename comids.
Proof.
  intros Hids Hopen Ht Hsid Hq Hnodup Hin Hcall.
  destruct (subset_channel_file_Ok_inv _ _ _ _ _ _ _ Hcall)
    as (ids' & in_nc' & sid' & index & new & Hids' & Hopen' & Hsid' & Hindex
        & Hnew & ->).
  assert (ids' = ids) as -> by congruence.
  assert (in_nc' = in_nc) as -> by congruence.
  assert (sid' = station_id) as -> by congruence.
  (* the two variables of the output *)
  destruct (assoc_copied _ _ _ "station_id" _ _ Hnew
              (vars_to_include_station_id in_nc just_streamflow_var))
    as [Hfwd_id _].
  assert ("streamflow" ∈ (variables in_nc).*1) as Hqname.
  { unfold get_variable in Hq.
    destruct (assoc "streamflow" (variables in_nc)) eqn:Ha; [|discriminate].
    eapply assoc_Some_elem_of, Ha. }
  destruct (assoc_copied _ _ _ "streamflow" _ _ Hnew
              (vars_to_include_streamflow in_nc just_streamflow_var true Hqname))
    as [Hfwd_q _].
  unfold get_variable in Hsid, Hq.
  destruct (assoc "station_id" (variables in_nc)) as [v|] eqn:Ha_id;
    [|discriminate].
  injection Hsid as ->.
  destruct (assoc "streamflow" (variables in_nc)) as [v|] eqn:Ha_q;
    [|discriminate].
  injection Hq as ->.
  destruct (Hfwd_id station_id eq_refl)
    as (sid_out & Hsid_out & _ & _ & _ & _ & Hsid_data).
  destruct (Hfwd_q q eq_refl) as (q_out & Hq_out & _ & _ & _ & _ & Hq_data).
  simpl in Hsid_data, Hq_data.
  pose proof (take_resolved_ids _ _ _ _ Hin Hindex Hsid_data) as Hout_ids.
  (* the read of the input *)
  rewrite (read_q_for_comids_unfold fs in_nc_filename comids ids in_nc t
             station_id q Hids Hopen Ht).
  2: { unfold get_variable. rewrite Ha_id. reflexivity. }
  2: { unfold get_variable. rewrite Ha_q. reflexivity. }
  rewrite Hindex. csimpl. rewrite Hq_data. csimpl.
  (* the read of the output *)
  erewrite (read_q_for_comids_unfold _ out_nc_filename comids ids _ t
              sid_out q_out Hids).
  2: { unfold open_dataset. rewrite lookup_insert_eq. reflexivity. }
  2: { exact Ht. }
  2: { unfold get_variable. simpl. rewrite Hsid_out. reflexivity. }
  2: { unfold get_variable. simpl. rewrite Hq_out. reflexivity. }
  rewrite Hout_ids.
  destruct (get_comid_indices_found ids ids) as (idx2 & -> & Hlen2 & Hres2);
    [auto|]. csimpl.
  destruct (get_comid_indices_found ids (var_data station_id) Hin)
    as (idx & Hidx & Hlen & Hres).
  assert (idx = index) as -> by congruence.
  pose proof (take_length _ _ _ Hq_data) as Hq_len.
  destruct (take_bounded (var_data q_out) idx2) as (flows & Hflows & Hflen).
  { apply Forall_lookup. intros k pos Hpos.
    assert (k < length ids)%nat as Hk.
    { rewrite <- Hlen2. eapply lookup_lt_Some, Hpos. }
    destruct (lookup_lt_is_Some_2 _ _ Hk) as [id Hid].
    destruct (Hres2 k id Hid) as (pos' & Hpos' & Hstored).
    assert (pos' = pos) as -> by congruence.
    apply lookup_lt_Some in Hstored. lia. }
  rewrite Hflows. csimpl. do 2 f_equal.
  apply list_eq. intros k.
  destruct (ids !! k) as [id|] eqn:Hk.
  - destruct (Hres2 k id Hk) as (pos2 & Hpos2 & Hid2).
    rewrite (take_lookup _ _ _ _ _ Hflows Hpos2).
    destruct (Hres k id Hk) as (pos & Hpos & Hstored).
    destruct (Hres pos2 id Hid2) as (pos' & Hpos' & Hstored').
    assert (pos' = pos) as -> by (eapply NoDup_lookup; eassumption).
    rewrite (take_lookup _ _ _ _ _ Hq_data Hpos').
    rewrite (take_lookup _ _ _ _ _ Hq_data Hpos). reflexivity.
  - apply lookup_ge_None in Hk.
    rewrite (proj2 (lookup_ge_None flows k)) by lia.
    symmetry. apply lookup_ge_None. lia.
Qed.

Lemma subset_channel_file_then_read_witness :
  let r := subset_channel_file sample_fs "d/f002.nc" "sub.nc"
             [CStr "40"; CInt 10] true true in
  r = (r.1, Ok ()) /\
  read_q_for_comids r.1 "sub.nc" [CStr "40"; CInt 10]
  = read_q_for_comids sample_fs "d/f002.nc" [CStr "40"; CInt 10].
Proof.
  intros r.
  assert (r = (r.1, Ok ())) as Hr by (vm_compute; reflexivity).
  split; [exact Hr|].
  apply (subset_channel_file_then_read sample_fs r.1 "d/f002.nc" "sub.nc"
           [CStr "40"; CInt 10] true [40; 10]
           (sample_dataset (sample_epoch + timedelta_hours 1) 2)
           (sample_epoch + timedelta_hours 1)
           (sample_variable ["station"] [20; 30; 10; 40])
           (sample_variable ["station"]
              [200 + 2; 300 - 2; 100 + 2 * 2; 400])).
  - reflexivity.
  - reflexivity.
  - reflexivity.
  - reflexivity.
  - reflexivity.
  - simpl. repeat (apply NoDup_cons; split; [list_mem|]). apply NoDup_nil_2.
  - intros x Hx. simpl. list_mem.
  - exact Hr.
Defined.

(** A filter keeps a list whose elements all pass. *)
Lemma filter_all {A} (P : A -> Prop) `{forall x, Decision (P x)} (l : list A) :
  Forall P l -> filter P l = l.
Proof.
  induction 1 as [|x l Hx _ IH]; [reflexivity|].
  rewrite filter_cons_True by exact Hx. rewrite IH. reflexivity.
Qed.

(** Without [just_streamflow_var] and with [include_id_var], a call that
    returns copied every variable of the input, in order, each with all its
    attributes, its type and its dimensions; the global attributes, the data
    model and the valid time of the input are those of the output. *)
Theorem subset_channel_file_all_variables (fs fs' : filesystem)
    (in_nc_filename out_nc_filename : string) (comids : list comid) :
  subset_channel_file fs in_nc_filename out_nc_filename comids false true
  = (fs', Ok ()) ->
  exists in_nc out_nc,
    open_dataset fs in_nc_filename = Ok in_nc /\
    open_dataset fs' out_nc_filename = Ok out_nc /\
    data_model out_nc = data_model in_nc /\
    nc_attrs out_nc = nc_attrs in_nc /\
    model_output_valid_time out_nc = model_output_valid_time in_nc /\
    Forall2 (fun nv nv' =>
      nv'.1 = nv.1 /\
      var_datatype nv'.2 = var_datatype nv.2 /\
      var_dimensions nv'.2 = var_dimensions nv.2 /\
      var_attrs nv'.2 = var_attrs nv.2)
      (variables in_nc) (variables out_nc).
Proof.
  intros Hcall.
  destruct (subset_channel_file_Ok_inv _ _ _ _ _ _ _ Hcall)
    as (ids & in_nc & sid & index & new & Hids & Hopen & Hsid & Hindex
        & Hnew & ->).
  exists in_nc. eexists. split; [exact Hopen|]. split.
  { unfold open_dataset. rewrite lookup_insert_eq. reflexivity. }
  simpl. repeat (split; [reflexivity|]).
  assert ("station_id" ∈ (variables in_nc).*1) as Hname.
  { unfold get_variable in Hsid.
    destruct (assoc "station_id" (variables in_nc)) eqn:Ha; [|discriminate].
    eapply assoc_Some_elem_of, Ha. }
  assert (vars_to_include in_nc false true = (variables in_nc).*1) as Hinc.
  { unfold vars_to_include. cbn [negb andb].
    rewrite bool_decide_eq_true_2 by exact Hname. reflexivity. }
  rewrite Hinc in Hnew.
  assert (filter (fun nv : string * nc_variable =>
                    nv.1 ∈ (variables in_nc).*1) (variables in_nc)
          = variables in_nc) as Hall.
  { apply filter_all, Forall_forall. intros [n v] Hin. simpl.
    apply list_elem_of_fmap. exists (n, v). auto. }
  rewrite Hall in Hnew.
  eapply Forall2_impl; [exact Hnew|].
  intros [n v] [n' v'] (Hn & Hty & Hdims & Hattrs & _). simpl in *.
  repeat (split; [assumption|]). rewrite Hattrs.
  apply filter_all, Forall_forall. intros kv _. apply not_elem_of_nil.
Qed.

Lemma subset_channel_file_all_variables_witness :
  let r := subset_channel_file sample_fs "d/f002.nc" "sub.nc"
             [CStr "40"; CInt 10] false true in
  r = (r.1, Ok ()) /\
  exists in_nc out_nc,
    open_dataset sample_fs "d/f002.nc" = Ok in_nc /\
    open_dataset r.1 "sub.nc" = Ok out_nc /\
    data_model out_nc = data_model in_nc /\
    nc_attrs out_nc = nc_attrs in_nc /\
    model_output_valid_time out_nc = model_output_valid_time in_nc /\
    Forall2 (fun nv nv' =>
      nv'.1 = nv.1 /\
      var_datatype nv'.2 = var_datatype nv.2 /\
      var_dimensions nv'.2 = var_dimensions nv.2 /\
      var_attrs nv'.2 = var_attrs nv.2)
      (variables in_nc) (variables out_nc).
Proof.
  intros r.
  assert (r = (r.1, Ok ())) as Hr by (vm_compute; reflexivity).
  split; [exact Hr|].
  apply (subset_channel_file_all_variables sample_fs r.1 "d/f002.nc" "sub.nc"
           [CStr "40"; CInt 10] Hr).
Defined.

(** ** Streamflow cube builder, continued *)

(** The state a successful pass through the reading block leaves. *)
Lemma read_step_inv (fs : filesystem) (nc_file : string) (i : nat)
    (comids : option (list Z)) (consistent_comid_order : bool)
    (num_rivers : nat) (st st' : cube_state) :
  read_step fs nc_file i comids consistent_comid_order num_rivers st = Ok st' ->
  exists nc idx raw row,
    open_dataset fs nc_file = Ok nc /\
    read_row nc nc_file comids consistent_comid_order (st_indices st)
    = Ok (idx, raw) /\
    broadcast_row num_rivers raw = Ok row /\
    st_indices st' = idx /\
    st_out_q st' = <[i := row]> (st_out_q st).
Proof.
  unfold read_step.
  destruct (open_dataset fs nc_file) as [nc|e]; csimpl; [|discriminate].
  destruct (get_valid_time nc) as [date|e]; csimpl; [|discriminate].
  destruct (read_row _ _ _ _ _) as [[indices raw]|e] eqn:Hrow; csimpl;
    [|discriminate].
  destruct (broadcast_row num_rivers raw) as [row|e] eqn:Hfit; csimpl;
    [|discriminate].
  intros [= <-]. exists nc, indices, raw, row. repeat split; assumption.
Qed.

(** The invariant of the loop for the rows: the cells of [out_q] from rank
    [i] on receive the rows of the files, in order. *)
Lemma cube_loop_rows (tmpdir : string) (fs0 : filesystem)
    (comids : option (list Z)) (consistent_comid_order : bool)
    (num_rivers : nat) (nc_files : list string) :
  forall (fs : filesystem) (i : nat) (st : cube_state)
         (fs' : filesystem) (st' : cube_state),
  fs ⊆ fs0 ->
  cube_loop tmpdir fs nc_files i comids consistent_comid_order num_rivers st
  = (fs', Ok st') ->
  exists rows,
    rows_of fs0 comids consistent_comid_order num_rivers (st_indices st)
      nc_files rows /\
    length (st_out_q st') = length (st_out_q st) /\
    (forall k, (k < i)%nat -> st_out_q st' !! k = st_out_q st !! k) /\
    (forall k row, rows !! k = Some row ->
       (i + k < length (st_out_q st))%nat ->
       st_out_q st' !! (i + k)%nat = Some row).
Proof.
  induction nc_files as [|f rest IH]; intros fs i st fs' st' Hsub.
  - simpl. intros [= <- <-]. exists []. split; [constructor|].
    split; [reflexivity|]. split; [reflexivity|].
    intros k row Hk. rewrite lookup_nil in Hk. discriminate.
  - cbn [cube_loop].
    destruct (decompress tmpdir fs f (st_tmpfile st))
      as [fs1 [[nc_file' tmpfile']|e]] eqn:Hdec; [|intros H; inversion H].
    destruct (read_step fs1 nc_file' i comids consistent_comid_order
                num_rivers _) as [st2|e] eqn:Hread; [|intros H; inversion H].
    intros Hloop.
    destruct (read_step_inv _ _ _ _ _ _ _ _ Hread)
      as (nc & idx & raw & row & Hopen & Hrow & Hfit & Hidx & Hout).
    simpl in Hrow, Hout.
    pose proof (decompress_stored _ _ _ _ _ _ _ _ nc Hsub Hdec Hopen) as Hstored.
    pose proof (decompress_remove_subseteq _ _ _ _ _ _ _ _ Hsub Hdec) as Hsub2.
    destruct (IH _ _ _ _ _ Hsub2 Hloop)
      as (rows & Hrows & Hlen & Hbelow & Hfrom).
    rewrite Hidx in Hrows. rewrite Hout, length_insert in Hlen.
    exists (row :: rows). split; [|split; [|split]].
    + econstructor; eassumption.
    + exact Hlen.
    + intros k Hk. rewrite (Hbelow k) by lia. rewrite Hout.
      apply list_lookup_insert_ne. lia.
    + intros [|k] r Hk Hbound; simpl in Hk.
      * injection Hk as <-. rewrite Nat.add_0_r.
        rewrite (Hbelow i) by lia. rewrite Hout.
        apply list_lookup_insert_eq. lia.
      * replace (i + S k)%nat with (S i + k)%nat by lia.
        apply Hfrom; [assumption|]. rewrite Hout, length_insert. lia.
Qed.

Lemma rows_of_length (fs : filesystem) (comids : option (list Z))
    (consistent_comid_order : bool) (num_rivers : nat)
    (prev : option (list nat)) (nc_files : list string)
    (rows : list (list Z)) :
  rows_of fs comids consistent_comid_order num_rivers prev nc_files rows ->
  length rows = length nc_files.
Proof. induction 1; simpl; congruence. Qed.

(** What [build_streamflow_cube] returns for a non-empty list: the rows of
    the files, their elapsed times, and the maxima when they are asked for. *)
Lemma build_streamflow_cube_inv (tmpdir : string) (fs fs' : filesystem)
    (nc_files : list string) (comids : option (list comid))
    (consistent_comid_order compute_max : bool) (c : cube) :
  build_streamflow_cube tmpdir fs nc_files comids consistent_comid_order
    compute_max = (fs', Ok (Some c)) ->
  exists ids num_rivers,
    nc_files <> [] /\
    cube_comids fs nc_files comids = Ok (ids, num_rivers) /\
    rows_of fs ids consistent_comid_order num_rivers None nc_files (cube_q c) /\
    length (cube_t c) = length nc_files /\
    cube_max c = (if compute_max then Some (amax_columns (cube_q c))
                  else None) /\
    fs' ⊆ fs.
Proof.
  unfold build_streamflow_cube.
  destruct nc_files as [|f rest]; [intros H; inversion H|].
  destruct (cube_comids fs (f :: rest) comids) as [[ids num_rivers]|e];
    [|intros H; inversion H].
  destruct (cube_loop _ _ _ _ _ _ _ _) as [fs1 [st'|e]] eqn:Hloop;
    [|intros H; inversion H].
  intros [= <- <-]. simpl.
  destruct (cube_loop_rows _ fs _ _ _ _ _ _ _ _ _ (reflexivity fs) Hloop)
    as (rows & Hrows & Hlen & _ & Hfrom).
  destruct (cube_loop_times _ fs _ _ _ _ _ _ _ _ _ (reflexivity fs) Hloop)
    as (times & _ & Htlen & _ & _ & _ & Hsub).
  cbn [st_out_q st_out_t st_indices] in Hrows, Hlen, Hfrom, Htlen.
  rewrite length_replicate in Hlen. rewrite length_replicate in Htlen.
  pose proof (rows_of_length _ _ _ _ _ _ _ Hrows) as Hrlen.
  assert (st_out_q st' = rows) as ->.
  { apply list_eq. intros k.
    destruct (rows !! k) as [row|] eqn:Hk.
    - apply lookup_lt_Some in Hk as Hklt.
      apply (Hfrom k row Hk). rewrite length_replicate. lia.
    - apply lookup_ge_None in Hk. apply lookup_ge_None. lia. }
  exists ids, num_rivers. split; [discriminate|].
  split; [reflexivity|]. split; [exact Hrows|].
  split; [exact Htlen|]. split; [reflexivity|exact Hsub].
Qed.

Lemma broadcast_row_length (num_rivers : nat) (raw row : list Z) :
  broadcast_row num_rivers raw = Ok row -> length row = num_rivers.
Proof.
  unfold broadcast_row. case_decide as Hlen.
  - intros [= <-]. exact Hlen.
  - destruct raw as [|x [|y raw]]; try discriminate.
    intros [= <-]. apply length_replicate.
Qed.

Lemma rows_of_width (fs : filesystem) (comids : option (list Z))
    (consistent_comid_order : bool) (num_rivers : nat)
    (prev : option (list nat)) (nc_files : list string)
    (rows : list (list Z)) :
  rows_of fs comids consistent_comid_order num_rivers prev nc_files rows ->
  Forall (fun row => length row = num_rivers) rows.
Proof.
  induction 1; constructor; [|assumption].
  eapply broadcast_row_length; eassumption.
Qed.

(** A non-empty list of COMIDs that reads as [ids] fixes the identifiers and
    the width of the cube. *)
Lemma cube_comids_given (fs : filesystem) (nc_files : list string)
    (comids : list comid) (ids : list Z) :
  comids <> [] -> coerce_comids comids = Ok ids ->
  cube_comids fs nc_files (Some comids) = Ok (Some ids, length ids).
Proof.
  intros Hne Hids. unfold cube_comids.
  destruct comids as [|c cs]; [congruence|]. rewrite Hids. reflexivity.
Qed.

(** The cell-wise maximum of rows of one width: it has that width, bounds
    every row and is reached by a row, column by column. *)
Lemma foldl_max_columns (width : nat) (rows : list (list Z)) :
  forall acc : list Z,
  length acc = width ->
  Forall (fun row => length row = width) rows ->
  length (foldl (zip_with Z.max) acc rows) = width /\
  forall k x, foldl (zip_with Z.max) acc rows !! k = Some x ->
    (forall row v, row ∈ acc :: rows -> row !! k = Some v -> v ≤ x) /\
    (exists row, row ∈ acc :: rows /\ row !! k = Some x).
Proof.
  induction rows as [|r rows IH]; intros acc Hacc Hrows.
  - simpl. split; [exact Hacc|]. intros k x Hx. split.
    + intros row v Hrow Hv. apply list_elem_of_singleton in Hrow as ->.
      assert (v = x) by congruence. lia.
    + exists acc. split; [apply list_elem_of_here|exact Hx].
  - apply Forall_cons in Hrows as [Hr Hrows]. simpl.
    destruct (IH (zip_with Z.max acc r)) as [Hlen Hcols]; [|exact Hrows|].
    { rewrite length_zip_with. lia. }
    split; [exact Hlen|]. intros k x Hx.
    destruct (Hcols k x Hx) as [Hbound (row & Hrow & Hrowk)].
    assert (forall a b, acc !! k = Some a -> r !! k = Some b ->
              zip_with Z.max acc r !! k = Some (Z.max a b)) as Hzip.
    { intros a b Ha Hb. rewrite lookup_zip_with, Ha. simpl.
      rewrite Hb. reflexivity. }
    assert (k < width)%nat as Hk.
    { rewrite <- Hlen. eapply lookup_lt_Some, Hx. }
    destruct (lookup_lt_is_Some_2 acc k) as [a Ha]; [lia|].
    destruct (lookup_lt_is_Some_2 r k) as [b Hb]; [lia|].
    pose proof (Hbound _ _ (list_elem_of_here _ _) (Hzip a b Ha Hb)) as Hmax.
    split.
    + intros row' v Hrow' Hv.
      apply elem_of_cons in Hrow' as [->|Hrow'].
      { assert (v = a) by congruence. lia. }
      apply elem_of_cons in Hrow' as [->|Hrow'].
      { assert (v = b) by congruence. lia. }
      apply (Hbound row' v); [apply list_elem_of_further, Hrow'|exact Hv].
    + apply elem_of_cons in Hrow as [->|Hrow].
      * rewrite (Hzip a b Ha Hb) in Hrowk. injection Hrowk as <-.
        destruct (Z.max_spec a b) as [[_ ->]|[_ ->]].
        -- exists r. split; [|exact Hb].
           apply list_elem_of_further, list_elem_of_here.
        -- exists acc. split; [apply list_elem_of_here|exact Ha].
      * exists row. split; [|exact Hrowk].
        do 2 apply list_elem_of_further. exact Hrow.
Qed.

(** The cube [build_streamflow_cube] returns has one row and one time per
    file; every row has the same width, the number of requested COMIDs when
    a non-empty list is given; the array of maxima, when there is one, has
    that width too. *)
Theorem build_streamflow_cube_shape (tmpdir : string) (fs fs' : filesystem)
    (nc_files : list string) (comids : option (list comid))
    (consistent_comid_order compute_max : bool) (c : cube) :
  build_streamflow_cube tmpdir fs nc_files comids consistent_comid_order
    compute_max = (fs', Ok (Some c)) ->
  length (cube_q c) = length nc_files /\
  length (cube_t c) = length nc_files /\
  exists num_rivers,
    Forall (fun row => length row = num_rivers) (cube_q c) /\
    (forall l, comids = Some l -> l <> [] -> num_rivers = length l) /\
    (forall m, cube_max c = Some m -> length m = num_rivers).
Proof.
  intros Hbuild.
  destruct (build_streamflow_cube_inv _ _ _ _ _ _ _ _ Hbuild)
    as (ids & num_rivers & Hne & Hcomids & Hrows & Htlen & Hmax & _).
  split; [eapply rows_of_length, Hrows|]. split; [exact Htlen|].
  pose proof (rows_of_width _ _ _ _ _ _ _ Hrows) as Hwidth.
  exists num_rivers. split; [exact Hwidth|]. split.
  - intros l -> Hl. unfold cube_comids in Hcomids.
    destruct l as [|x l]; [congruence|].
    destruct (coerce_comids (x :: l)) as [ids'|e] eqn:Hids; [|discriminate].
    injection Hcomids as _ <-. apply coerce_comids_length, Hids.
  - intros m Hm. rewrite Hmax in Hm.
    destruct compute_max; [|discriminate]. injection Hm as <-.
    unfold amax_columns. destruct (cube_q c) as [|row rows].
    + inversion Hrows; subst; congruence.
    + apply Forall_cons in Hwidth as [Hrow Hrest].
      apply (foldl_max_columns num_rivers rows row Hrow Hrest).
Qed.

Lemma build_streamflow_cube_shape_witness :
  let files := ["d/f001.nc.gz"; "d/f002.nc"; "d/f003.nc.gz"] in
  let r := build_streamflow_cube "/tmp" sample_fs files
             (Some [CInt 40; CInt 10]) false true in
  exists c,
    r = (r.1, Ok (Some c)) /\
    length (cube_q c) = length files /\
    length (cube_t c) = length files /\
    exists num_rivers,
      Forall (fun row => length row = num_rivers) (cube_q c) /\
      (forall l, Some [CInt 40; CInt 10] = Some l -> l <> [] ->
         num_rivers = length l) /\
      (forall m, cube_max c = Some m -> length m = num_rivers).
Proof.
  intros files r.
  assert (exists c, r = (r.1, Ok (Some c))) as (c & Hr).
  { eexists. vm_compute. reflexivity. }
  exists c. split; [exact Hr|].
  apply (build_streamflow_cube_shape "/tmp" sample_fs r.1 files
           (Some [CInt 40; CInt 10]) false true c Hr).
Defined.



Lemma get_comid_indices_length (find_comids nc_comids : list Z)
    (index : list nat) :
  _get_comid_indices find_comids nc_comids = Ok index ->
  length index = length find_comids.
Proof.
  rewrite get_comid_indices_unfold. intros H.
  apply take_length in H. rewrite H. unfold np.searchsorted.
  apply length_fmap.
Qed.

Lemma broadcast_row_same (num_rivers : nat) (raw row : list Z) :
  broadcast_row num_rivers raw = Ok row -> length raw = num_rivers ->
  row = raw.
Proof.
  unfold broadcast_row. intros H Hlen.
  rewrite decide_True in H by exact Hlen. congruence.
Qed.

(** A row read with freshly computed positions. *)
Lemma read_row_fresh (d : nc_dataset) (name : string) (ids : list Z)
    (consistent_comid_order : bool) (prev idx : option (list nat))
    (raw : list Z) :
  read_row d name (Some ids) consistent_comid_order prev = Ok (idx, raw) ->
  prev = None \/ consistent_comid_order = false ->
  exists station_id q index,
    idx = Some index /\
    get_variable d "station_id" = Ok station_id /\
    _get_comid_indices ids (var_data station_id) = Ok index /\
    get_variable d "streamflow" = Ok q /\
    np.take (var_data q) index = Ok raw.
Proof.
  intros Hrow Hfresh. unfold read_row in Hrow.
  assert (exists index,
            compute_indices d name ids = Ok index /\
            (q ← get_variable d "streamflow";
             row ← np.take (var_data q) index;
             mret (Some index, row)) = Ok (idx, raw)) as (index & Hci & Hrest).
  { destruct Hfresh as [->| ->].
    - destruct (compute_indices d name ids) as [index|e]; [|discriminate].
      exists index. auto.
    - destruct prev as [p|];
        (destruct (compute_indices d name ids) as [index|e]; [|discriminate]);
        exists index; auto. }
  unfold compute_indices in Hci.
  destruct (has_key "station_id" (variables d)); [|discriminate].
  destruct (get_variable d "station_id") as [sid|e]; [|discriminate].
  csimpl in Hci.
  destruct (get_variable d "streamflow") as [q|e]; [|discriminate].
  csimpl in Hrest.
  destruct (np.take (var_data q) index) as [row|e] eqn:Htake; [|discriminate].
  csimpl in Hrest. injection Hrest as <- <-.
  exists sid, q, index. auto.
Qed.

(** A row read with the positions kept from the first file: the station_id
    variable of the file is not consulted. *)
Lemma read_row_reuse (d : nc_dataset) (name : string) (ids : list Z)
    (index : list nat) (idx : option (list nat)) (raw : list Z) :
  read_row d name (Some ids) true (Some index) = Ok (idx, raw) ->
  idx = Some index /\
  exists q, get_variable d "streamflow" = Ok q /\
            np.take (var_data q) index = Ok raw.
Proof.
  unfold read_row. csimpl.
  destruct (get_variable d "streamflow") as [q|e]; [|discriminate]. csimpl.
  destruct (np.take (var_data q) index) as [row|e] eqn:Htake; [|discriminate].
  csimpl. intros [= <- <-]. eauto.
Qed.

Lemma rows_of_fresh (fs : filesystem) (ids : list Z)
    (prev : option (list nat)) (nc_files : list string)
    (rows : list (list Z)) :
  rows_of fs (Some ids) false (length ids) prev nc_files rows ->
  Forall2 (fun f row =>
    exists d station_id q index,
      stored_dataset fs f = Some d /\
      get_variable d "station_id" = Ok station_id /\
      _get_comid_indices ids (var_data station_id) = Ok index /\
      get_variable d "streamflow" = Ok q /\
      np.take (var_data q) index = Ok row) nc_files rows.
Proof.
  induction 1 as [|prev f files d name idx raw row rows Hd Hrow Hfit _ IH];
    constructor; [|exact IH].
  destruct (read_row_fresh _ _ _ _ _ _ _ Hrow (or_intror eq_refl))
    as (sid & q & index & _ & Hsid & Hindex & Hq & Htake).
  assert (row = raw) as ->.
  { apply (broadcast_row_same _ _ _ Hfit).
    rewrite (take_length _ _ _ Htake).
    apply (get_comid_indices_length _ _ _ Hindex). }
  exists d, sid, q, index. auto.
Qed.

Lemma rows_of_reuse (fs : filesystem) (ids : list Z) (index : list nat)
    (nc_files : list string) (rows : list (list Z)) :
  length index = length ids ->
  rows_of fs (Some ids) true (length ids) (Some index) nc_files rows ->
  Forall2 (fun f row =>
    exists d q,
      stored_dataset fs f = Some d /\
      get_variable d "streamflow" = Ok q /\
      np.take (var_data q) index = Ok row) nc_files rows.
Proof.
  intros Hlen Hrows. remember (Some index) as prev eqn:Hprev.
  induction Hrows as [|prev f files d name idx raw row rows Hd Hrow Hfit _ IH];
    constructor; subst prev.
  - destruct (read_row_reuse _ _ _ _ _ _ Hrow) as (_ & q & Hq & Htake).
    assert (row = raw) as ->.
    { apply (broadcast_row_same _ _ _ Hfit).
      rewrite (take_length _ _ _ Htake). exact Hlen. }
    exists d, q. auto.
  - destruct (read_row_reuse _ _ _ _ _ _ Hrow) as (-> & _). apply IH.
    reflexivity.
Qed.

(** Without [consistent_comid_order], every row of the cube holds the flows
    of the requested COMIDs in the order of the request, looked up in the
    station_id variable of the file of that row. *)
Theorem build_streamflow_cube_rows (tmpdir : string) (fs fs' : filesystem)
    (nc_files : list string) (comids : list comid) (ids : list Z)
    (compute_max : bool) (c : cube) :
  comids <> [] ->
  coerce_comids comids = Ok ids ->
  (forall f d station_id, f ∈ nc_files ->
     stored_dataset fs f = Some d ->
     get_variable d "station_id" = Ok station_id ->
     forall x, x ∈ ids -> x ∈ var_data station_id) ->
  build_streamflow_cube tmpdir fs nc_files (Some comids) false compute_max
  = (fs', Ok (Some c)) ->
  Forall2 (fun f row =>
    exists d station_id q,
      stored_dataset fs f = Some d /\
      get_variable d "station_id" = Ok station_id /\
      get_variable d "streamflow" = Ok q /\
      length row = length ids /\
      forall k id, ids !! k = Some id ->
        exists pos, var_data station_id !! pos = Some id /\
                    row !! k = var_data q !! pos) nc_files (cube_q c).
Proof.
  intros Hne Hids Hin Hbuild.
  destruct (build_streamflow_cube_inv _ _ _ _ _ _ _ _ Hbuild)
    as (ids' & n & _ & Hcomids & Hrows & _).
  rewrite (cube_comids_given _ _ _ _ Hne Hids) in Hcomids.
  injection Hcomids as <- <-.
  apply rows_of_fresh in Hrows.
  apply Forall2_same_length_lookup_2; [eapply Forall2_length, Hrows|].
  intros i f row Hf Hrow.
  destruct (Forall2_lookup_lr _ _ _ _ _ _ Hrows Hf Hrow)
    as (d & sid & q & index & Hd & Hsid & Hindex & Hq & Htake).
  exists d, sid, q. repeat (split; [assumption|]).
  assert (f ∈ nc_files) as Hmem by (eapply list_elem_of_lookup_2, Hf).
  destruct (get_comid_indices_found ids (var_data sid) (Hin f d sid Hmem Hd Hsid))
    as (idx & Hidx & Hlen & Hres).
  assert (idx = index) as -> by congruence.
  split; [rewrite (take_length _ _ _ Htake); exact Hlen|].
  intros k id Hk. destruct (Hres k id Hk) as (pos & Hpos & Hstored).
  exists pos. split; [exact Hstored|].
  apply (take_lookup _ _ _ _ _ Htake Hpos).
Qed.

Lemma build_streamflow_cube_rows_witness :
  let files := ["d/f001.nc.gz"; "d/f002.nc"; "d/f003.nc.gz"] in
  let r := build_streamflow_cube "/tmp" sample_fs files
             (Some [CStr "30"; CInt 10]) false true in
  exists c,
    r = (r.1, Ok (Some c)) /\
    Forall2 (fun f row =>
      exists d station_id q,
        stored_dataset sample_fs f = Some d /\
        get_variable d "station_id" = Ok station_id /\
        get_variable d "streamflow" = Ok q /\
        length row = length [30; 10] /\
        forall k id, [30; 10] !! k = Some id ->
          exists pos, var_data station_id !! pos = Some id /\
                      row !! k = var_data q !! pos) files (cube_q c).
Proof.
  intros files r.
  assert (exists c, r = (r.1, Ok (Some c))) as (c & Hr).
  { eexists. vm_compute. reflexivity. }
  exists c. split; [exact Hr|].
  apply (build_streamflow_cube_rows "/tmp" sample_fs r.1 files
           [CStr "30"; CInt 10] [30; 10] true c).
  - discriminate.
  - reflexivity.
  - intros f d sid Hf Hd Hsid x Hx.
    assert (var_data sid = [20; 30; 10; 40]) as ->.
    { unfold files in Hf. rewrite !elem_of_cons, elem_of_nil in Hf.
      destruct Hf as [->|[->|[->|[]]]]; vm_compute in Hd;
        injection Hd as <-; vm_compute in Hsid; injection Hsid as <-;
        reflexivity. }
    list_mem.
  - exact Hr.
Defined.

(** With [consistent_comid_order], the positions of the requested COMIDs are
    computed from the station_id variable of the first file only; every row
    of the cube holds the streamflow cells of its file at those positions,
    and the station_id variable of the later files is not consulted. *)
Theorem build_streamflow_cube_consistent (tmpdir : string)
    (fs fs' : filesystem) (nc_files : list string) (comids : list comid)
    (ids : list Z) (compute_max : bool) (c : cube) :
  comids <> [] ->
  coerce_comids comids = Ok ids ->
  build_streamflow_cube tmpdir fs nc_files (Some comids) true compute_max
  = (fs', Ok (Some c)) ->
  exists first d0 station_id index,
    head nc_files = Some first /\
    stored_dataset fs first = Some d0 /\
    get_variable d0 "station_id" = Ok station_id /\
    _get_comid_indices ids (var_data station_id) = Ok index /\
    Forall2 (fun f row =>
      exists d q,
        stored_dataset fs f = Some d /\
        get_variable d "streamflow" = Ok q /\
        np.take (var_data q) index = Ok row) nc_files (cube_q c).
Proof.
  intros Hne Hids Hbuild.
  destruct (build_streamflow_cube_inv _ _ _ _ _ _ _ _ Hbuild)
    as (ids' & n & Hfiles & Hcomids & Hrows & _).
  rewrite (cube_comids_given _ _ _ _ Hne Hids) in Hcomids.
  injection Hcomids as <- <-.
  inversion Hrows
    as [|prev f files d name idx raw row rows Hd Hrow Hfit Hrest]; subst.
  { congruence. }
  destruct (read_row_fresh _ _ _ _ _ _ _ Hrow (or_introl eq_refl))
    as (sid & q & index & -> & Hsid & Hindex & Hq & Htake).
  pose proof (get_comid_indices_length _ _ _ Hindex) as Hlen.
  assert (row = raw) as ->.
  { apply (broadcast_row_same _ _ _ Hfit).
    rewrite (take_length _ _ _ Htake). exact Hlen. }
  exists f, d, sid, index. repeat (split; [first [reflexivity|assumption]|]).
  constructor.
  - exists d, q. auto.
  - apply (rows_of_reuse _ _ _ _ _ Hlen Hrest).
Qed.

Lemma build_streamflow_cube_consistent_witness :
  let files := ["d/f002.nc"; "d/bare.nc.gz"] in
  let r := build_streamflow_cube "/tmp" sample_fs files
             (Some [CInt 30; CInt 20]) true false in
  exists c,
    r = (r.1, Ok (Some c)) /\
    cube_q c = [[298; 202]; [9; 7]] /\
    exists first d0 station_id index,
      head files = Some first /\
      stored_dataset sample_fs first = Some d0 /\
      get_variable d0 "station_id" = Ok station_id /\
      _get_comid_indices [30; 20] (var_data station_id) = Ok index /\
      Forall2 (fun f row =>
        exists d q,
          stored_dataset sample_fs f = Some d /\
          get_variable d "streamflow" = Ok q /\
          np.take (var_data q) index = Ok row) files (cube_q c).
Proof.
  intros files r.
  assert (exists c, r = (r.1, Ok (Some c)) /\ cube_q c = [[298; 202]; [9; 7]])
    as (c & Hr & Hq).
  { eexists. split; vm_compute; reflexivity. }
  exists c. split; [exact Hr|]. split; [exact Hq|].
  apply (build_streamflow_cube_consistent "/tmp" sample_fs r.1 files
           [CInt 30; CInt 20] [30; 20] false c).
  - discriminate.
  - reflexivity.
  - exact Hr.
Defined.

(** The first statement of the loop body leaves every path other than the
    scratch path as it was, whether it succeeds or not. *)
Lemma decompress_frame (tmpdir : string) (fs : filesystem)
    (nc_file : string) (tmpfile : option string) (path : string) :
  (last3 nc_file = ".gz" -> path <> scratch_path tmpdir nc_file) ->
  (decompress tmpdir fs nc_file tmpfile).1 !! path = fs !! path.
Proof.
  intros Hpath. unfold decompress. case_decide as Hgz; [|reflexivity].
  specialize (Hpath Hgz).
  destruct (fs !! nc_file) as [c|]; [|reflexivity].
  destruct (is_file_path _); [|reflexivity].
  destruct c; simpl; apply lookup_insert_ne; congruence.
Qed.

Lemma decompress_tmpfile (tmpdir : string) (fs fs1 : filesystem)
    (nc_file nc_file' : string) (tmpfile tmpfile' : option string) :
  decompress tmpdir fs nc_file tmpfile = (fs1, Ok (nc_file', tmpfile')) ->
  (last3 nc_file = ".gz" /\ tmpfile' = Some (scratch_path tmpdir nc_file)) \/
  (last3 nc_file <> ".gz" /\ tmpfile' = tmpfile).
Proof.
  unfold decompress. case_decide as Hgz.
  - destruct (fs !! nc_file) as [c|]; [|intros H; inversion H].
    destruct (is_file_path _); [|intros H; inversion H].
    destruct c; intros H; inversion H. left. auto.
  - intros [= <- <- <-]. right. auto.
Qed.

(** The loop touches no path other than the scratch paths of the compressed
    files, whatever its outcome. *)
Lemma cube_loop_frame (tmpdir : string) (comids : option (list Z))
    (consistent_comid_order : bool) (num_rivers : nat) (path : string)
    (nc_files : list string) :
  forall (fs : filesystem) (i : nat) (st : cube_state),
  (forall f, f ∈ nc_files -> last3 f = ".gz" ->
     path <> scratch_path tmpdir f) ->
  st_tmpfile st <> Some path ->
  (cube_loop tmpdir fs nc_files i comids consistent_comid_order num_rivers
     st).1 !! path = fs !! path.
Proof.
  induction nc_files as [|f rest IH]; intros fs i st Hpath Htmp;
    [reflexivity|].
  cbn [cube_loop].
  pose proof (decompress_frame tmpdir fs f (st_tmpfile st) path
                (Hpath f (list_elem_of_here _ _))) as Hdec.
  destruct (decompress tmpdir fs f (st_tmpfile st))
    as [fs1 [[nc_file' tmpfile']|e]] eqn:Heq; [|exact Hdec].
  simpl in Hdec.
  destruct (read_step fs1 nc_file' i comids consistent_comid_order
              num_rivers _) as [st2|e] eqn:Hread; [|exact Hdec].
  assert (tmpfile' <> Some path) as Htmp'.
  { destruct (decompress_tmpfile _ _ _ _ _ _ _ Heq) as [[Hgz ->]|[_ ->]];
      [|exact Htmp].
    intros [= Hp]. apply (Hpath f (list_elem_of_here _ _) Hgz). congruence. }
  rewrite IH.
  - rewrite <- Hdec. destruct tmpfile' as [tmp|]; simpl; [|reflexivity].
    case_decide; [reflexivity|]. apply lookup_delete_ne. congruence.
  - intros g Hg. apply Hpath, list_elem_of_further, Hg.
  - destruct (read_step_Ok _ _ _ _ _ _ _ _ Hread) as (_ & _ & _ & _ & _ & _ & ->).
    exact Htmp'.
Qed.

(** [build_streamflow_cube] touches no path of the file system other than the
    scratch paths of the compressed files of its list, whether it returns or
    raises: the files of the list and every other file keep their content. *)
Theorem build_streamflow_cube_frame (tmpdir : string) (fs : filesystem)
    (nc_files : list string) (comids : option (list comid))
    (consistent_comid_order compute_max : bool) (path : string) :
  (forall f, f ∈ nc_files -> last3 f = ".gz" ->
     path <> scratch_path tmpdir f) ->
  (build_streamflow_cube tmpdir fs nc_files comids consistent_comid_order
     compute_max).1 !! path = fs !! path.
Proof.
  intros Hpath. unfold build_streamflow_cube.
  destruct nc_files as [|f rest]; [reflexivity|].
  destruct (cube_comids fs (f :: rest) comids) as [[ids num_rivers]|e];
    [|reflexivity].
  match goal with
  | |- context [cube_loop tmpdir fs ?l 0 ids ?c ?n ?st] =>
      pose proof (cube_loop_frame tmpdir ids c n path l fs 0%nat st Hpath)
        as Hloop;
      destruct (cube_loop tmpdir fs l 0 ids c n st) as [fs1 [st'|e]]
  end; simpl in *; apply Hloop; discriminate.
Qed.

Lemma build_streamflow_cube_frame_witness :
  (forall f, f ∈ ["d/f001.nc.gz"; "d/bare.nc.gz"] -> last3 f = ".gz" ->
     "d/f001.nc.gz" <> scratch_path "/tmp" f) /\
  (build_streamflow_cube "/tmp" sample_fs ["d/f001.nc.gz"; "d/bare.nc.gz"]
     (Some [CInt 10]) false true).1 !! "d/f001.nc.gz"
  = sample_fs !! "d/f001.nc.gz".
Proof.
  assert (forall f, f ∈ ["d/f001.nc.gz"; "d/bare.nc.gz"] -> last3 f = ".gz" ->
            "d/f001.nc.gz" <> scratch_path "/tmp" f) as H.
  { intros f Hf _. rewrite !elem_of_cons, elem_of_nil in Hf.
    destruct Hf as [->|[->|[]]]; vm_compute; discriminate. }
  split; [exact H|].
  apply (build_streamflow_cube_frame "/tmp" sample_fs
           ["d/f001.nc.gz"; "d/bare.nc.gz"] (Some [CInt 10]) false true
           "d/f001.nc.gz" H).
Defined.

(** Without a COMID list (or with an empty one) the first file is opened as
    it is, before any decompression: when it is a compressed file, even one
    that holds a well-formed dataset, the builder raises and the file system
    is unchanged. *)
Theorem build_streamflow_cube_compressed_first (tmpdir : string)
    (fs : filesystem) (first : string) (rest : list string)
    (comids : option (list comid)) (consistent_comid_order compute_max : bool)
    (d : nc_dataset) :
  comids = None \/ comids = Some [] ->
  last3 first = ".gz" ->
  stored_dataset fs first = Some d ->
  build_streamflow_cube tmpdir fs (first :: rest) comids
    consistent_comid_order compute_max = (fs, Raise IOError).
Proof.
  intros Hcomids Hgz Hd. unfold build_streamflow_cube.
  assert (cube_comids fs (first :: rest) comids = Raise IOError) as ->;
    [|reflexivity].
  assert (open_dataset fs first = Raise IOError) as Hopen.
  { unfold stored_dataset in Hd. unfold open_dataset.
    destruct (fs !! first) as [[d'|c|]|]; try reflexivity.
    rewrite decide_True in Hd by exact Hgz. discriminate. }
  unfold cube_comids. destruct Hcomids as [->| ->]; simpl;
    rewrite Hopen; reflexivity.
Qed.

Lemma build_streamflow_cube_compressed_first_witness :
  last3 "d/f001.nc.gz" = ".gz" /\
  stored_dataset sample_fs "d/f001.nc.gz"
  = Some (sample_dataset sample_epoch 1) /\
  build_streamflow_cube "/tmp" sample_fs ["d/f001.nc.gz"; "d/f002.nc"] None
    true true = (sample_fs, Raise IOError).
Proof.
  split; [reflexivity|]. split; [reflexivity|].
  apply (build_streamflow_cube_compressed_first "/tmp" sample_fs
           "d/f001.nc.gz" ["d/f002.nc"] None true true
           (sample_dataset sample_epoch 1)).
  - left. reflexivity.
  - reflexivity.
  - reflexivity.
Defined.

(** With a COMID list, a first file that has no station_id variable makes the
    builder raise its missing-identifier exception, whatever the order flag.
    For a plain file the message names the file and the file system is
    unchanged; for a compressed file the message names the scratch copy,
    which stays in the file system. *)
Theorem build_streamflow_cube_no_station_id (tmpdir : string)
    (fs : filesystem) (first : string) (rest : list string)
    (comids : list comid) (ids : list Z)
    (consistent_comid_order compute_max : bool) (d : nc_dataset)
    (t : datetime) :
  comids <> [] ->
  coerce_comids comids = Ok ids ->
  stored_dataset fs first = Some d ->
  model_output_valid_time d = Some t ->
  assoc "station_id" (variables d) = None ->
  (last3 first <> ".gz" ->
   build_streamflow_cube tmpdir fs (first :: rest) (Some comids)
     consistent_comid_order compute_max
   = (fs, Raise (PyException (no_station_msg first)))) /\
  (last3 first = ".gz" ->
   is_file_path (scratch_path tmpdir first) = true ->
   build_streamflow_cube tmpdir fs (first :: rest) (Some comids)
     consistent_comid_order compute_max
   = (<[scratch_path tmpdir first := NetCDF d]> fs,
      Raise (PyException (no_station_msg (scratch_path tmpdir first))))).
Proof.
  intros Hne Hids Hd Ht Hnone.
  assert (has_key "station_id" (variables d) = false) as Hkey.
  { unfold has_key. rewrite Hnone. apply bool_decide_eq_false.
    intros [x Hx]. discriminate. }
  assert (forall fs1 name i st,
            open_dataset fs1 name = Ok d ->
            st_indices st = None ->
            read_step fs1 name i (Some ids) consistent_comid_order
              (length ids) st
            = Raise (PyException (no_station_msg name))) as Hread.
  { intros fs1 name i st Hopen Hidx. unfold read_step, get_valid_time.
    rewrite Hopen. csimpl. rewrite Ht. csimpl.
    unfold read_row. rewrite Hidx. unfold compute_indices.
    rewrite Hkey. reflexivity. }
  destruct (stored_dataset_lookup fs first d Hd) as [[Hgz Hf]|[Hgz Hf]].
  - split; [intros Hplain; contradiction|]. intros _ Hpath.
    unfold build_streamflow_cube.
    rewrite (cube_comids_given _ _ _ _ Hne Hids).
    cbn [cube_loop]. unfold decompress.
    rewrite decide_True by exact Hgz. rewrite Hf, Hpath.
    rewrite Hread; [reflexivity| |reflexivity].
    unfold open_dataset. rewrite lookup_insert_eq. reflexivity.
  - split; [|intros Hgz'; contradiction]. intros _.
    unfold build_streamflow_cube.
    rewrite (cube_comids_given _ _ _ _ Hne Hids).
    cbn [cube_loop]. unfold decompress.
    rewrite decide_False by exact Hgz.
    rewrite Hread; [reflexivity| |reflexivity].
    unfold open_dataset. rewrite Hf. reflexivity.
Qed.

Lemma build_streamflow_cube_no_station_id_witness :
  let fs := <["e/bare.nc" := NetCDF (sample_dataset_no_id sample_epoch)]>
              sample_fs in
  build_streamflow_cube "/tmp" fs ["e/bare.nc"; "d/f002.nc"]
    (Some [CInt 10]) true true
  = (fs, Raise (PyException (no_station_msg "e/bare.nc"))) /\
  build_streamflow_cube "/tmp" fs ["d/bare.nc.gz"; "d/f002.nc"]
    (Some [CInt 10]) true true
  = (<[scratch_path "/tmp" "d/bare.nc.gz" :=
         NetCDF (sample_dataset_no_id sample_epoch)]> fs,
     Raise (PyException
              (no_station_msg (scratch_path "/tmp" "d/bare.nc.gz")))).
Proof.
  intros fs. split.
  - apply (proj1 (build_streamflow_cube_no_station_id "/tmp" fs "e/bare.nc"
                    ["d/f002.nc"] [CInt 10] [10] true true
                    (sample_dataset_no_id sample_epoch) sample_epoch
                    ltac:(discriminate) eq_refl eq_refl eq_refl eq_refl)).
    discriminate.
  - apply (proj2 (build_streamflow_cube_no_station_id "/tmp" fs "d/bare.nc.gz"
                    ["d/f002.nc"] [CInt 10] [10] true true
                    (sample_dataset_no_id sample_epoch) sample_epoch
                    ltac:(discriminate) eq_refl eq_refl eq_refl eq_refl));
      reflexivity.
Defined.

(** A call of [build_streamflow_cube] that returns has removed the scratch
    copy of every compressed file of its list, and has created no file: the
    file system it leaves is a part of the one it started from. *)
Theorem build_streamflow_cube_cleans_up (tmpdir : string)
    (fs fs' : filesystem) (nc_files : list string)
    (comids : option (list comid))
    (consistent_comid_order compute_max : bool) (c : cube) :
  build_streamflow_cube tmpdir fs nc_files comids consistent_comid_order
    compute_max = (fs', Ok (Some c)) ->
  fs' ⊆ fs /\
  forall f, f ∈ nc_files -> last3 f = ".gz" ->
    fs' !! scratch_path tmpdir f = None.
Proof.
  intros Hbuild. split.
  - destruct (build_streamflow_cube_inv _ _ _ _ _ _ _ _ Hbuild)
      as (ids & num_rivers & _ & _ & _ & _ & _ & Hsub). exact Hsub.
  - apply (build_streamflow_cube_scratch_removed _ _ _ _ _ _ _ _ Hbuild).
Qed.

Lemma build_streamflow_cube_cleans_up_witness :
  let files := ["d/f001.nc.gz"; "d/f002.nc"; "d/f003.nc.gz"] in
  let r := build_streamflow_cube "/tmp" sample_fs files
             (Some [CInt 40; CInt 10]) false true in
  exists c,
    r = (r.1, Ok (Some c)) /\
    r.1 ⊆ sample_fs /\
    forall f, f ∈ files -> last3 f = ".gz" ->
      r.1 !! scratch_path "/tmp" f = None.
Proof.
  intros files r.
  assert (exists c, r = (r.1, Ok (Some c))) as (c & Hr).
  { eexists. vm_compute. reflexivity. }
  exists c. split; [exact Hr|].
  apply (build_streamflow_cube_cleans_up "/tmp" sample_fs r.1 files
           (Some [CInt 40; CInt 10]) false true c Hr).
Defined.

(** ** Combining files, continued *)


(** The cube builder leaves every path that is no scratch path as it was. *)
Lemma cube_untouched (tmpdir : string) (fs : filesystem)
    (nc_files : list string) (comids : option (list comid))
    (consistent_comid_order compute_max : bool) (path : string) :
  (forall f, f ∈ nc_files -> last3 f = ".gz" ->
     path <> scratch_path tmpdir f) ->
  (build_streamflow_cube tmpdir fs nc_files comids consistent_comid_order
     compute_max).1 !! path = fs !! path.
Proof.
  intros Hpath. unfold build_streamflow_cube.
  destruct nc_files as [|f rest]; [reflexivity|].
  destruct (cube_comids fs (f :: rest) comids) as [[ids num_rivers]|e];
    [|reflexivity].
  match goal with
  | |- context [cube_loop tmpdir fs ?l 0 ids ?c ?n ?st] =>
      pose proof (cube_loop_frame tmpdir ids c n path l fs 0%nat st Hpath)
        as Hloop;
      destruct (cube_loop tmpdir fs l 0 ids c n st) as [fs1 [st'|e]]
  end; simpl in *; apply Hloop; discriminate.
Qed.



(** Values that fit their cells are stored as they are. *)
Lemma int32_fits (z : Z) : - 2 ^ 31 <= z < 2 ^ 31 -> int32 z = z.
Proof.
  intros Hz. unfold int32. rewrite Z.mod_small by lia. lia.
Qed.

Lemma round_bits_exact (p a : Z) :
  0 < p -> 0 <= a < 2 ^ p -> round_bits p a = a.
Proof.
  intros Hpos [Ha Hp]. unfold round_bits.
  assert (Z.log2 a < p) as Hlog.
  { destruct (decide (a = 0)) as [->|Hnz]; [exact Hpos|].
    apply Z.log2_lt_pow2; lia. }
  destruct (Z.leb_spec (Z.log2 a + 1 - p) 0); [reflexivity|lia].
Qed.

Lemma f4_exact (z : Z) : Z.abs z < 2 ^ 24 -> f4 z = z.
Proof.
  intros Hz. unfold f4, float64, float32, float_cell.
  assert (round_bits 53 (Z.abs z) = Z.abs z) as ->.
  { apply round_bits_exact; lia. }
  assert ((2 ^ 1024 <=? Z.abs z) = false) as ->.
  { apply Z.leb_gt. eapply Z.lt_trans; [exact Hz|]. reflexivity. }
  assert (Z.abs (Z.sgn z * Z.abs z) = Z.abs z) as -> by lia.
  assert (round_bits 24 (Z.abs z) = Z.abs z) as ->.
  { apply round_bits_exact; lia. }
  assert ((2 ^ 128 <=? Z.abs z) = false) as ->.
  { apply Z.leb_gt. eapply Z.lt_trans; [exact Hz|]. reflexivity. }
  lia.
Qed.



(** When the cube builder raises on the existing files of the list,
    [combine_files] raises the same exception and leaves the file system as
    the builder left it: the output file is not created, and an output file
    of an earlier run is not changed. *)
Theorem combine_files_builder_failure (tmpdir : string) (fs fs1 : filesystem)
    (nc_files : list string) (output_file : string)
    (comids : option (list comid)) (consistent_comid_order compute_max : bool)
    (e : pyerr) :
  build_streamflow_cube tmpdir fs
    (filter (fun f => isfile fs f = true) nc_files) comids
    consistent_comid_order true = (fs1, Raise e) ->
  (forall f, f ∈ nc_files -> last3 f = ".gz" ->
     output_file <> scratch_path tmpdir f) ->
  combine_files tmpdir fs nc_files output_file comids consistent_comid_order
    compute_max = (fs1, Raise e) /\
  fs1 !! output_file = fs !! output_file.
Proof.
  intros Hbuild Hpath. split.
  - unfold combine_files.
    destruct (filter _ nc_files) as [|f files] eqn:Hfiles.
    + inversion Hbuild.
    + rewrite Hbuild. reflexivity.
  - pose proof (cube_untouched tmpdir fs
                  (filter (fun f => isfile fs f = true) nc_files) comids
                  consistent_comid_order true output_file) as Hframe.
    rewrite Hbuild in Hframe. apply Hframe.
    intros f Hf. apply list_elem_of_filter in Hf as [_ Hf].
    apply Hpath, Hf.
Qed.

Lemma combine_files_builder_failure_witness :
  let nc_files := ["d/f001.nc.gz"; "d/bare.nc.gz"] in
  let r := build_streamflow_cube "/tmp" sample_fs
             (filter (fun f => isfile sample_fs f = true) nc_files)
             (Some [CInt 10]) false true in
  r.2 = Raise (PyException (no_station_msg "/tmp/bare.nc")) /\
  combine_files "/tmp" sample_fs nc_files "out.nc" (Some [CInt 10]) false true
  = (r.1, Raise (PyException (no_station_msg "/tmp/bare.nc"))) /\
  r.1 !! "out.nc" = sample_fs !! "out.nc".
Proof.
  intros nc_files r.
  assert (r = (r.1, Raise (PyException (no_station_msg "/tmp/bare.nc"))))
    as Hr by (vm_compute; reflexivity).
  split; [rewrite Hr; reflexivity|].
  apply (combine_files_builder_failure "/tmp" sample_fs r.1 nc_files "out.nc"
           (Some [CInt 10]) false true _ Hr).
  intros f Hf _. unfold nc_files in Hf.
  rewrite !elem_of_cons, elem_of_nil in Hf.
  destruct Hf as [->|[->|[]]]; vm_compute; discriminate.
Defined.

(** Every path that is neither the output path nor the scratch path of a
    compressed file of the list holds after [combine_files] what it held
    before, whether the call returns or raises.  (A file of the list is such
    a path unless it is also given as the output path or lies where a scratch
    copy is written.) *)
Theorem combine_files_frame (tmpdir : string) (fs : filesystem)
    (nc_files : list string) (output_file : string)
    (comids : option (list comid)) (consistent_comid_order compute_max : bool)
    (path : string) :
  path <> output_file ->
  (forall f, f ∈ nc_files -> last3 f = ".gz" ->
     path <> scratch_path tmpdir f) ->
  (combine_files tmpdir fs nc_files output_file comids consistent_comid_order
     compute_max).1 !! path = fs !! path.
Proof.
  intros Hout Hpath. unfold combine_files.
  pose proof (cube_untouched tmpdir fs
                (filter (fun f => isfile fs f = true) nc_files) comids
                consistent_comid_order true path) as Hframe.
  destruct (filter _ nc_files) as [|f files] eqn:Hfiles; [reflexivity|].
  assert (forall g, g ∈ f :: files -> last3 g = ".gz" ->
            path <> scratch_path tmpdir g) as Hpath'.
  { intros g Hg. rewrite <- Hfiles in Hg.
    apply list_elem_of_filter in Hg as [_ Hg]. apply Hpath, Hg. }
  specialize (Hframe Hpath').
  destruct (build_streamflow_cube _ _ _ _ _ _) as [fs1 [[c|]|e]];
    simpl in Hframe; try exact Hframe.
  match goal with
  | |- context [match ?m with Ok _ => _ | Raise _ => _ end] =>
      destruct m as [[[since num_rivers] ids]|e]
  end; simpl; [|exact Hframe].
  rewrite lookup_insert_ne by congruence. exact Hframe.
Qed.

Lemma combine_files_frame_witness :
  let nc_files := ["d/f001.nc.gz"; "d/f002.nc"] in
  "d/f001.nc.gz" <> "out.nc" /\
  (combine_files "/tmp" sample_fs nc_files "out.nc" (Some [CInt 10]) true true).1
    !! "d/f001.nc.gz" = sample_fs !! "d/f001.nc.gz".
Proof.
  intros nc_files.
  assert ("d/f001.nc.gz" <> "out.nc") as Hne by discriminate.
  split; [exact Hne|].
  apply (combine_files_frame "/tmp" sample_fs nc_files "out.nc"
           (Some [CInt 10]) true true "d/f001.nc.gz" Hne).
  intros f Hf _. unfold nc_files in Hf.
  rewrite !elem_of_cons, elem_of_nil in Hf.
  destruct Hf as [->|[->|[]]]; vm_compute; discriminate.
Defined.

(** ** Unpacking time series, continued *)

(** A product outside the four of the [if]/[elif] chain is not rejected up
    front, and the unpacker never returns for it.  An empty first value list
    still raises the ValueError of the empty result set.  A record with data
    raises UnboundLocalError, when the offset that no branch has bound is
    read, provided its initialisation time lies in the years 1 to 9999; an
    initialisation time outside them raises the ValueError of the conversion
    first. *)
Theorem unpack_series_unknown_product (product : string)
    (json_data : ts_payload) :
  product ∉ ["analysis_assim"; "short_range"; "medium_range"; "long_range"] ->
  (forall series_list, _unpack_series json_data product <> Ok series_list) /\
  (forall r, json_data = Single r -> first_len r = 0%nat ->
     _unpack_series json_data product = Raise (ValueError empty_result_msg)) /\
  (forall r t ts, json_data = Single r -> first_len r <> 0%nat ->
     sim_head r = t :: ts -> min_epoch <= t <= max_epoch ->
     _unpack_series json_data product = Raise UnboundLocalError) /\
  (forall r t ts, json_data = Single r -> first_len r <> 0%nat ->
     sim_head r = t :: ts -> ~ (min_epoch <= t <= max_epoch) ->
     exists msg, msg <> empty_result_msg /\
       _unpack_series json_data product = Raise (ValueError msg)).
Proof.
  intros Hproduct.
  assert (product_timing product = None) as Htiming.
  { unfold product_timing.
    repeat case_decide; try reflexivity; subst; exfalso; apply Hproduct;
      rewrite !elem_of_cons; tauto. }
  assert (product <> "long_range") as Hlong.
  { intros ->. apply Hproduct. rewrite !elem_of_cons. tauto. }
  assert (forall r, exists e, unpack_record product r = Raise e) as Hrecord.
  { intros r. unfold unpack_record. case_decide; [eexists; reflexivity|].
    destruct (np.item (sim_head r) 0) as [t|e];
      cbv beta iota delta [mbind result_bind mret result_ret];
      [|eexists; reflexivity].
    destruct (utcfromtimestamp t) as [d|e]; [|eexists; reflexivity].
    rewrite Htiming. eexists. reflexivity. }
  unfold _unpack_series. rewrite decide_False by exact Hlong.
  split; [|split; [|split]].
  - intros series_list. destruct json_data as [r|rs].
    + simpl. destruct (Hrecord r) as [e ->]. discriminate.
    + case_decide; discriminate.
  - intros r -> Hempty. simpl. rewrite (unpack_record_empty _ _ Hempty).
    reflexivity.
  - intros r t ts -> Hdata Hhead Ht. simpl. unfold unpack_record.
    rewrite decide_False by exact Hdata. unfold np.item. rewrite Hhead.
    cbn [lookup list_lookup].
    cbv beta iota delta [mbind result_bind mret result_ret].
    rewrite (utcfromtimestamp_Ok _ Ht), Htiming. reflexivity.
  - intros r t ts -> Hdata Hhead Ht. simpl.
    rewrite (unpack_record_out_of_range _ _ _ _ Hdata Hhead Ht).
    eexists. split; [|reflexivity]. discriminate.
Qed.

Lemma unpack_series_unknown_product_witness :
  let r := SimResult [1466467200] [[1#1; 2#1]] "t00z" in
  let far := SimResult [1000000000000] [[1#1; 2#1]] "t00z" in
  ("short-range" ∉ ["analysis_assim"; "short_range"; "medium_range";
                    "long_range"]) /\
  (forall series_list,
     _unpack_series (Single r) "short-range" <> Ok series_list) /\
  _unpack_series (Single r) "short-range" = Raise UnboundLocalError /\
  exists msg, msg <> empty_result_msg /\
    _unpack_series (Single far) "short-range" = Raise (ValueError msg).
Proof.
  intros r far.
  assert ("short-range" ∉ ["analysis_assim"; "short_range"; "medium_range";
                           "long_range"]) as Hproduct.
  { rewrite !elem_of_cons, elem_of_nil.
    intros [H|[H|[H|[H|[]]]]]; discriminate. }
  split; [exact Hproduct|].
  destruct (unpack_series_unknown_product "short-range" (Single r) Hproduct)
    as (Hnever & _ & Hunbound & _).
  destruct (unpack_series_unknown_product "short-range" (Single far) Hproduct)
    as (_ & _ & _ & Hrange).
  split; [exact Hnever|]. split.
  - apply (Hunbound r 1466467200 [] eq_refl); [discriminate|reflexivity|].
    unfold min_epoch, max_epoch. lia.
  - apply (Hrange far 1000000000000 [] eq_refl); [discriminate|reflexivity|].
    unfold min_epoch, max_epoch. lia.
Defined.

(** ** Dates on the HydroShare explorer *)

Section explorer_facts.

Variable urlopen : string -> result string.
Variable findall : string -> string -> list string.
Variable parse : string -> result datetime.
Variable joined_products : string.

Local Abbreviation loop := (latest_loop urlopen findall parse).
Local Abbreviation listed := (folder_matches urlopen findall).
Local Abbreviation latest :=
  (get_latest_forecast_date urlopen findall parse joined_products).

(** The position of the first dot of a name that starts with a dot-free
    prefix, and the slice behind it. *)
Lemma index_first_dot (prefix rest : string) :
  Forall (fun c => c <> "."%char) (list_ascii_of_string prefix) ->
  String.index 0 "." (prefix +:+ "." +:+ rest) = Some (String.length prefix) /\
  substring (String.length prefix + 1) 12 (prefix +:+ "." +:+ rest)
  = substring 0 12 rest.
Proof.
  induction prefix as [|c prefix IH]; intros Hdot.
  - destruct rest; split; reflexivity.
  - apply Forall_cons in Hdot as [Hc Hdot].
    destruct (IH Hdot) as [Hindex Hslice]. split.
    + change (String c prefix +:+ "." +:+ rest)
        with (String c (prefix +:+ "." +:+ rest)).
      cbn [String.index String.prefix].
      destruct (ascii_dec "." c) as [Heq|_]; [congruence|].
      rewrite Hindex. reflexivity.
    + exact Hslice.
Qed.

Lemma index_no_dot (s : string) :
  Forall (fun c => c <> "."%char) (list_ascii_of_string s) ->
  String.index 0 "." s = None.
Proof.
  induction s as [|c s IH]; intros Hdot; [reflexivity|].
  apply Forall_cons in Hdot as [Hc Hdot].
  cbn [String.index String.prefix].
  destruct (ascii_dec "." c) as [Heq|_]; [congruence|].
  rewrite (IH Hdot). reflexivity.
Qed.

(** The date of an analysis file is parsed from the twelve characters that
    follow the first dot of its name, or from what is left of the name when
    it is shorter; a name without any dot is read from its first character
    on. *)
Theorem analysis_filename_token (prefix rest : string) :
  Forall (fun c => c <> "."%char) (list_ascii_of_string prefix) ->
  _get_date_from_analysis_filename parse (prefix +:+ "." +:+ rest)
  = parse (substring 0 12 rest) /\
  _get_date_from_analysis_filename parse prefix
  = parse (substring 0 12 prefix).
Proof.
  intros Hdot. unfold _get_date_from_analysis_filename. split.
  - destruct (index_first_dot prefix rest Hdot) as [-> ->]. reflexivity.
  - rewrite (index_no_dot prefix Hdot). reflexivity.
Qed.

(** The two branches of the loop are the completeness test, and what they
    parse is the stamp of the folder. *)
Lemma latest_loop_step (product pattern folder_date : string)
    (rest : list string) (matches : list string) :
  listed product pattern folder_date = Ok matches ->
  loop product pattern (folder_date :: rest)
  = if forecast_complete product matches
    then date ← parse (forecast_stamp product folder_date matches);
         mret (Some date)
    else loop product pattern rest.
Proof.
  unfold folder_matches. cbn [latest_loop].
  destruct (urlopen _) as [response|e]; [|discriminate]. csimpl.
  intros [= <-]. unfold forecast_complete, forecast_stamp.
  destruct (decide (product = "long_range")) as [->|Hproduct].
  - repeat case_bool_decide; try congruence; reflexivity.
  - destruct (findall pattern response) as [|m ms];
      repeat case_bool_decide; simpl in *; try congruence; reflexivity.
Qed.

(** Folders that are fetched and found incomplete are passed over. *)
Lemma latest_loop_skip (product pattern : string) (skipped rest : list string) :
  Forall (fun g => exists ms, listed product pattern g = Ok ms /\
                              forecast_complete product ms = false) skipped ->
  loop product pattern (skipped ++ rest)
  = loop product pattern rest.
Proof.
  induction 1 as [|g skipped (ms & Hms & Hinc) _ IH]; [reflexivity|].
  rewrite <- app_comm_cons, (latest_loop_step _ _ _ _ _ Hms), Hinc.
  exact IH.
Qed.

Lemma get_latest_forecast_date_unfold (product suffix_pattern max_time_step
    listing : string) :
  assoc product valid_products = Some (suffix_pattern, max_time_step) ->
  urlopen (folder_uri product) = Ok listing ->
  latest product
  = loop product
      (forecast_pattern product suffix_pattern max_time_step)
      (reverse (findall dates_pattern listing)).
Proof.
  intros Hproduct Hlisting. unfold get_latest_forecast_date.
  rewrite Hproduct, Hlisting. reflexivity.
Qed.

(** For a forecast product whose listing can be fetched, the date returned
    is that of the newest complete folder: when the folder [d] of the listing
    is complete and every folder listed after it is fetched and found
    incomplete, the result is the date parsed from the stamp of [d] (and the
    exception of the parser when it cannot read the stamp).  The folders
    listed before [d] are not fetched. *)
Theorem get_latest_forecast_date_newest_complete (product suffix_pattern
    max_time_step listing : string) (older newer : list string) (d : string)
    (matches : list string) :
  let pattern := forecast_pattern product suffix_pattern max_time_step in
  assoc product valid_products = Some (suffix_pattern, max_time_step) ->
  urlopen (folder_uri product) = Ok listing ->
  findall dates_pattern listing = older ++ d :: newer ->
  Forall (fun g => exists ms, listed product pattern g = Ok ms /\
                              forecast_complete product ms = false) newer ->
  listed product pattern d = Ok matches ->
  forecast_complete product matches = true ->
  latest product
  = (date ← parse (forecast_stamp product d matches); mret (Some date)).
Proof.
  intros pattern Hproduct Hlisting Hfolders Hnewer Hd Hcomplete.
  rewrite (get_latest_forecast_date_unfold _ _ _ _ Hproduct Hlisting).
  rewrite Hfolders, reverse_app, reverse_cons, <- app_assoc.
  rewrite latest_loop_skip by (apply Forall_reverse, Hnewer).
  change ([d] ++ reverse older) with (d :: reverse older).
  rewrite (latest_loop_step _ _ _ _ _ Hd), Hcomplete. reflexivity.
Qed.

(** For a forecast product whose listing can be fetched, the result is
    [None] when every folder of the listing is fetched and found incomplete,
    in particular when the listing shows no folder. *)
Theorem get_latest_forecast_date_none (product suffix_pattern max_time_step
    listing : string) :
  let pattern := forecast_pattern product suffix_pattern max_time_step in
  assoc product valid_products = Some (suffix_pattern, max_time_step) ->
  urlopen (folder_uri product) = Ok listing ->
  Forall (fun g => exists ms, listed product pattern g = Ok ms /\
                              forecast_complete product ms = false)
    (findall dates_pattern listing) ->
  latest product = Ok None.
Proof.
  intros pattern Hproduct Hlisting Hall.
  rewrite (get_latest_forecast_date_unfold _ _ _ _ Hproduct Hlisting).
  rewrite <- (app_nil_r (reverse _)).
  rewrite latest_loop_skip by (apply Forall_reverse, Hall). reflexivity.
Qed.

(** What makes [get_latest_forecast_date] raise.  A product other than the
    three forecast products (the analysis product included) raises
    ValueError.  For a forecast product, a listing that cannot be fetched
    raises the exception of the request, and so does a folder that cannot be
    fetched when every folder listed after it is incomplete, whether or not
    an older folder is complete. *)
Theorem get_latest_forecast_date_raises (product : string) :
  (product ∉ ["short_range"; "medium_range"; "long_range"] ->
   exists m, latest product = Raise (ValueError m)) /\
  (forall suffix_pattern max_time_step e,
     assoc product valid_products = Some (suffix_pattern, max_time_step) ->
     urlopen (folder_uri product) = Raise e ->
     latest product = Raise e) /\
  (forall suffix_pattern max_time_step listing older d newer e,
     assoc product valid_products = Some (suffix_pattern, max_time_step) ->
     urlopen (folder_uri product) = Ok listing ->
     findall dates_pattern listing = older ++ d :: newer ->
     Forall (fun g => exists ms,
               listed product
                 (forecast_pattern product suffix_pattern max_time_step) g
               = Ok ms /\
               forecast_complete product ms = false) newer ->
     urlopen (folder_uri (product +:+ "%2F" +:+ d)) = Raise e ->
     latest product = Raise e).
Proof.
  split; [|split].
  - intros Hproduct. unfold get_latest_forecast_date.
    assert (assoc product valid_products = None) as ->.
    { unfold valid_products. cbn [assoc].
      repeat case_decide; try reflexivity; subst; exfalso; apply Hproduct;
        rewrite !elem_of_cons; tauto. }
    eexists. reflexivity.
  - intros suffix_pattern max_time_step e Hproduct Hlisting.
    unfold get_latest_forecast_date.
    rewrite Hproduct, Hlisting. reflexivity.
  - intros suffix_pattern max_time_step listing older d newer e Hproduct
      Hlisting Hfolders Hnewer Hd.
    rewrite (get_latest_forecast_date_unfold _ _ _ _ Hproduct Hlisting).
    rewrite Hfolders, reverse_app, reverse_cons, <- app_assoc.
    rewrite latest_loop_skip by (apply Forall_reverse, Hnewer).
    change ([d] ++ reverse older) with (d :: reverse older).
    cbn [latest_loop]. rewrite Hd. reflexivity.
Qed.

End explorer_facts.

Lemma analysis_filename_token_witness :
  Forall (fun c => c <> "."%char) (list_ascii_of_string "nwm") /\
  _get_date_from_analysis_filename sample_parse "nwm.20160620t06z.nc"
  = sample_parse "20160620t06z" /\
  _get_date_from_analysis_filename sample_parse "nwm"
  = sample_parse "nwm".
Proof.
  assert (Forall (fun c => c <> "."%char) (list_ascii_of_string "nwm")) as Hdot.
  { repeat constructor; discriminate. }
  split; [exact Hdot|].
  apply (analysis_filename_token sample_parse "nwm" "20160620t06z.nc" Hdot).
Defined.

Lemma get_latest_forecast_date_newest_complete_witness :
  get_latest_forecast_date sample_urlopen sample_findall sample_parse ""
    "short_range"
  = Ok (Some (datetime_of_epoch 1466402400)).
Proof.
  apply (get_latest_forecast_date_newest_complete sample_urlopen sample_findall
           sample_parse "" "short_range" "" "015" ">20160620< >20160621<"
           [] ["20160621"] "20160620"
           ["nwm.t00z.short_range.channel_rt.f015.conus.nc_georeferenced.nc";
            "nwm.t06z.short_range.channel_rt.f015.conus.nc_georeferenced.nc"]).
  - reflexivity.
  - reflexivity.
  - reflexivity.
  - constructor; [|constructor]. exists []. split; reflexivity.
  - reflexivity.
  - reflexivity.
Defined.

Lemma get_latest_forecast_date_none_witness :
  get_latest_forecast_date sample_urlopen sample_findall sample_parse ""
    "medium_range" = Ok None.
Proof.
  apply (get_latest_forecast_date_none sample_urlopen sample_findall
           sample_parse "" "medium_range" "" "240" ">20160621<").
  - reflexivity.
  - reflexivity.
  - constructor; [|constructor]. exists []. split; reflexivity.
Defined.

Lemma get_latest_forecast_date_raises_witness :
  (exists m,
     get_latest_forecast_date sample_urlopen sample_findall sample_parse ""
       "analysis_assim" = Raise (ValueError m)) /\
  get_latest_forecast_date sample_urlopen sample_findall sample_parse ""
    "long_range" = Raise IOError.
Proof.
  destruct (get_latest_forecast_date_raises sample_urlopen sample_findall
              sample_parse "" "analysis_assim") as (Hinvalid & _).
  destruct (get_latest_forecast_date_raises sample_urlopen sample_findall
              sample_parse "" "long_range") as (_ & Hlisting & _).
  split.
  - apply Hinvalid. rewrite !elem_of_cons, elem_of_nil.
    intros [H|[H|[H|[]]]]; discriminate.
  - apply (Hlisting "_[1-4]" "720" IOError); reflexivity.
Defined.

(** ** String COMIDs, continued *)

(** The three public operations resolve the positions of the converted
    list: for a file that stores the integers [ids] a COMID list is converted
    to, each operation returns, and what it returns at rank [k] is the cell
    at a position where the file holds [ids !! k]. *)
Lemma read_q_for_comids_resolves (fs : filesystem) (nc_filename : string)
    (comids : list comid) (ids : list Z) (nc : nc_dataset) (t : datetime)
    (station_id q : nc_variable) :
  coerce_comids comids = Ok ids ->
  open_dataset fs nc_filename = Ok nc ->
  model_output_valid_time nc = Some t ->
  get_variable nc "station_id" = Ok station_id ->
  get_variable nc "streamflow" = Ok q ->
  (forall x, x ∈ ids -> x ∈ var_data station_id) ->
  (length (var_data station_id) <= length (var_data q))%nat ->
  exists flows,
    read_q_for_comids fs nc_filename comids
    = Ok {| q_datetime := t; q_flows := flows |} /\
    length flows = length ids /\
    forall k id, ids !! k = Some id ->
      exists pos, var_data station_id !! pos = Some id /\
                  flows !! k = var_data q !! pos.
Proof.
  intros Hids Hopen Ht Hsid Hq Hin Hlong.
  rewrite (read_q_for_comids_unfold _ _ _ _ _ _ _ _ Hids Hopen Ht Hsid Hq).
  destruct (get_comid_indices_bounded ids (var_data station_id) Hin)
    as (idx & Hidx & Hlen & Hbound).
  destruct (get_comid_indices_found ids (var_data station_id) Hin)
    as (idx' & Hidx' & _ & Hres).
  assert (idx' = idx) as -> by congruence.
  destruct (take_bounded (var_data q) idx) as (flows & Hflows & Hflen).
  { eapply Forall_impl; [exact Hbound|]. intros pos Hpos. simpl in Hpos. lia. }
  exists flows. rewrite Hidx.
  cbv beta iota delta [mbind result_bind mret result_ret].
  rewrite Hflows. split; [reflexivity|]. split; [congruence|].
  intros k id Hid. destruct (Hres k id Hid) as (pos & Hpos & Hstored).
  exists pos. split; [exact Hstored|].
  apply (take_lookup _ _ _ _ _ Hflows Hpos).
Qed.

Lemma subset_channel_file_resolves (fs : filesystem)
    (in_nc_filename out_nc_filename : string) (comids : list comid)
    (ids : list Z) (in_nc : nc_dataset) (station_id q : nc_variable) :
  coerce_comids comids = Ok ids ->
  open_dataset fs in_nc_filename = Ok in_nc ->
  get_variable in_nc "station_id" = Ok station_id ->
  get_variable in_nc "streamflow" = Ok q ->
  (forall x, x ∈ ids -> x ∈ var_data station_id) ->
  (forall name var, (name, var) ∈ variables in_nc ->
     name = "streamflow" \/ name = "station_id" ->
     (length (var_data station_id) <= length (var_data var))%nat) ->
  exists out_nc out_station_id out_q,
    subset_channel_file fs in_nc_filename out_nc_filename comids true true
    = (<[out_nc_filename := NetCDF out_nc]> fs, Ok ()) /\
    get_variable out_nc "station_id" = Ok out_station_id /\
    var_data out_station_id = ids /\
    get_variable out_nc "streamflow" = Ok out_q /\
    forall k id, ids !! k = Some id ->
      exists pos, var_data station_id !! pos = Some id /\
                  var_data out_q !! k = var_data q !! pos.
Proof.
  intros Hids Hopen Hsid Hq Hin Hlong.
  destruct (subset_just_streamflow_returns fs in_nc_filename out_nc_filename
              comids true ids in_nc station_id Hids Hopen Hsid Hin Hlong)
    as (fs' & Hcall).
  destruct (subset_channel_file_Ok_inv _ _ _ _ _ _ _ Hcall)
    as (ids' & in_nc' & sid' & index & new & Hids' & Hopen' & Hsid' & Hindex
        & Hnew & ->).
  assert (ids' = ids) as -> by congruence.
  assert (in_nc' = in_nc) as -> by congruence.
  assert (sid' = station_id) as -> by congruence.
  destruct (get_comid_indices_found ids (var_data station_id) Hin)
    as (idx & Hidx & _ & Hres).
  assert (idx = index) as -> by congruence.
  unfold get_variable in Hsid, Hq.
  destruct (assoc "station_id" (variables in_nc)) as [v|] eqn:Hasid;
    [|discriminate].
  injection Hsid as ->.
  destruct (assoc "streamflow" (variables in_nc)) as [w|] eqn:Haq;
    [|discriminate].
  injection Hq as ->.
  destruct (assoc_copied _ _ _ "station_id" _ _ Hnew
              (vars_to_include_station_id in_nc true)) as [Hfwd _].
  destruct (Hfwd station_id Hasid) as (out_sid & Hout_sid & _ & _ & _ & _ & Hdata).
  simpl in Hdata.
  assert ("streamflow" ∈ vars_to_include in_nc true true) as Hinc.
  { apply vars_to_include_streamflow, (assoc_Some_elem_of _ _ _ Haq). }
  destruct (assoc_copied _ _ _ "streamflow" _ _ Hnew Hinc) as [Hfwdq _].
  destruct (Hfwdq q Haq) as (out_q & Hout_q & _ & _ & _ & _ & Hqdata).
  simpl in Hqdata.
  eexists _, out_sid, out_q. split; [exact Hcall|].
  split; [unfold get_variable; simpl; rewrite Hout_sid; reflexivity|].
  split; [eapply take_resolved_ids; eassumption|].
  split; [unfold get_variable; simpl; rewrite Hout_q; reflexivity|].
  intros k id Hid. destruct (Hres k id Hid) as (pos & Hpos & Hstored).
  exists pos. split; [exact Hstored|].
  apply (take_lookup _ _ _ _ _ Hqdata Hpos).
Qed.

Lemma build_streamflow_cube_resolves (tmpdir : string) (fs : filesystem)
    (nc_files : list string) (comids : list comid) (ids : list Z)
    (cells : nat) (compute_max : bool) :
  nc_files <> [] -> comids <> [] ->
  coerce_comids comids = Ok ids ->
  Forall (well_formed_file fs ids cells) nc_files ->
  (forall f, f ∈ nc_files -> last3 f = ".gz" ->
     is_file_path (scratch_path tmpdir f) = true) ->
  (forall f g, f ∈ nc_files -> g ∈ nc_files -> scratch_path tmpdir g <> f) ->
  exists fs' c,
    build_streamflow_cube tmpdir fs nc_files (Some comids) false compute_max
    = (fs', Ok (Some c)) /\
    Forall2 (fun f row =>
      exists d station_id q,
        stored_dataset fs f = Some d /\
        get_variable d "station_id" = Ok station_id /\
        get_variable d "streamflow" = Ok q /\
        length row = length ids /\
        forall k id, ids !! k = Some id ->
          exists pos, var_data station_id !! pos = Some id /\
                      row !! k = var_data q !! pos) nc_files (cube_q c).
Proof.
  intros Hfiles Hne Hids Hwf Hpath Hapart.
  destruct (build_streamflow_cube_returns tmpdir fs ids cells false nc_files
              comids compute_max Hfiles Hne Hids Hwf Hpath Hapart)
    as (fs' & c & Hbuild).
  exists fs', c. split; [exact Hbuild|].
  destruct (build_streamflow_cube_inv _ _ _ _ _ _ _ _ Hbuild)
    as (ids' & n & _ & Hcomids & Hrows & _).
  rewrite (cube_comids_given _ _ _ _ Hne Hids) in Hcomids.
  injection Hcomids as <- <-.
  apply rows_of_fresh in Hrows.
  apply Forall2_same_length_lookup_2; [eapply Forall2_length, Hrows|].
  intros i f row Hf Hrow.
  destruct (Forall2_lookup_lr _ _ _ _ _ _ Hrows Hf Hrow)
    as (d & sid & q & index & Hd & Hsid & Hindex & Hq & Htake).
  exists d, sid, q. repeat (split; [assumption|]).
  assert (forall x, x ∈ ids -> x ∈ var_data sid) as Hin.
  { rewrite Forall_forall in Hwf.
    destruct (Hwf f (list_elem_of_lookup_2 _ _ _ Hf))
      as (d' & sid' & q' & t' & Hd' & _ & Hsid' & _ & Hin' & _).
    assert (d' = d) as -> by congruence.
    assert (sid' = sid) as -> by congruence. exact Hin'. }
  destruct (get_comid_indices_found ids (var_data sid) Hin)
    as (idx & Hidx & Hlen & Hres).
  assert (idx = index) as -> by congruence.
  split; [rewrite (take_length _ _ _ Htake); exact Hlen|].
  intros k id Hk. destruct (Hres k id Hk) as (pos & Hpos & Hstored).
  exists pos. split; [exact Hstored|].
  apply (take_lookup _ _ _ _ _ Htake Hpos).
Qed.

(** C10. For a COMID list whose first element is a string and whose elements
    all read as integers, the three public operations work on the list of the
    integer values.  [read_q_for_comids], [subset_channel_file] and
    [build_streamflow_cube] return what they return for the corresponding
    list of integers (and leave the same files); and on files that store
    these integers they return, the positions being resolved for the integer
    values: the flow, the copied identifier and the copied flow, and the cell
    of a cube row at rank [k] are those of a position where the file holds
    the integer value of the string of rank [k]. *)
Theorem string_comids_as_integers (s : string) (rest : list comid)
    (ints : list Z) :
  Forall2 (fun c z => py_int c = Ok z) (CStr s :: rest) ints ->
  (forall fs nc_filename,
     read_q_for_comids fs nc_filename (CStr s :: rest) =
     read_q_for_comids fs nc_filename (CInt <$> ints)) /\
  (forall fs in_nc_filename out_nc_filename just_streamflow_var include_id_var,
     subset_channel_file fs in_nc_filename out_nc_filename (CStr s :: rest)
       just_streamflow_var include_id_var =
     subset_channel_file fs in_nc_filename out_nc_filename (CInt <$> ints)
       just_streamflow_var include_id_var) /\
  (forall tmpdir fs nc_files consistent_comid_order compute_max,
     build_streamflow_cube tmpdir fs nc_files (Some (CStr s :: rest))
       consistent_comid_order compute_max =
     build_streamflow_cube tmpdir fs nc_files (Some (CInt <$> ints))
       consistent_comid_order compute_max) /\
  (forall fs nc_filename nc t station_id q,
     open_dataset fs nc_filename = Ok nc ->
     model_output_valid_time nc = Some t ->
     get_variable nc "station_id" = Ok station_id ->
     get_variable nc "streamflow" = Ok q ->
     (forall x, x ∈ ints -> x ∈ var_data station_id) ->
     (length (var_data station_id) <= length (var_data q))%nat ->
     exists flows,
       read_q_for_comids fs nc_filename (CStr s :: rest)
       = Ok {| q_datetime := t; q_flows := flows |} /\
       length flows = length ints /\
       forall k z, ints !! k = Some z ->
         exists pos, var_data station_id !! pos = Some z /\
                     flows !! k = var_data q !! pos) /\
  (forall fs in_nc_filename out_nc_filename in_nc station_id q,
     open_dataset fs in_nc_filename = Ok in_nc ->
     get_variable in_nc "station_id" = Ok station_id ->
     get_variable in_nc "streamflow" = Ok q ->
     (forall x, x ∈ ints -> x ∈ var_data station_id) ->
     (forall name var, (name, var) ∈ variables in_nc ->
        name = "streamflow" \/ name = "station_id" ->
        (length (var_data station_id) <= length (var_data var))%nat) ->
     exists out_nc out_station_id out_q,
       subset_channel_file fs in_nc_filename out_nc_filename (CStr s :: rest)
         true true
       = (<[out_nc_filename := NetCDF out_nc]> fs, Ok ()) /\
       get_variable out_nc "station_id" = Ok out_station_id /\
       var_data out_station_id = ints /\
       get_variable out_nc "streamflow" = Ok out_q /\
       forall k z, ints !! k = Some z ->
         exists pos, var_data station_id !! pos = Some z /\
                     var_data out_q !! k = var_data q !! pos) /\
  (forall tmpdir fs nc_files cells compute_max,
     nc_files <> [] ->
     Forall (well_formed_file fs ints cells) nc_files ->
     (forall f, f ∈ nc_files -> last3 f = ".gz" ->
        is_file_path (scratch_path tmpdir f) = true) ->
     (forall f g, f ∈ nc_files -> g ∈ nc_files ->
        scratch_path tmpdir g <> f) ->
     exists fs' c,
       build_streamflow_cube tmpdir fs nc_files (Some (CStr s :: rest)) false
         compute_max = (fs', Ok (Some c)) /\
       Forall2 (fun f row =>
         exists d station_id q,
           stored_dataset fs f = Some d /\
           get_variable d "station_id" = Ok station_id /\
           get_variable d "streamflow" = Ok q /\
           length row = length ints /\
           forall k z, ints !! k = Some z ->
             exists pos, var_data station_id !! pos = Some z /\
                         row !! k = var_data q !! pos) nc_files (cube_q c)).
Proof.
  intros H. pose proof (coerce_comids_strings s rest ints H) as Hs.
  pose proof (coerce_comids_ints ints) as Hi.
  split; [|split; [|split; [|split; [|split]]]].
  - intros fs nc_filename. unfold read_q_for_comids. rewrite Hs, Hi. reflexivity.
  - intros fs i o j k. unfold subset_channel_file. rewrite Hs, Hi. reflexivity.
  - intros tmpdir fs nc_files c m. unfold build_streamflow_cube.
    destruct nc_files as [|f fl]; [reflexivity|].
    assert (cube_comids fs (f :: fl) (Some (CStr s :: rest)) =
            cube_comids fs (f :: fl) (Some (CInt <$> ints))) as ->; [|reflexivity].
    inversion H as [|? z ? ints' Hz Hrest]; subst.
    unfold cube_comids. rewrite Hs.
    change (CInt <$> z :: ints') with (CInt z :: (CInt <$> ints')) in *.
    cbv beta iota. rewrite Hi. reflexivity.
  - intros fs nc_filename nc t station_id q.
    apply (read_q_for_comids_resolves _ _ _ _ _ _ _ _ Hs).
  - intros fs in_nc_filename out_nc_filename in_nc station_id q.
    apply (subset_channel_file_resolves _ _ _ _ _ _ _ _ Hs).
  - intros tmpdir fs nc_files cells compute_max Hfiles.
    apply (build_streamflow_cube_resolves _ _ _ _ _ _ _ Hfiles); [|exact Hs].
    discriminate.
Qed.

Lemma string_comids_as_integers_witness :
  Forall2 (fun c z => py_int c = Ok z)
    [CStr "10"; CStr " 40 "; CInt 20] [10; 40; 20] /\
  read_q_for_comids sample_fs "d/f002.nc" [CStr "10"; CStr " 40 "; CInt 20] =
  read_q_for_comids sample_fs "d/f002.nc" [CInt 10; CInt 40; CInt 20] /\
  exists flows,
    read_q_for_comids sample_fs "d/f002.nc" [CStr "10"; CStr " 40 "; CInt 20]
    = Ok {| q_datetime := sample_epoch + timedelta_hours 1;
            q_flows := flows |} /\
    length flows = 3%nat.
Proof.
  assert (Forall2 (fun c z => py_int c = Ok z)
            [CStr "10"; CStr " 40 "; CInt 20] [10; 40; 20]) as H.
  { repeat constructor. }
  split; [exact H|].
  destruct (string_comids_as_integers "10" [CStr " 40 "; CInt 20] [10; 40; 20] H)
    as (Hread & _ & _ & Hflows & _).
  split; [apply (Hread sample_fs "d/f002.nc")|].
  destruct (Hflows sample_fs "d/f002.nc"
              (sample_dataset (sample_epoch + timedelta_hours 1) 2)
              (sample_epoch + timedelta_hours 1)
              (sample_variable ["station"] [20; 30; 10; 40])
              (sample_variable ["station"] [202; 298; 104; 400]))
    as (flows & Hcall & Hlen & _).
  - reflexivity.
  - reflexivity.
  - reflexivity.
  - reflexivity.
  - intros x Hx. list_mem.
  - simpl. lia.
  - exists flows. split; [exact Hcall|exact Hlen].
Defined.
